(** * GixSQL: the gixpp preprocessor driver and the PostgreSQL runtime driver

    A shallow embedding of
      - [pgsql_fixup_parameters], [DbInterfacePGSQL] (libgixsql-pgsql),
      - [GixPreProcessor::process] / [transform] (libgixpp),
      - the file-name handling at the end of gixpp's [main],
    followed by the properties proved about them.

    Conventions.  C [int]s are [Z], wrapped where the code converts; C
    strings are [string]s (the bytes before the terminating NUL); a nullable
    pointer or [shared_ptr] is an [option], and objects that are shared
    through pointers live in a heap, a [gmap] from their addresses;
    [std::map] is a [gmap].  Everything the driver asks of libpq goes through
    the class [Libpq], everything it takes from headers that are not part of
    the sources through the classes [DbErr] and [Utils]. *)

From Stdlib Require Import ZArith String Ascii List Bool Lia.
From Stdlib Require Import DecimalString DecimalNat.
From stdpp Require Import gmap strings.
Import ListNotations.

Local Open Scope string_scope.

(** ** C library helpers *)

Module CLib.

(** [isalnum] in the "C" locale. *)
Definition isalnum (c : ascii) : bool :=
  let n := nat_of_ascii c in
  ((48 <=? n)%nat && (n <=? 57)%nat)
  || ((65 <=? n)%nat && (n <=? 90)%nat)
  || ((97 <=? n)%nat && (n <=? 122)%nat).

Definition isdigit (c : ascii) : bool :=
  let n := nat_of_ascii c in (48 <=? n)%nat && (n <=? 57)%nat.

(** [isspace] in the "C" locale: space, \t, \n, \v, \f, \r. *)
Definition isspace (c : ascii) : bool :=
  let n := nat_of_ascii c in (n =? 32)%nat || ((9 <=? n)%nat && (n <=? 13)%nat).

(** [tolower] in the "C" locale. *)
Definition tolower (c : ascii) : ascii :=
  let n := nat_of_ascii c in
  if (65 <=? n)%nat && (n <=? 90)%nat then ascii_of_nat (n + 32) else c.

(** [std::to_string] of a non-negative [int]. *)
Definition to_string (n : nat) : string :=
  NilEmpty.string_of_uint (Nat.to_uint n).

(** [std::to_string] of any [int]. *)
Definition to_string_int (z : Z) : string :=
  if (z <? 0)%Z then String "-" (to_string (Z.abs_nat z)) else to_string (Z.to_nat z).

(** Conversion of an integer to [int] (32 bits, two's complement). *)
Definition to_int (z : Z) : Z :=
  ((z + 2147483648) mod 4294967296 - 2147483648)%Z.

(** Conversion of an integer to [uint64_t]. *)
Definition to_uint64 (z : Z) : Z := (z mod 18446744073709551616)%Z.

(** The digit loop of [atoi]: [acc = acc * 10 + (c - '0')] while [c] is a digit. *)
Fixpoint atoi_digits (s : string) (acc : Z) : Z :=
  match s with
  | String c s' =>
      if isdigit c
      then atoi_digits s' (acc * 10 + (Z.of_nat (nat_of_ascii c) - 48))%Z
      else acc
  | EmptyString => acc
  end.

Fixpoint skip_spaces (s : string) : string :=
  match s with
  | String c s' => if isspace c then skip_spaces s' else s
  | EmptyString => s
  end.

(** A value outside [long] (64 bits) becomes [LONG_MIN] or [LONG_MAX]. *)
Definition to_long_sat (z : Z) : Z :=
  Z.max (-9223372036854775808) (Z.min 9223372036854775807 z).

(** [strtol(s, NULL, 10)]: leading white space, an optional sign, then
    decimal digits; the value is saturated to [long]. *)
Definition strtol (s : string) : Z :=
  to_long_sat
    match skip_spaces s with
    | String "-" s' => (- atoi_digits s' 0)%Z
    | String "+" s' => atoi_digits s' 0
    | s' => atoi_digits s' 0
    end.

(** [atoi], as the C library of the platform has it:
    [(int) strtol(s, NULL, 10)].  A value that does not fit an [int] wraps:
    [atoi] of 2147483648 is -2147483648, of 4294967297 it is 1. *)
Definition atoi (s : string) : Z := to_int (strtol s).

(** [strlen]: the bytes before the first NUL. *)
Fixpoint c_str (s : string) : string :=
  match s with
  | String c s' => if Ascii.eqb c zero then EmptyString else String c (c_str s')
  | EmptyString => EmptyString
  end.

Definition strlen (s : string) : nat := String.length (c_str s).

(** Caller memory starting at a pointer [p]: the bytes at [p], [p+1], ... *)
Definition memory := list ascii.

(** [memcpy(p, src, |src|)]. *)
Definition memcpy (p : memory) (src : list ascii) : memory :=
  (src ++ skipn (List.length src) p)%list.

(** [memset(p + off, 0, n)]. *)
Definition memset0 (p : memory) (off n : nat) : memory :=
  (firstn off p ++ repeat zero n ++ skipn (off + n) p)%list.

(** [p[0] = c]. *)
Definition poke0 (p : memory) (c : ascii) : memory := memcpy p [c].

End CLib.

(** ** libcpputils *)

(** Modelled from the spec: [to_lower] (libcpputils) is not part of the
    sources; the spec says prepared-statement names are "lower-cased", which
    is [tolower] applied to every character. *)
Fixpoint to_lower (s : string) : string :=
  match s with
  | String c s' => String (CLib.tolower c) (to_lower s')
  | EmptyString => EmptyString
  end.

(** ** pgsql_fixup_parameters *)

Module Fixup.

(** The local variables of the loop in [pgsql_fixup_parameters].  The counter
    [n] is an [int] starting at 1; it is only incremented, once per character
    at most, so it stays far from [INT_MAX]. *)
Record loop_state := LoopState {
  n : nat;
  in_single_quoted_string : bool;
  in_double_quoted_string : bool;
  in_param_id : bool;
  out_sql : string
}.

Definition dquote : ascii := "034"%char.
Definition squote : ascii := "'"%char.

Definition push (st : loop_state) (s : string) : loop_state :=
  LoopState (n st) (in_single_quoted_string st) (in_double_quoted_string st)
            (in_param_id st) (out_sql st ++ s).

(** One iteration of the [for] loop on the character [c]. *)
Definition step (st : loop_state) (c : ascii) : loop_state :=
  if in_param_id st && CLib.isalnum c then st (* continue *)
  else
    let st := LoopState (n st) (in_single_quoted_string st)
                        (in_double_quoted_string st) false (out_sql st) in
    if Ascii.eqb c dquote then
      let st := push st (String c EmptyString) in
      LoopState (n st) (in_single_quoted_string st)
                (negb (in_double_quoted_string st)) (in_param_id st) (out_sql st)
    else if Ascii.eqb c squote then
      let st := push st (String c EmptyString) in
      LoopState (n st) (negb (in_single_quoted_string st))
                (in_double_quoted_string st) (in_param_id st) (out_sql st)
    else if Ascii.eqb c "?" || Ascii.eqb c ":" then
      if negb (in_single_quoted_string st) && negb (in_double_quoted_string st)
      then
        let st := push st ("$" ++ CLib.to_string (n st)) in
        LoopState (S (n st)) (in_single_quoted_string st)
                  (in_double_quoted_string st) true (out_sql st)
      else push st (String c EmptyString)
    else push st (String c EmptyString).

Definition init : loop_state := LoopState 1 false false false EmptyString.

Fixpoint loop (sql : string) (st : loop_state) : loop_state :=
  match sql with
  | String c sql' => loop sql' (step st c)
  | EmptyString => st
  end.

Definition pgsql_fixup_parameters (sql : string) : string :=
  out_sql (loop sql init).

(** *** The rewriting as the specification words it

    "[?] and [:name] markers in [sql] are rewritten to [$n] in order,
    preserving quoted strings": a scanner that is either outside any quoted
    region, inside a single-quoted one (closed by the next ['] only) or inside
    a double-quoted one (closed by the next double quote only); outside, a [?]
    or a [:] followed by its name (the alphanumeric characters after it) is
    replaced by [$n]; every other character is copied. *)
Inductive region := Outside | InSingle | InDouble.

Fixpoint drop_name (s : string) : string :=
  match s with
  | String c s' => if CLib.isalnum c then drop_name s' else s
  | EmptyString => s
  end.

(** [fuel] bounds the recursion; [String.length sql] always suffices. *)
Fixpoint spec_rewrite (fuel : nat) (r : region) (k : nat) (sql : string) : string :=
  match fuel, sql with
  | S fuel', String c rest =>
      match r with
      | InSingle =>
          String c (spec_rewrite fuel' (if Ascii.eqb c squote then Outside else InSingle) k rest)
      | InDouble =>
          String c (spec_rewrite fuel' (if Ascii.eqb c dquote then Outside else InDouble) k rest)
      | Outside =>
          if Ascii.eqb c squote then String c (spec_rewrite fuel' InSingle k rest)
          else if Ascii.eqb c dquote then String c (spec_rewrite fuel' InDouble k rest)
          else if Ascii.eqb c "?" then
            "$" ++ CLib.to_string k ++ spec_rewrite fuel' Outside (S k) rest
          else if Ascii.eqb c ":" then
            "$" ++ CLib.to_string k ++ spec_rewrite fuel' Outside (S k) (drop_name rest)
          else String c (spec_rewrite fuel' Outside k rest)
      end
  | _, _ => EmptyString
  end.

Definition spec_fixup_parameters (sql : string) : string :=
  spec_rewrite (String.length sql) Outside 1 sql.

(** *** Statements on which the scanner's two quote flags cannot go wrong

    [plain r m sql]: read from region [r], [sql] has no double quote inside a
    single-quoted region, no single quote inside a double-quoted one, and no
    [?] marker directly followed by an alphanumeric character.  [m] says
    whether the scan stands right after a [?], or inside the name of a
    [:name] marker. *)
Inductive marker := NoMarker | AfterQuestion | InName.

Fixpoint plain (r : region) (m : marker) (sql : string) : bool :=
  match sql with
  | EmptyString => true
  | String c rest =>
      match r with
      | InSingle =>
          if Ascii.eqb c squote then plain Outside NoMarker rest
          else if Ascii.eqb c dquote then false
          else plain InSingle NoMarker rest
      | InDouble =>
          if Ascii.eqb c dquote then plain Outside NoMarker rest
          else if Ascii.eqb c squote then false
          else plain InDouble NoMarker rest
      | Outside =>
          if CLib.isalnum c then
            match m with
            | AfterQuestion => false
            | _ => plain Outside m rest
            end
          else if Ascii.eqb c squote then plain InSingle NoMarker rest
          else if Ascii.eqb c dquote then plain InDouble NoMarker rest
          else if Ascii.eqb c "?" then plain Outside AfterQuestion rest
          else if Ascii.eqb c ":" then plain Outside InName rest
          else plain Outside NoMarker rest
      end
  end.

(** The driver's flags against the region and marker of the specification's
    scanner. *)
Definition agrees (st : loop_state) (r : region) (m : marker) : Prop :=
  match r with
  | Outside => in_single_quoted_string st = false /\ in_double_quoted_string st = false
  | InSingle => in_single_quoted_string st = true /\ in_double_quoted_string st = false
                /\ m = NoMarker
  | InDouble => in_single_quoted_string st = false /\ in_double_quoted_string st = true
                /\ m = NoMarker
  end
  /\ in_param_id st = match m with NoMarker => false | _ => true end.

Definition pending (m : marker) (rest : string) : string :=
  match m with InName => drop_name rest | _ => rest end.

(** The statement holds a [?] or a [:]. *)
Fixpoint has_marker (sql : string) : bool :=
  match sql with
  | EmptyString => false
  | String c rest => Ascii.eqb c "?" || Ascii.eqb c ":" || has_marker rest
  end.

(** The statement holds a quote character. *)
Fixpoint has_quote (sql : string) : bool :=
  match sql with
  | EmptyString => false
  | String c rest => Ascii.eqb c dquote || Ascii.eqb c squote || has_quote rest
  end.

(** A character that is neither a quote nor a marker. *)
Definition ordinary (c : ascii) : bool :=
  negb (Ascii.eqb c dquote) && negb (Ascii.eqb c squote)
  && negb (Ascii.eqb c "?") && negb (Ascii.eqb c ":").

(** A text of ordinary characters. *)
Fixpoint all_ordinary (w : string) : bool :=
  match w with
  | EmptyString => true
  | String c w' => ordinary c && all_ordinary w'
  end.

(** An INSERT whose first value is the literal for a six-inch nail, the
    inch sign written as a double quote, and whose second value is a [?]. *)
Definition nail_sql : string :=
  "INSERT INTO T VALUES ('6" ++ String dquote " nail', ?)".

End Fixup.

(** ** gixpp: the file-name arguments of [main] *)

Module Gixpp.

(** *** [std::filesystem::path] on a POSIX host (directory separator [/]) *)

(** Index of the rightmost occurrence of [c]. *)
Fixpoint rindex (c : ascii) (s : string) : option nat :=
  match s with
  | EmptyString => None
  | String a s' =>
      match rindex c s' with
      | Some i => Some (S i)
      | None => if Ascii.eqb a c then Some 0%nat else None
      end
  end.

(** [path::filename()]: what follows the last directory separator. *)
Definition path_filename (p : string) : string :=
  match rindex "/" p with
  | Some i => substring (S i) (String.length p - S i) p
  | None => p
  end.

(** [path::extension()]: from the rightmost period of the file name to its
    end, the period included; empty for [.] and [..], for a name without a
    period, and when the only period is the first character. *)
Definition path_extension (p : string) : string :=
  let f := path_filename p in
  if String.eqb f "." || String.eqb f ".." then EmptyString
  else match rindex "." f with
       | Some (S i) => substring (S i) (String.length f - S i) f
       | _ => EmptyString
       end.

(** [path::stem()]: the file name without its extension. *)
Definition path_stem (p : string) : string :=
  let f := path_filename p in
  substring 0 (String.length f - String.length (path_extension p)) f.

(** [is_alias(f, ext)]: the returned flag and the value left in [ext]. *)
Definition is_alias (f : string) (ext : string) : bool * string :=
  if String.eqb (path_stem f) "@" then (true, path_extension f) else (false, ext).

Definition get_basename (f : string) : string := path_stem f.

(** What [main] does with the two file names once the options are checked. *)
Inductive outcome :=
| Exit (rc : Z) (stderr : string)
| Process (infile outfile : string).

(** [main], from [std::string infile = opt_infile->value(0)] to the calls of
    [setInputFile] / [setOutputFile]. *)
Definition main_files (opt_infile opt_outfile : string) : outcome :=
  let infile := opt_infile in
  let outfile := opt_outfile in
  let outext := EmptyString in
  let '(alias, outext) := is_alias outfile outext in
  let outfile := if alias then get_basename infile ++ "." ++ outext else outfile in
  if String.eqb infile outfile
  then Exit 1 ("ERROR: input and output file must be different" ++ String "010" "")
  else Process infile outfile.

End Gixpp.

(** ** libpq, as far as the driver uses it *)

Module PQ.

(** [ExecStatusType] and [ConnStatusType] (libpq-fe.h). *)
Definition PGRES_EMPTY_QUERY : Z := 0.
Definition PGRES_COMMAND_OK : Z := 1.
Definition PGRES_TUPLES_OK : Z := 2.
Definition PGRES_FATAL_ERROR : Z := 7.
Definition CONNECTION_OK : Z := 0.

(** What the driver reads of a [PGresult]. *)
Record PGresult := {
  status : Z;
  errorMessage : string;
  diag_sqlstate : option string;
  cmd_tuples : string;
  tuples : list (list (option string));
  attr_types : list Z
}.

(** The accessors take a [PGresult*], which may be NULL. *)
Definition PQresultStatus (r : option PGresult) : Z :=
  match r with Some r => status r | None => PGRES_FATAL_ERROR end.

Definition PQresultErrorMessage (r : option PGresult) : string :=
  match r with Some r => errorMessage r | None => EmptyString end.

(** [PQresultErrorField(r, PG_DIAG_SQLSTATE)]. *)
Definition PQresultErrorField_SQLSTATE (r : option PGresult) : option string :=
  match r with Some r => diag_sqlstate r | None => None end.

Definition PQcmdTuples (r : PGresult) : option string := Some (cmd_tuples r).

Definition PQntuples (r : PGresult) : nat := List.length (tuples r).

(** [PQgetvalue]: NULL when the result is NULL or the position is out of
    range, the empty string for an SQL NULL. *)
Definition PQgetvalue (r : option PGresult) (row col : Z) : option string :=
  match r with
  | None => None
  | Some r =>
      if (row <? 0)%Z || (col <? 0)%Z then None
      else match nth_error (tuples r) (Z.to_nat row) with
           | None => None
           | Some t => match nth_error t (Z.to_nat col) with
                       | None => None
                       | Some None => Some EmptyString
                       | Some (Some v) => Some v
                       end
           end
  end.

Definition PQgetisnull (r : option PGresult) (row col : Z) : bool :=
  match r with
  | None => true
  | Some r =>
      if (row <? 0)%Z || (col <? 0)%Z then true
      else match nth_error (tuples r) (Z.to_nat row) with
           | None => true
           | Some t => match nth_error t (Z.to_nat col) with
                       | Some (Some _) => false
                       | _ => true
                       end
           end
  end.

(** [PQftype]: [InvalidOid] (0) out of range. *)
Definition PQftype (r : option PGresult) (col : Z) : Z :=
  match r with
  | None => 0%Z
  | Some r => if (col <? 0)%Z then 0%Z else nth (Z.to_nat col) (attr_types r) 0%Z
  end.

(** What goes over a connection. A NULL parameter array is the empty list. *)
Inductive request :=
| Exec (command : string)
| ExecParams (command : string) (nParams : nat) (paramTypes : list Z)
    (paramValues : list (option string)) (paramLengths paramFormats : list Z)
| Prepare (stmtName query : string)
| ExecPrepared (stmtName : string) (nParams : nat)
    (paramValues : list (option string)) (paramLengths paramFormats : list Z).

Definition exchange : Type := request * option PGresult.

(** An open connection: its [PQstatus] and what was exchanged over it. *)
Record PGconn := {
  conn_status : Z;
  conn_log : list exchange
}.

(** The connection after one more request and its answer. *)
Definition exchanged (conn : PGconn) (rq : request) (r : option PGresult) : PGconn :=
  {| conn_status := conn_status conn;
     conn_log := (conn_log conn ++ [(rq, r)])%list |}.

End PQ.

Import PQ.

(** The backend: how it answers a connection attempt (NULL, or a connection
    with the given [PQstatus]) and each request (given everything exchanged so
    far), and libpq's bytea decoder. *)
Class Libpq := {
  PQconnectdbParams : gmap string string -> option Z;
  PQerrorMessage : PGconn -> string;
  PQanswer : PGconn -> request -> option PGresult;
  PQunescapeBytea : string -> option (list ascii)
}.

(** Codes of IDbInterface.h, which is not part of the sources. *)
Class DbErr := {
  DBERR_CONNECTION_FAILED : Z;
  DBERR_SQL_ERROR : Z;
  DBERR_CLOSE_CURSOR_FAILED : Z;
  DBERR_MOVE_TO_FIRST_FAILED : Z;
  DBERR_PREPARE_FAILED : Z;
  DBERR_INTERNAL_ERR : Z
}.

(** Modelled from the spec: IDbInterface.h is not part of the sources; the
    spec has every operation return "0 on success". *)
Definition DBERR_NO_ERROR : Z := 0.

(** Modelled from the spec: IDbInterface.h is not part of the sources; the
    spec's error taxonomy gives "NO_DATA (100 / 02000)". *)
Definition DBERR_NO_DATA : Z := 100.

(** Helpers of utils.h and cobol_var_flags.h, which are not part of the
    sources. *)
Class Utils := {
  is_tx_termination_statement : string -> bool;
  is_update_or_delete_statement : string -> bool;
  DB_NULL : Z;
  CBL_FIELD_IS_BINARY : Z -> bool
}.

(** ** DbInterfacePGSQL *)

Module PGSQL.

Definition OID_BYTEA : Z := 17.
Definition OID_NUMERIC : Z := 1700.
Definition OID_VARCHAR : Z := 1043.

Definition DECODE_BINARY_ON : Z := 1.
Definition DECODE_BINARY_OFF : Z := 0.
Definition DECODE_BINARY_DEFAULT : Z := DECODE_BINARY_ON.

(** Modelled from the spec: cobol_var_types.h is not part of the sources; the
    spec lists the members of the enumeration. *)
Inductive CobolVarType :=
| COBOL_TYPE_UNSIGNED_NUMBER
| COBOL_TYPE_SIGNED_NUMBER_TC
| COBOL_TYPE_SIGNED_NUMBER_TS
| COBOL_TYPE_SIGNED_NUMBER_LC
| COBOL_TYPE_SIGNED_NUMBER_LS
| COBOL_TYPE_UNSIGNED_NUMBER_PD
| COBOL_TYPE_SIGNED_NUMBER_PD
| COBOL_TYPE_UNSIGNED_BINARY
| COBOL_TYPE_SIGNED_BINARY
| COBOL_TYPE_ALPHANUMERIC
| COBOL_TYPE_JAPANESE.

(** [AutoCommitMode] (IConnectionOptions.h); the driver only compares with
    [Off]. *)
Inductive AutoCommitMode := On | Off.

Definition is_Off (m : AutoCommitMode) : bool :=
  match m with Off => true | On => false end.

Record IConnectionOptions := {
  autocommit : AutoCommitMode;
  client_encoding : string;
  fixup_parameters : bool
}.

Record IDataSourceInfo := {
  getDbName : string;
  getHost : string;
  getPort : Z;
  getUsername : string;
  getPassword : string;
  getOptions : gmap string string
}.

(** [PGResultSetData]. [rs_addr] is the identity of the object a
    [shared_ptr] points to: two pointers compare equal when it agrees. *)
Record PGResultSetData := {
  rs_addr : nat;
  resultset : option PGresult;
  current_row_index : Z;
  num_rows : Z
}.

Definition set_resultset (r : option PGresult) (d : PGResultSetData) : PGResultSetData :=
  {| rs_addr := rs_addr d; resultset := r;
     current_row_index := current_row_index d; num_rows := num_rows d |}.

Definition set_num_rows (k : Z) (d : PGResultSetData) : PGResultSetData :=
  {| rs_addr := rs_addr d; resultset := resultset d;
     current_row_index := current_row_index d; num_rows := k |}.

(** [a && a == b] on two [shared_ptr]s. *)
Definition same_object (a b : option PGResultSetData) : bool :=
  match a, b with
  | Some x, Some y => (rs_addr x =? rs_addr y)%nat
  | _, _ => false
  end.

(** What the driver uses of an [ICursor]: its name and its private data. *)
Record ICursor := {
  getName : string;
  getPrivateData : option PGResultSetData
}.

Definition setPrivateData (d : option PGResultSetData) (c : ICursor) : ICursor :=
  {| getName := getName c; getPrivateData := d |}.

Definition clearPrivateData (c : ICursor) : ICursor := setPrivateData None c.

(** The data members of [DbInterfacePGSQL]; [next_addr] is the allocator
    behind [make_shared]. *)
Record DbInterfacePGSQL := {
  connaddr : option PGconn;
  data_source_info : option IDataSourceInfo;
  connection_opts : option IConnectionOptions;
  current_resultset_data : option PGResultSetData;
  last_rc : Z;
  last_error : string;
  last_state : string;
  _prepared_stmts : gmap string (option PGResultSetData);
  decode_binary : Z;
  use_native_cursors : bool;
  next_addr : nat
}.

(** The object as its member initialisers leave it. *)
Definition new_DbInterfacePGSQL : DbInterfacePGSQL :=
  {| connaddr := None; data_source_info := None; connection_opts := None;
     current_resultset_data := None; last_rc := 0; last_error := EmptyString;
     last_state := EmptyString; _prepared_stmts := ∅;
     decode_binary := DECODE_BINARY_DEFAULT; use_native_cursors := true;
     next_addr := 0 |}.

Definition set_connaddr (v : option PGconn) (s : DbInterfacePGSQL) : DbInterfacePGSQL :=
  {| connaddr := v; data_source_info := data_source_info s;
     connection_opts := connection_opts s;
     current_resultset_data := current_resultset_data s; last_rc := last_rc s;
     last_error := last_error s; last_state := last_state s;
     _prepared_stmts := _prepared_stmts s; decode_binary := decode_binary s;
     use_native_cursors := use_native_cursors s; next_addr := next_addr s |}.

Definition set_conn_info (i : IDataSourceInfo) (o : IConnectionOptions)
    (s : DbInterfacePGSQL) : DbInterfacePGSQL :=
  {| connaddr := connaddr s; data_source_info := Some i;
     connection_opts := Some o;
     current_resultset_data := current_resultset_data s; last_rc := last_rc s;
     last_error := last_error s; last_state := last_state s;
     _prepared_stmts := _prepared_stmts s; decode_binary := decode_binary s;
     use_native_cursors := use_native_cursors s; next_addr := next_addr s |}.

Definition set_current_resultset_data (v : option PGResultSetData)
    (s : DbInterfacePGSQL) : DbInterfacePGSQL :=
  {| connaddr := connaddr s; data_source_info := data_source_info s;
     connection_opts := connection_opts s;
     current_resultset_data := v; last_rc := last_rc s;
     last_error := last_error s; last_state := last_state s;
     _prepared_stmts := _prepared_stmts s; decode_binary := decode_binary s;
     use_native_cursors := use_native_cursors s; next_addr := next_addr s |}.

Definition set_last_rc (v : Z) (s : DbInterfacePGSQL) : DbInterfacePGSQL :=
  {| connaddr := connaddr s; data_source_info := data_source_info s;
     connection_opts := connection_opts s;
     current_resultset_data := current_resultset_data s; last_rc := v;
     last_error := last_error s; last_state := last_state s;
     _prepared_stmts := _prepared_stmts s; decode_binary := decode_binary s;
     use_native_cursors := use_native_cursors s; next_addr := next_addr s |}.

Definition set_last_error (v : string) (s : DbInterfacePGSQL) : DbInterfacePGSQL :=
  {| connaddr := connaddr s; data_source_info := data_source_info s;
     connection_opts := connection_opts s;
     current_resultset_data := current_resultset_data s; last_rc := last_rc s;
     last_error := v; last_state := last_state s;
     _prepared_stmts := _prepared_stmts s; decode_binary := decode_binary s;
     use_native_cursors := use_native_cursors s; next_addr := next_addr s |}.

Definition set_last_state (v : string) (s : DbInterfacePGSQL) : DbInterfacePGSQL :=
  {| connaddr := connaddr s; data_source_info := data_source_info s;
     connection_opts := connection_opts s;
     current_resultset_data := current_resultset_data s; last_rc := last_rc s;
     last_error := last_error s; last_state := v;
     _prepared_stmts := _prepared_stmts s; decode_binary := decode_binary s;
     use_native_cursors := use_native_cursors s; next_addr := next_addr s |}.

Definition set_prepared_stmts (v : gmap string (option PGResultSetData))
    (s : DbInterfacePGSQL) : DbInterfacePGSQL :=
  {| connaddr := connaddr s; data_source_info := data_source_info s;
     connection_opts := connection_opts s;
     current_resultset_data := current_resultset_data s; last_rc := last_rc s;
     last_error := last_error s; last_state := last_state s;
     _prepared_stmts := v; decode_binary := decode_binary s;
     use_native_cursors := use_native_cursors s; next_addr := next_addr s |}.

Definition set_decode_binary (v : Z) (s : DbInterfacePGSQL) : DbInterfacePGSQL :=
  {| connaddr := connaddr s; data_source_info := data_source_info s;
     connection_opts := connection_opts s;
     current_resultset_data := current_resultset_data s; last_rc := last_rc s;
     last_error := last_error s; last_state := last_state s;
     _prepared_stmts := _prepared_stmts s; decode_binary := v;
     use_native_cursors := use_native_cursors s; next_addr := next_addr s |}.

Definition set_use_native_cursors (v : bool) (s : DbInterfacePGSQL) : DbInterfacePGSQL :=
  {| connaddr := connaddr s; data_source_info := data_source_info s;
     connection_opts := connection_opts s;
     current_resultset_data := current_resultset_data s; last_rc := last_rc s;
     last_error := last_error s; last_state := last_state s;
     _prepared_stmts := _prepared_stmts s; decode_binary := decode_binary s;
     use_native_cursors := v; next_addr := next_addr s |}.

Definition set_next_addr (v : nat) (s : DbInterfacePGSQL) : DbInterfacePGSQL :=
  {| connaddr := connaddr s; data_source_info := data_source_info s;
     connection_opts := connection_opts s;
     current_resultset_data := current_resultset_data s; last_rc := last_rc s;
     last_error := last_error s; last_state := last_state s;
     _prepared_stmts := _prepared_stmts s; decode_binary := decode_binary s;
     use_native_cursors := use_native_cursors s; next_addr := v |}.

(** *** The driver's methods run in a state monad over the object; [None] is
    a run that leaves defined behaviour (a null pointer dereferenced, an
    exception that nothing catches). *)
Definition M (A : Type) : Type := DbInterfacePGSQL -> option (A * DbInterfacePGSQL).

Definition ret {A} (a : A) : M A := fun s => Some (a, s).

Definition bind {A B} (m : M A) (k : A -> M B) : M B :=
  fun s => match m s with Some (a, s') => k a s' | None => None end.

Definition get : M DbInterfacePGSQL := fun s => Some (s, s).

Definition modify (f : DbInterfacePGSQL -> DbInterfacePGSQL) : M unit :=
  fun s => Some (tt, f s).

Definition crash {A} : M A := fun _ => None.

(** [*p] for a pointer member read out of the object. *)
Definition deref {A} (p : DbInterfacePGSQL -> option A) : M A :=
  fun s => match p s with Some a => Some (a, s) | None => None end.

Declare Scope pgsql_scope.
Delimit Scope pgsql_scope with pgsql.
Notation "x <- m ;; k" := (bind m (fun x => k))
  (at level 100, m at next level, right associativity) : pgsql_scope.
Notation "m ;; k" := (bind m (fun _ => k))
  (at level 100, right associativity) : pgsql_scope.
Local Open Scope pgsql_scope.

Section Driver.

Context {E : DbErr} {U : Utils} {L : Libpq}.

(** A request on [connaddr]; libpq answers a NULL connection with a NULL
    result and sends nothing. *)
Definition PQsend (rq : request) : M (option PGresult) :=
  fun s =>
    match connaddr s with
    | None => Some (None, s)
    | Some c =>
        let r := PQanswer c rq in
        Some (r, set_connaddr (Some (exchanged c rq r)) s)
    end.

(** [std::make_shared<PGResultSetData>()]. *)
Definition make_shared_PGResultSetData : M PGResultSetData :=
  fun s =>
    Some ({| rs_addr := next_addr s; resultset := None;
             current_row_index := -1; num_rows := 0 |},
          set_next_addr (S (next_addr s)) s).

Definition pg_get_sqlstate (r : option PGresult) : string :=
  match PQresultErrorField_SQLSTATE r with
  | Some c => c
  | None => "00000"
  end.

(** [get_num_rows] on a [PGresult] pointer: [int n = atoi(c)], so a count in
    the command tag that does not fit an [int] wraps ([CLib.atoi]). *)
Definition get_num_rows (r : option PGresult) : Z :=
  match r with
  | None => -1
  | Some r' =>
      match PQcmdTuples r' with
      | None => -1
      | Some c => CLib.atoi c
      end
  end.

Definition pgsqlClearError : M unit :=
  modify (fun s => set_last_state "00000" (set_last_rc DBERR_NO_ERROR (set_last_error EmptyString s))).

Definition pgsqlSetError (err_code : Z) (sqlstate err_msg : string) : M unit :=
  modify (fun s => set_last_state sqlstate (set_last_rc err_code (set_last_error err_msg s))).

Definition get_error_code (s : DbInterfacePGSQL) : Z := last_rc s.

Definition get_state (s : DbInterfacePGSQL) : string := last_state s.

(** Records the status, message and SQLSTATE of [r] in
    [last_rc], [last_error], [last_state]. *)
Definition note_result (r : option PGresult) : M unit :=
  modify (fun s => set_last_state (pg_get_sqlstate r)
                     (set_last_error (PQresultErrorMessage r)
                        (set_last_rc (PQresultStatus r) s))).

Definition get_pgsql_type (t : CobolVarType) (flags : Z) : Z :=
  match t with
  | COBOL_TYPE_UNSIGNED_NUMBER
  | COBOL_TYPE_SIGNED_NUMBER_TC
  | COBOL_TYPE_SIGNED_NUMBER_TS
  | COBOL_TYPE_SIGNED_NUMBER_LC
  | COBOL_TYPE_SIGNED_NUMBER_LS
  | COBOL_TYPE_UNSIGNED_NUMBER_PD
  | COBOL_TYPE_SIGNED_NUMBER_PD
  | COBOL_TYPE_UNSIGNED_BINARY
  | COBOL_TYPE_SIGNED_BINARY => OID_NUMERIC
  | COBOL_TYPE_ALPHANUMERIC
  | COBOL_TYPE_JAPANESE => if CBL_FIELD_IS_BINARY flags then OID_BYTEA else OID_VARCHAR
  end.

(** *** connect *)

Definition supported_libpq_opts : list string :=
  [ "hostaddr"; "connect_timeout"; "application_name"; "keepalives";
    "keepalives_idle"; "keepalives_interval"; "keepalives_count"; "sslmode";
    "requiressl"; "sslcert"; "sslkey"; "sslrootcert"; "sslcrl"; "krbsrvname";
    "gsslib"; "service" ].

Definition connection_params (_conn_info : IDataSourceInfo) : gmap string string :=
  let base : gmap string string :=
    <["password" := getPassword _conn_info]>
      (<["user" := getUsername _conn_info]>
         (<["port" := if (getPort _conn_info =? 0)%Z then EmptyString
                      else CLib.to_string_int (getPort _conn_info)]>
            (<["host" := getHost _conn_info]>
               (<["dbname" := getDbName _conn_info]> ∅)))) in
  fold_left
    (fun m opt => match getOptions _conn_info !! opt with
                  | Some v => <[opt := v]> m
                  | None => m
                  end)
    supported_libpq_opts base.

(** A request on a connection held in a local variable. *)
Definition PQtalk (conn : PGconn) (rq : request) : option PGresult * PGconn :=
  let r := PQanswer conn rq in
  (r, exchanged conn rq r).

(** [PQsetClientEncoding], as libpq implements it: the command
    [set client_encoding to '...'] through [PQexec]; 0 when it succeeds. *)
Definition PQsetClientEncoding (conn : PGconn) (encoding : string) : Z * PGconn :=
  let '(r, conn') := PQtalk conn (Exec ("set client_encoding to '" ++ encoding ++ "'")) in
  (match r with
   | None => -1
   | Some r' => if (status r' =? PGRES_COMMAND_OK)%Z then 0 else -1
   end%Z, conn').

Definition is_on_word (v : string) : bool :=
  String.eqb v "on" || String.eqb v "1" || String.eqb v "true".

Definition is_off_word (v : string) : bool :=
  String.eqb v "off" || String.eqb v "0" || String.eqb v "false".

(** From [opts.find("decode_binary")] to the end of [connect]. *)
Definition connect_options (conn : PGconn) (_conn_info : IDataSourceInfo)
    (_conn_opts : IConnectionOptions) : M Z :=
  let opts := getOptions _conn_info in
  match opts !! "decode_binary" with
  | Some v =>
      (if is_on_word v then modify (set_decode_binary DECODE_BINARY_ON) else ret tt);;
      (if is_off_word v then modify (set_decode_binary DECODE_BINARY_OFF) else ret tt)
  | None => ret tt
  end;;
  match opts !! "native_cursors" with
  | Some v =>
      (if is_on_word v then modify (set_use_native_cursors true) else ret tt);;
      (if is_off_word v then modify (set_use_native_cursors false) else ret tt)
  | None => ret tt
  end;;
  modify (set_connaddr (Some conn));;
  modify (set_conn_info _conn_info _conn_opts);;
  ret DBERR_NO_ERROR.

(** The failure exit shared by the two statements [connect] runs: the result
    goes to [last_rc], [last_error], [last_state]; the connection is dropped. *)
Definition connect_statement_failed (r : option PGresult) : M Z :=
  note_result r;;
  ret DBERR_CONNECTION_FAILED.

(** "Autocommit is set to off. Since PostgreSQL is ALWAYS in autocommit mode
    we will optionally start a transaction". *)
Definition connect_autocommit (conn : PGconn) (_conn_info : IDataSourceInfo)
    (_conn_opts : IConnectionOptions) : M Z :=
  if is_Off (autocommit _conn_opts) then
    let '(r, conn) := PQtalk conn (Exec "BEGIN TRANSACTION") in
    let rc := PQresultStatus r in
    if negb (rc =? PGRES_COMMAND_OK)%Z then connect_statement_failed r
    else connect_options conn _conn_info _conn_opts
  else connect_options conn _conn_info _conn_opts.

Definition connect_default_schema (conn : PGconn) (_conn_info : IDataSourceInfo)
    (_conn_opts : IConnectionOptions) : M Z :=
  match getOptions _conn_info !! "default_schema" with
  | Some default_schema =>
      if negb (String.eqb default_schema EmptyString) then
        let spq := "set search_path to " ++ default_schema in
        let '(r, conn) := PQtalk conn (Exec spq) in
        let rc := PQresultStatus r in
        if negb (rc =? PGRES_COMMAND_OK)%Z then connect_statement_failed r
        else connect_autocommit conn _conn_info _conn_opts
      else connect_autocommit conn _conn_info _conn_opts
  | None => connect_autocommit conn _conn_info _conn_opts
  end.

Definition connect_client_encoding (conn : PGconn) (_conn_info : IDataSourceInfo)
    (_conn_opts : IConnectionOptions) : M Z :=
  if negb (String.eqb (client_encoding _conn_opts) EmptyString) then
    let '(rc, conn) := PQsetClientEncoding conn (client_encoding _conn_opts) in
    if negb (rc =? 0)%Z then
      modify (set_last_rc 1);;
      modify (set_last_error (PQerrorMessage conn));;
      ret DBERR_CONNECTION_FAILED
    else connect_default_schema conn _conn_info _conn_opts
  else connect_default_schema conn _conn_info _conn_opts.

Definition connect (_conn_info : IDataSourceInfo) (_conn_opts : IConnectionOptions) : M Z :=
  modify (set_connaddr None);;
  modify (set_current_resultset_data None);;
  modify (set_last_rc 0);;
  modify (set_last_error EmptyString);;
  modify (set_last_state EmptyString);;
  match PQconnectdbParams (connection_params _conn_info) with
  | None =>
      modify (set_last_error "Connection failed");;
      modify (set_last_rc DBERR_CONNECTION_FAILED);;
      ret DBERR_CONNECTION_FAILED
  | Some st =>
      let conn := {| conn_status := st; conn_log := [] |} in
      if negb (conn_status conn =? CONNECTION_OK)%Z then
        modify (set_last_error (PQerrorMessage conn));;
        modify (set_last_rc (conn_status conn));;
        ret DBERR_CONNECTION_FAILED
      else connect_client_encoding conn _conn_info _conn_opts
  end.

(** *** prepare *)

(** [_prepared_stmts.find(name) != _prepared_stmts.end()]. *)
Definition is_prepared (s : DbInterfacePGSQL) (stmt_name : string) : bool :=
  match _prepared_stmts s !! stmt_name with
  | Some _ => true
  | None => false
  end.

Definition prepare (_stmt_name query : string) : M Z :=
  let stmt_name := to_lower _stmt_name in
  s <- get;;
  if is_prepared s stmt_name then ret DBERR_PREPARE_FAILED
  else
    opts <- deref connection_opts;;
    let prepared_sql :=
      if fixup_parameters opts then Fixup.pgsql_fixup_parameters query else query in
    res <- PQsend (Prepare stmt_name prepared_sql);;
    note_result res;;
    s <- get;;
    if negb (last_rc s =? PGRES_COMMAND_OK)%Z then ret DBERR_PREPARE_FAILED
    else
      (* "for now we just track it, the actual result will be stored later" *)
      modify (fun s => set_prepared_stmts (<[stmt_name := None]> (_prepared_stmts s)) s);;
      ret DBERR_NO_ERROR.

(** *** Parameter marshalling, shared by [exec_prepared] and
    [_pgsql_exec_params] *)

(** One entry of [param_types], [param_vals], [param_lengths],
    [param_formats]. *)
Record bound_param := {
  bp_type : Z;
  bp_val : option string;
  bp_length : Z;
  bp_format : Z
}.

(** [paramValues[i].data()]: the bytes the vector holds; a vector that holds
    nothing has the null pointer. *)
Definition vector_data (v : string) : option string :=
  match v with
  | EmptyString => None
  | _ => Some v
  end.

(** [pgsqlParamArray::assign(i, d, l)], [l] an [int]: for a null [d] the
    entry stays NULL; otherwise [l] bytes of [d] are copied and terminated.
    [None]: [l] is negative ([new char[l + 1]] throws, or [memcpy] is asked
    for [(size_t)-1] bytes), or [memcpy] reads past the end of the vector. *)
Definition assign (d : option string) (l : Z) : option (option string) :=
  match d with
  | None => Some None
  | Some v =>
      if (0 <=? l)%Z && (l <=? Z.of_nat (String.length v))%Z
      then Some (Some (substring 0 (Z.to_nat l) v))
      else None
  end.

(** The [for] loop over [paramValues], from index [i] on ([values] is what is
    left of [paramValues]).  [None]: [paramLengths.at(i)] (or
    [paramTypes.at(i)]) throws [std::out_of_range], or [assign] fails. *)
Fixpoint bind_params (i : nat) (values : list string)
    (paramTypes : list CobolVarType) (paramLengths paramFlags : list Z)
    : option (list bound_param) :=
  match values with
  | [] => Some []
  | v :: values' =>
      match paramLengths !! i, paramTypes !! i, paramFlags !! i with
      | Some len, Some t, Some fl =>
          let '(val, l) :=
            if negb (len =? DB_NULL)%Z
            then (assign (vector_data v) (CLib.to_int len), CLib.to_int len)
            else (assign None 0, 0%Z) in
          match val, bind_params (S i) values' paramTypes paramLengths paramFlags with
          | Some val, Some tl =>
              Some ({| bp_type := get_pgsql_type t fl; bp_val := val; bp_length := l;
                       bp_format := if CBL_FIELD_IS_BINARY fl then 1 else 0 |} :: tl)
          | _, _ => None
          end
      | _, _, _ => None
      end
  end.

Definition parameter_count_mismatch : M Z :=
  modify (set_last_error "Internal error: parameter count mismatch");;
  modify (set_last_rc DBERR_INTERNAL_ERR);;
  ret DBERR_INTERNAL_ERR.

(** *** exec_prepared *)

Definition exec_prepared (_stmt_name : string) (paramTypes : list CobolVarType)
    (paramValues : list string) (paramLengths paramFlags : list Z) : M Z :=
  let stmt_name := to_lower _stmt_name in
  s <- get;;
  if negb (is_prepared s stmt_name) then ret DBERR_SQL_ERROR
  else if negb (List.length paramTypes =? List.length paramValues)%nat
          || negb (List.length paramTypes =? List.length paramFlags)%nat
  then parameter_count_mismatch
  else if negb (List.length paramTypes =? List.length paramValues)%nat
          || negb (List.length paramTypes =? List.length paramFlags)%nat
  then parameter_count_mismatch
  else
    match bind_params 0 paramValues paramTypes paramLengths paramFlags with
    | None => crash
    | Some ps =>
        wk_rs <- make_shared_PGResultSetData;;
        r <- PQsend (ExecPrepared stmt_name (List.length paramValues)
                       (map bp_val ps) (map bp_length ps) (map bp_format ps));;
        let wk_rs := set_resultset r wk_rs in
        note_result r;;
        s <- get;;
        if (last_rc s =? PGRES_COMMAND_OK)%Z || (last_rc s =? PGRES_TUPLES_OK)%Z then
          modify (fun s => set_prepared_stmts
                             (<[stmt_name := Some wk_rs]> (_prepared_stmts s)) s);;
          ret DBERR_NO_ERROR
        else
          modify (set_last_rc (- (10000 + last_rc s))%Z);;
          ret DBERR_SQL_ERROR
    end.

(** *** exec, exec_params *)

(** [PQexecParams(connaddr, query, 0, NULL, NULL, NULL, NULL, 0)]. *)
Definition exec_request (query : string) : request :=
  ExecParams query 0 [] [] [] [].

(** [PQexecParams] with the marshalled parameters [ps]. *)
Definition exec_params_request (query : string) (paramValues : list string)
    (ps : list bound_param) : request :=
  ExecParams query (List.length paramValues) (map bp_type ps) (map bp_val ps)
             (map bp_length ps) (map bp_format ps).

(** "COMMIT/ROLLBACK succeeded, we try to start a new transaction". *)
Definition start_new_transaction : M Z :=
  new_tx_rs <- PQsend (Exec "START TRANSACTION");;
  note_result new_tx_rs;;
  s <- get;;
  ret (if negb (last_rc s =? PGRES_COMMAND_OK)%Z then DBERR_SQL_ERROR else DBERR_NO_ERROR).

(** The last [if]/[else] of [_pgsql_exec]: keep the result set, or turn the
    status into an error code. *)
Definition keep_or_fail (crsr : option ICursor) (wk_rs : PGResultSetData)
    : M (Z * option ICursor) :=
  s <- get;;
  if (last_rc s =? PGRES_COMMAND_OK)%Z || (last_rc s =? PGRES_TUPLES_OK)%Z then
    match crsr with
    | Some c => ret (DBERR_NO_ERROR, Some (setPrivateData (Some wk_rs) c))
    | None =>
        modify (set_current_resultset_data (Some wk_rs));;
        ret (DBERR_NO_ERROR, None)
    end
  else
    modify (set_last_rc (- (10000 + last_rc s))%Z);;
    ret (DBERR_SQL_ERROR, crsr).

(** From [if (last_rc == PGRES_COMMAND_OK)] to the end of [_pgsql_exec];
    [nrows] is the row count the function looks at. *)
Definition after_exec (crsr : option ICursor) (query : string)
    (wk_rs : PGResultSetData) (nrows : Z) : M (Z * option ICursor) :=
  s <- get;;
  if (last_rc s =? PGRES_COMMAND_OK)%Z then
    if is_update_or_delete_statement query then
      if (nrows <=? 0)%Z then
        modify (set_last_rc 100);;
        ret (DBERR_SQL_ERROR, crsr)
      else keep_or_fail crsr wk_rs
    else keep_or_fail crsr wk_rs
  else keep_or_fail crsr wk_rs.

(** "we trap COMMIT/ROLLBACK", then the rest of the function. *)
Definition trap_tx_termination (crsr : option ICursor) (query : string)
    (wk_rs : PGResultSetData) (nrows : Z) : M (Z * option ICursor) :=
  opts <- deref connection_opts;;
  if is_Off (autocommit opts) && is_tx_termination_statement query then
    modify (set_current_resultset_data None);;
    s <- get;;
    if (last_rc s =? PGRES_COMMAND_OK)%Z then
      rc <- start_new_transaction;;
      ret (rc, crsr)
    else after_exec crsr query wk_rs nrows
  else after_exec crsr query wk_rs nrows.

(** The result set the call starts from: the cursor's, or the current one. *)
Definition initial_wk_rs (crsr : option ICursor) (s : DbInterfacePGSQL)
    : option PGResultSetData :=
  match crsr with
  | Some c => getPrivateData c
  | None => current_resultset_data s
  end.

(** [if (wk_rs && wk_rs == current_resultset_data) current_resultset_data.reset()]. *)
Definition reset_if_current (wk_rs : option PGResultSetData) : M unit :=
  s <- get;;
  if same_object wk_rs (current_resultset_data s)
  then modify (set_current_resultset_data None)
  else ret tt.

Definition _pgsql_exec (crsr : option ICursor) (query : string) : M (Z * option ICursor) :=
  s <- get;;
  let wk_rs := initial_wk_rs crsr s in
  reset_if_current wk_rs;;
  wk_rs <- make_shared_PGResultSetData;;
  r <- PQsend (exec_request query);;
  let wk_rs := set_resultset r wk_rs in
  note_result r;;
  trap_tx_termination crsr query wk_rs (get_num_rows (resultset wk_rs)).

Definition exec (query : string) : M Z :=
  res <- _pgsql_exec None query;;
  ret (fst res).

Definition _pgsql_exec_params (crsr : option ICursor) (query : string)
    (paramTypes : list CobolVarType) (paramValues : list string)
    (paramLengths paramFlags : list Z) : M (Z * option ICursor) :=
  s <- get;;
  let wk_rs := initial_wk_rs crsr s in
  if negb (List.length paramTypes =? List.length paramValues)%nat
     || negb (List.length paramTypes =? List.length paramFlags)%nat
  then
    rc <- parameter_count_mismatch;;
    ret (rc, crsr)
  else
    match bind_params 0 paramValues paramTypes paramLengths paramFlags with
    | None => crash
    | Some ps =>
        reset_if_current wk_rs;;
        wk_rs <- make_shared_PGResultSetData;;
        r <- PQsend (exec_params_request query paramValues ps);;
        let wk_rs := set_num_rows (get_num_rows r) (set_resultset r wk_rs) in
        note_result r;;
        trap_tx_termination crsr query wk_rs (num_rows wk_rs)
    end.

Definition exec_params (query : string) (paramTypes : list CobolVarType)
    (paramValues : list string) (paramLengths paramFlags : list Z) : M Z :=
  res <- _pgsql_exec_params None query paramTypes paramValues paramLengths paramFlags;;
  ret (fst res).

(** *** cursor_close *)

(** The [rc] declared inside the [if (use_native_cursors)] block is a second
    variable: it receives the result of [exec] and goes out of scope with the
    block, so the function's own [rc] keeps its initial value. *)
Definition cursor_close (cursor : option ICursor) : M (Z * option ICursor) :=
  let rc := DBERR_NO_ERROR in
  match cursor with
  | None => ret (DBERR_CLOSE_CURSOR_FAILED, None)
  | Some c =>
      s <- get;;
      (if use_native_cursors s then
         let query := "CLOSE " ++ getName c in
         rc <- exec query;;
         ret tt
       else ret tt);;
      let c := match getPrivateData c with
               | Some _ => clearPrivateData c
               | None => c
               end in
      ret (if (rc =? DBERR_NO_ERROR)%Z then DBERR_NO_ERROR else DBERR_CLOSE_CURSOR_FAILED,
           Some c)
  end.

(** *** move_to_first_record *)

Definition move_to_first_record (_stmt_name : string) : M bool :=
  let stmt_name := to_lower _stmt_name in
  s <- get;;
  let invalid : M bool :=
    pgsqlSetError DBERR_MOVE_TO_FIRST_FAILED "HY000" "Invalid statement reference";;
    ret false in
  let with_rs (wk_rs : option PGResultSetData) : M bool :=
    match wk_rs with
    | None => invalid
    | Some rs =>
        match resultset rs with
        | None => invalid
        | Some _ =>
            let nrows := get_num_rows (resultset rs) in
            if (nrows <=? 0)%Z then
              pgsqlSetError DBERR_NO_DATA "02000" "No data";;
              ret false
            else ret true
        end
    end in
  if String.eqb stmt_name EmptyString then with_rs (current_resultset_data s)
  else
    match _prepared_stmts s !! stmt_name with
    | None => invalid
    | Some wk_rs => with_rs wk_rs
    end.

(** *** get_resultset_value *)

Inductive ResultSetContextType := CurrentResultSet | PreparedStatement | Cursor.

Inductive IResultSetContextData :=
| CurrentResultSetContextData
| PreparedStatementContextData (prepared_statement_name : string)
| CursorContextData (cursor : option ICursor).

(** What the call leaves behind: its return value, the memory at [bfr], and
    the two cells [value_len] and [is_db_null] point to. *)
Record resultset_value := {
  rv_return : bool;
  rv_bfr : CLib.memory;
  rv_value_len : Z;
  rv_is_db_null : bool
}.

(** How the [switch] over the context type ends. *)
Inductive selected :=
| Undefined                                   (* a context object of the wrong class,
                                                 or a cursor without private data *)
| ReturnFalse                                 (* the function has returned false *)
| Selected (wk_rs : option PGResultSetData) (row : Z).

Definition select_resultset (this : DbInterfacePGSQL)
    (resultset_context_type : ResultSetContextType)
    (context : IResultSetContextData) (row : Z) : selected :=
  match resultset_context_type, context with
  | CurrentResultSet, _ => Selected (current_resultset_data this) row
  | PreparedStatement, PreparedStatementContextData name =>
      let stmt_name := to_lower name in
      match _prepared_stmts this !! stmt_name with
      | None => ReturnFalse
      | Some wk_rs => Selected wk_rs row
      end
  | Cursor, CursorContextData c =>
      match c with
      | None => ReturnFalse
      | Some c' =>
          match getPrivateData c' with
          | None => Undefined
          | Some wk_rs =>
              (* "we overwrite the row index (for ?)" *)
              Selected (Some wk_rs)
                       (if negb (current_row_index wk_rs =? -1)%Z
                        then current_row_index wk_rs else row)
          end
      end
  | _, _ => Undefined
  end.

(** [*value_len = (int)to_length], the cell being a [uint64_t]. *)
Definition value_len_of (to_length : nat) : Z :=
  CLib.to_uint64 (CLib.to_int (Z.of_nat to_length)).

Definition get_resultset_value (this : DbInterfacePGSQL)
    (resultset_context_type : ResultSetContextType)
    (context : IResultSetContextData) (row col : Z)
    (bfr : CLib.memory) (bfrlen : nat) (is_db_null : bool)
    : option resultset_value :=
  let value_len := 0%Z in
  let failed := {| rv_return := false; rv_bfr := bfr; rv_value_len := value_len;
                   rv_is_db_null := is_db_null |} in
  match select_resultset this resultset_context_type context row with
  | Undefined => None
  | ReturnFalse => Some failed
  | Selected None _ => Some failed
  | Selected (Some wk_rs) row =>
      match PQgetvalue (resultset wk_rs) row col with
      | None => Some failed
      | Some res =>
          if (CLib.strlen res =? 0)%nat && PQgetisnull (resultset wk_rs) row col then
            Some {| rv_return := true; rv_bfr := CLib.poke0 bfr zero;
                    rv_value_len := 0; rv_is_db_null := true |}
          else
            let type := PQftype (resultset wk_rs) col in
            if negb (type =? OID_BYTEA)%Z || (decode_binary this =? 0)%Z then
              let to_length := CLib.strlen res in
              if (bfrlen <? to_length)%nat then Some failed
              else
                (* "copy with trailing null" *)
                Some {| rv_return := true;
                        rv_bfr := CLib.memcpy bfr
                                    (list_ascii_of_string (CLib.c_str res) ++ [zero])%list;
                        rv_value_len := value_len_of to_length;
                        rv_is_db_null := is_db_null |}
            else
              match PQunescapeBytea res with
              | None => Some failed
              | Some tmp_bfr =>
                  let to_length := List.length tmp_bfr in
                  if (bfrlen <? to_length)%nat then Some failed
                  else
                    let bfr := CLib.memcpy bfr tmp_bfr in
                    let bfr := if (to_length <? bfrlen)%nat
                               then CLib.memset0 bfr to_length (bfrlen - to_length)
                               else bfr in
                    Some {| rv_return := true; rv_bfr := bfr;
                            rv_value_len := value_len_of to_length;
                            rv_is_db_null := is_db_null |}
              end
      end
  end.

(** *** Notions the properties are stated with *)

(** The transactions open in the session, read off what was exchanged.  A
    PostgreSQL session has at most one; here it is opened by the two commands
    the driver itself issues and closed by the commands the driver traps as
    COMMIT or ROLLBACK, each only when the backend reports
    [PGRES_COMMAND_OK]. *)
Definition opens_transaction (command : string) : bool :=
  String.eqb command "BEGIN TRANSACTION" || String.eqb command "START TRANSACTION".

Definition command_of (rq : request) : option string :=
  match rq with
  | Exec command => Some command
  | ExecParams command _ _ _ _ _ => Some command
  | _ => None
  end.

Definition tx_step (open : nat) (x : exchange) : nat :=
  match command_of (fst x) with
  | Some command =>
      if (PQresultStatus (snd x) =? PGRES_COMMAND_OK)%Z then
        if opens_transaction command then 1%nat
        else if is_tx_termination_statement command then 0%nat
        else open
      else open
  | None => open
  end.

Definition open_transactions (log : list exchange) : nat :=
  fold_left tx_step log 0%nat.

(** The statements [connect] runs before it starts the first transaction:
    they begin with the keyword [set]. *)
Definition is_setup (x : exchange) : Prop :=
  exists rest, fst x = Exec ("set " ++ rest).

(** What a connection that [connect] hands over has been through: set-up
    statements, then a BEGIN TRANSACTION that succeeded. *)
Definition begun (c : PGconn) : Prop :=
  exists pre r,
    conn_log c = (pre ++ [(Exec "BEGIN TRANSACTION", r)])%list
    /\ Forall is_setup pre
    /\ PQresultStatus r = PGRES_COMMAND_OK.

(** The parameter arrays "are the same length". *)
Definition same_length (paramTypes : list CobolVarType) (paramValues : list string)
    (paramLengths paramFlags : list Z) : Prop :=
  List.length paramTypes = List.length paramValues
  /\ List.length paramTypes = List.length paramLengths
  /\ List.length paramTypes = List.length paramFlags.

(** "The result set of the named prepared statement (or, for an empty name,
    the current result set)"; statement names are looked up lower-cased. *)
Definition named_resultset (s : DbInterfacePGSQL) (stmt_name : string)
    : option PGResultSetData :=
  if String.eqb (to_lower stmt_name) EmptyString then current_resultset_data s
  else match _prepared_stmts s !! to_lower stmt_name with
       | Some (Some rs) => Some rs
       | _ => None
       end.

End Driver.

(** *** The connection's end, cursors, error text *)

(** More codes and the fetch modes of IDbInterface.h, which is not part of
    the sources. *)
Class DbErrCursor := {
  DBERR_CONN_RESET_FAILED : Z;
  DBERR_DECLARE_CURSOR_FAILED : Z;
  DBERR_OPEN_CURSOR_FAILED : Z;
  DBERR_FETCH_ROW_FAILED : Z;
  DBERR_TOO_MUCH_DATA : Z;
  FETCH_CUR_ROW : Z;
  FETCH_PREV_ROW : Z
}.

(** Helpers of libcpputils and the length prefix of varlen_defs.h, which are
    not part of the sources. *)
Class StrUtils := {
  starts_with : string -> string -> bool;
  trim_copy : string -> string;
  VARLEN_LENGTH_SZ : nat
}.

(** [PQcmdTuples], [PQntuples] and [PQnfields] on a result pointer that may
    be NULL: libpq answers the empty string and 0. *)
Definition PQcmdTuples_ptr (r : option PGresult) : option string :=
  match r with
  | Some r' => PQcmdTuples r'
  | None => Some EmptyString
  end.

Definition PQntuples_ptr (r : option PGresult) : nat :=
  match r with
  | Some r' => PQntuples r'
  | None => 0%nat
  end.

Definition PQnfields (r : option PGresult) : Z :=
  match r with
  | Some r' => Z.of_nat (List.length (attr_types r'))
  | None => 0
  end.

Definition set_current_row_index (k : Z) (d : PGResultSetData) : PGResultSetData :=
  {| rs_addr := rs_addr d; resultset := resultset d;
     current_row_index := k; num_rows := num_rows d |}.

(** A write through one [shared_ptr] is seen through every other pointer to
    the same object: the current result set and the statement table. *)
Definition replace_object (d : PGResultSetData) (p : option PGResultSetData)
    : option PGResultSetData :=
  if same_object (Some d) p then Some d else p.

Definition store_object (d : PGResultSetData) (s : DbInterfacePGSQL) : DbInterfacePGSQL :=
  set_prepared_stmts (replace_object d <$> _prepared_stmts s)
    (set_current_resultset_data (replace_object d (current_resultset_data s)) s).

(** What [cursor_open] reads of an [ICursor] besides its name and private
    data; [getQuerySource] yields the memory at the source address (if the
    address is not null) and the length. *)
Record CursorSource := {
  getQuery : string;
  getQuerySource : option CLib.memory * Z;
  isWithHold : bool;
  getParameterValues : list string;
  getParameterTypes : list CobolVarType;
  getParameterLengths : list Z;
  getParameterFlags : list Z
}.

(** [std::string(p)]: the bytes before the first NUL; [None] when the block
    at [p] holds no NUL. *)
Definition string_of_c_str (p : CLib.memory) : option string :=
  if existsb (Ascii.eqb zero) p
  then Some (CLib.c_str (string_of_list_ascii p))
  else None.

(** [std::string(p + off, n)]; [None] when the block at [p] is shorter. *)
Definition string_of_bytes (p : CLib.memory) (off n : nat) : option string :=
  if (off + n <=? List.length p)%nat
  then Some (string_of_list_ascii (firstn n (skipn off p)))
  else None.

Section Cursors.

Context {E : DbErr} {U : Utils} {L : Libpq} {EC : DbErrCursor} {SU : StrUtils}.

Definition terminate_connection : M Z :=
  s <- get;;
  (match connaddr s with
   | Some _ => modify (set_connaddr None)   (* PQfinish *)
   | None => ret tt
   end);;
  modify (set_current_resultset_data None);;
  ret DBERR_NO_ERROR.

Definition reset : M Z :=
  rc <- terminate_connection;;
  if (rc =? DBERR_NO_ERROR)%Z then ret DBERR_NO_ERROR
  else ret DBERR_CONN_RESET_FAILED.

(** [get_num_rows] on a cursor (null: the current result set); the count is
    an [int], as above. *)
Definition get_num_rows_cursor (crsr : option ICursor) (s : DbInterfacePGSQL) : Z :=
  let wk_rs := match crsr with
               | Some c => getPrivateData c
               | None => current_resultset_data s
               end in
  match wk_rs with
  | None => -1
  | Some rs =>
      match PQcmdTuples_ptr (resultset rs) with
      | None => -1
      | Some c => CLib.atoi c
      end
  end.

Definition get_num_fields (crsr : option ICursor) (s : DbInterfacePGSQL) : Z :=
  let wk_rs := match crsr with
               | Some c => getPrivateData c
               | None => current_resultset_data s
               end in
  match wk_rs with
  | None => -1
  | Some rs => PQnfields (resultset rs)
  end.

(** [get_error_message]; [None] is the NULL pointer. *)
Definition get_error_message (s : DbInterfacePGSQL) : option string :=
  match current_resultset_data s with
  | Some rs => Some (PQresultErrorMessage (resultset rs))
  | None =>
      match connaddr s with
      | Some c => Some (PQerrorMessage c)
      | None => None
      end
  end.

(** [cursor_declare].  [_declared_cursors] is read and written by this method
    alone, so it is passed on its own. *)
Definition cursor_declare (cursor : option ICursor)
    (_declared_cursors : gmap string ICursor) : Z * gmap string ICursor :=
  match cursor with
  | None => (DBERR_DECLARE_CURSOR_FAILED, _declared_cursors)
  | Some c =>
      match _declared_cursors !! getName c with
      | None => (DBERR_NO_ERROR, <[getName c := c]> _declared_cursors)
      | Some _ => (DBERR_NO_ERROR, _declared_cursors)
      end
  end.

(** [__get_trimmed_hostref_or_literal]; [None] when the function reads
    outside the block at [data], or asks for a string of negative length. *)
Definition __get_trimmed_hostref_or_literal (data : option CLib.memory) (l : Z)
    : option string :=
  match data with
  | None => Some EmptyString
  | Some p =>
      if (l =? 0)%Z then string_of_c_str p
      else if (0 <? l)%Z then trim_copy <$> string_of_bytes p 0 (Z.to_nat l)
      else
        (* "variable-length fields (negative length)" *)
        let count := (- l - Z.of_nat VARLEN_LENGTH_SZ)%Z in
        if (count <? 0)%Z then None
        else trim_copy <$> string_of_bytes p VARLEN_LENGTH_SZ (Z.to_nat count)
  end.

(** [retrieve_prepared_statement_source]: the returned flag and the value
    left in [src]. *)
Definition retrieve_prepared_statement_source (prep_stmt_name src : string)
    : M (bool * string) :=
  let qry := "select statement from pg_prepared_statements where lower(name) = lower($1)" in
  tr <- PQsend (ExecParams qry 1 [] [Some prep_stmt_name] [] []);;
  note_result tr;;
  s <- get;;
  if (last_rc s =? PGRES_TUPLES_OK)%Z then
    if negb (PQntuples_ptr tr =? 1)%nat then
      modify (set_last_rc 42704);;
      modify (set_last_error (String Fixup.dquote prep_stmt_name
                                ++ String Fixup.dquote " not found"));;
      modify (set_last_state "42704");;
      ret (false, src)
    else
      match PQgetvalue tr 0 0 with
      | None =>
          note_result tr;;
          ret (false, src)
      | Some res => ret (true, res)
      end
  else ret (false, src).

Definition cursor_open (crsr : option (ICursor * CursorSource)) : M (Z * option ICursor) :=
  match crsr with
  | None => ret (DBERR_OPEN_CURSOR_FAILED, None)
  | Some (c, src) =>
      let sname := getName c in
      squery <-
        (if (String.length (getQuery src) =? 0)%nat then
           match __get_trimmed_hostref_or_literal (fst (getQuerySource src))
                   (snd (getQuerySource src)) with
           | Some q => ret q
           | None => crash
           end
         else ret (getQuery src));;
      resolved <-
        (if starts_with squery "@" then
           if (String.length squery <? 1)%nat then crash   (* substr(1) throws *)
           else retrieve_prepared_statement_source
                  (substring 1 (String.length squery - 1) squery) squery
         else ret (true, squery));;
      if negb (fst resolved) then ret (DBERR_OPEN_CURSOR_FAILED, Some c)
      else
        let squery := snd resolved in
        if String.eqb squery EmptyString then
          modify (set_last_rc (-1));;
          modify (set_last_error "Empty query");;
          ret (DBERR_OPEN_CURSOR_FAILED, Some c)
        else
          s <- get;;
          let full_query :=
            if use_native_cursors s then
              if isWithHold src
              then "DECLARE " ++ sname ++ " CURSOR WITH HOLD FOR " ++ squery
              else "DECLARE " ++ sname ++ " CURSOR FOR " ++ squery
            else squery in
          res <- _pgsql_exec_params (Some c) full_query (getParameterTypes src)
                   (getParameterValues src) (getParameterLengths src)
                   (getParameterFlags src);;
          ret (if (fst res =? DBERR_NO_ERROR)%Z then DBERR_NO_ERROR
               else DBERR_OPEN_CURSOR_FAILED, snd res)
  end.

Definition cursor_fetch_one (cursor : option ICursor) (fetchmode : Z)
    : M (Z * option ICursor) :=
  match cursor with
  | None => ret (DBERR_FETCH_ROW_FAILED, None)
  | Some c =>
      let sname := getName c in
      s <- get;;
      if use_native_cursors s then
        let query :=
          if (fetchmode =? FETCH_CUR_ROW)%Z then "FETCH RELATIVE 0 FROM " ++ sname
          else if (fetchmode =? FETCH_PREV_ROW)%Z then "FETCH RELATIVE -1 FROM " ++ sname
          else "FETCH RELATIVE 1 FROM " ++ sname in
        res <- _pgsql_exec (Some c) query;;
        modify (set_last_rc (fst res));;
        if negb (fst res =? DBERR_NO_ERROR)%Z then ret (DBERR_SQL_ERROR, snd res)
        else
          s <- get;;
          let ntuples := get_num_rows_cursor (snd res) s in
          if (ntuples <? 1)%Z then ret (DBERR_NO_DATA, snd res)
          else if (1 <? ntuples)%Z then ret (DBERR_TOO_MUCH_DATA, snd res)
          else ret (DBERR_NO_ERROR, snd res)
      else
        match getPrivateData c with
        | None => crash   (* a null [wk_rs] is dereferenced *)
        | Some wk_rs =>
            let wk_rs := set_current_row_index (current_row_index wk_rs + 1) wk_rs in
            modify (store_object wk_rs);;
            let c := setPrivateData (Some wk_rs) c in
            if (num_rows wk_rs <=? current_row_index wk_rs)%Z
            then ret (DBERR_NO_DATA, Some c)
            else ret (DBERR_NO_ERROR, Some c)
        end
  end.

(** [vector_join]: [s] is the string built so far. *)
Fixpoint vector_join_from (v : list string) (sep : ascii) (s : string) : string :=
  match v with
  | [] => s
  | p :: rest =>
      let s := s ++ p in
      let s := match rest with
               | [] => s                       (* [p == v.end() - 1] *)
               | _ :: _ => s ++ String sep EmptyString
               end in
      vector_join_from rest sep s
  end.

Definition vector_join (v : list string) (sep : ascii) : string :=
  vector_join_from v sep EmptyString.

(** *** Notions the properties are stated with *)

(** How [connect] ends, from any of its stages on. *)
Definition connect_post (info : IDataSourceInfo) (o : IConnectionOptions)
    (s : DbInterfacePGSQL) (res : option (Z * DbInterfacePGSQL)) : Prop :=
  exists rc s',
    res = Some (rc, s')
    /\ _prepared_stmts s' = _prepared_stmts s
    /\ current_resultset_data s' = current_resultset_data s
    /\ ((rc = DBERR_NO_ERROR
         /\ (exists c, connaddr s' = Some c)
         /\ connection_opts s' = Some o
         /\ data_source_info s' = Some info)
        \/ (rc = DBERR_CONNECTION_FAILED
            /\ connaddr s' = connaddr s
            /\ connection_opts s' = connection_opts s)).

(** [k] fetches in a row on the cursor [c]: the codes returned, in order,
    and the cursor as the last fetch leaves it. *)
Fixpoint fetch_times (k : nat) (c : ICursor) (fetchmode : Z) : M (list Z * ICursor) :=
  match k with
  | O => ret ([], c)
  | S k' =>
      res <- cursor_fetch_one (Some c) fetchmode;;
      match snd res with
      | None => crash
      | Some c' =>
          rest <- fetch_times k' c' fetchmode;;
          ret (fst res :: fst rest, snd rest)
      end
  end.

(** The statement a fetch on a native cursor sends. *)
Definition fetch_statement (fetchmode : Z) (sname : string) : string :=
  (if (fetchmode =? FETCH_CUR_ROW)%Z then "FETCH RELATIVE 0 FROM "
   else if (fetchmode =? FETCH_PREV_ROW)%Z then "FETCH RELATIVE -1 FROM "
   else "FETCH RELATIVE 1 FROM ") ++ sname.

End Cursors.

(** The state with the row count of the current result set forgotten. *)
Definition without_num_rows (s : DbInterfacePGSQL) : DbInterfacePGSQL :=
  set_current_resultset_data (set_num_rows 0 <$> current_resultset_data s) s.

(** The parameters [connect] always passes. *)
Definition base_params : list string := [ "dbname"; "host"; "port"; "user"; "password" ].


End PGSQL.

(** ** GixPreProcessor *)

Module PreProcessor.

(** Modelled from the spec: TransformationStepData (ITransformationStep.h)
    is not part of the sources; the spec describes it as a "tagged value with
    kind in {Filename, Buffer}, a string payload". *)
Inductive TransformationStepDataType := Filename | Buffer.

Record TransformationStepData := {
  type : TransformationStepDataType;
  filename : string
}.

(** [new TransformationStepData()]; [process] sets both fields at once. *)
Definition new_TransformationStepData : TransformationStepData :=
  {| type := Buffer; filename := EmptyString |}.

Definition setType (t : TransformationStepDataType) (d : TransformationStepData) :=
  {| type := t; filename := filename d |}.

Definition setFilename (f : string) (d : TransformationStepData) :=
  {| type := type d; filename := f |}.

(** A [TransformationStepData*] is the address of the object it points to;
    the objects live in a heap that maps the addresses in use to them.  Two
    pointers are equal when the addresses are. *)
Definition data_ptr := nat.

(** What [GixPreProcessor] touches of a step object: the two data pointers
    behind [setInput]/[getInput] and [setOutput]/[getOutput]. *)
Record ITransformationStep := {
  getInput : option data_ptr;
  getOutput : option data_ptr
}.

Definition setInput (d : option data_ptr) (st : ITransformationStep) :=
  {| getInput := d; getOutput := getOutput st |}.

Definition setOutput (d : option data_ptr) (st : ITransformationStep) :=
  {| getInput := getInput st; getOutput := d |}.

(** [std::variant<int, float, bool, std::string>]; the float by its bits. *)
Inductive variant :=
| VInt (i : Z)
| VFloat (bits : Z)
| VBool (b : bool)
| VString (s : string).

(** [ErrorData] (ErrorData.h), as [SET_PP_ERR] and [main] use it. *)
Record ErrorData := {
  err_code : Z;
  err_messages : list string;
  warnings : list string
}.

(** A [std::shared_ptr<ITransformationStep>] is the address of the object it
    shares; [objects] maps the addresses in use to the objects.  Two pointers
    are equal when the addresses are. *)
Definition step_ptr := nat.

(** The members of the class, and the two heaps its pointers point into:
    [objects] for the steps, [data_objects] for the data records.  [input]
    and [output] are pointers: the records they point to are the ones the
    first step has as input and the last step as output. *)
Record GixPreProcessor := {
  _infile : string;
  _outfile : string;
  input : option data_ptr;
  output : option data_ptr;
  steps : list step_ptr;
  opts : gmap string variant;
  err_data : ErrorData;
  objects : gmap step_ptr ITransformationStep;
  data_objects : gmap data_ptr TransformationStepData
}.

(** What a step can reach when it runs: the step objects, the data records
    and the error record of the preprocessor. *)
Record world := {
  w_objects : gmap step_ptr ITransformationStep;
  w_data : gmap data_ptr TransformationStepData;
  w_err : ErrorData
}.

(** What lies outside the class: the file system behind [isValid] and
    [file_exists], and the [run] method of each step, which may change the
    step objects, the data records and the error record. *)
Class Steps := {
  isValid : TransformationStepData -> bool;
  file_exists : string -> bool;
  run : step_ptr -> option step_ptr -> world -> bool * world
}.

Definition set_objects (o : gmap step_ptr ITransformationStep) (gp : GixPreProcessor) :=
  {| _infile := _infile gp; _outfile := _outfile gp; input := input gp;
     output := output gp; steps := steps gp; opts := opts gp;
     err_data := err_data gp; objects := o; data_objects := data_objects gp |}.

Definition set_data_objects (d : gmap data_ptr TransformationStepData)
    (gp : GixPreProcessor) :=
  {| _infile := _infile gp; _outfile := _outfile gp; input := input gp;
     output := output gp; steps := steps gp; opts := opts gp;
     err_data := err_data gp; objects := objects gp; data_objects := d |}.

Definition set_err_data (e : ErrorData) (gp : GixPreProcessor) :=
  {| _infile := _infile gp; _outfile := _outfile gp; input := input gp;
     output := output gp; steps := steps gp; opts := opts gp;
     err_data := e; objects := objects gp; data_objects := data_objects gp |}.

Definition set_input (d : option data_ptr) (gp : GixPreProcessor) :=
  {| _infile := _infile gp; _outfile := _outfile gp; input := d;
     output := output gp; steps := steps gp; opts := opts gp;
     err_data := err_data gp; objects := objects gp; data_objects := data_objects gp |}.

Definition set_output (d : option data_ptr) (gp : GixPreProcessor) :=
  {| _infile := _infile gp; _outfile := _outfile gp; input := input gp;
     output := d; steps := steps gp; opts := opts gp;
     err_data := err_data gp; objects := objects gp; data_objects := data_objects gp |}.

(** [SET_PP_ERR(I, S)]. *)
Definition SET_PP_ERR (i : Z) (msg : string) (gp : GixPreProcessor) : GixPreProcessor :=
  set_err_data {| err_code := i;
                  err_messages := (err_messages (err_data gp) ++ [msg])%list;
                  warnings := warnings (err_data gp) |} gp.

(** [p->f(...)] for a setter [f]; [None] when [p] points to no object. *)
Definition update_object (p : step_ptr) (f : ITransformationStep -> ITransformationStep)
    (o : gmap step_ptr ITransformationStep) : option (gmap step_ptr ITransformationStep) :=
  match o !! p with
  | Some st => Some (<[p := f st]> o)
  | None => None
  end.

(** [new TransformationStepData()] with the type and the file name [process]
    gives it: the new record lives at an address no record has. *)
Definition new_file_data (name : string) (gp : GixPreProcessor) : data_ptr * GixPreProcessor :=
  let p : data_ptr := fresh (dom (data_objects gp)) in
  let d := setFilename name (setType Filename new_TransformationStepData) in
  (p, set_data_objects (<[p := d]> (data_objects gp)) gp).

(** The record behind a data pointer; [None] for a null pointer or one that
    points to no record. *)
Definition data_at (h : gmap data_ptr TransformationStepData) (p : option data_ptr)
    : option TransformationStepData :=
  match p with
  | Some a => h !! a
  | None => None
  end.

(** The moment a step is run: its position in [steps], the step, its
    predecessor, and the step objects and data records as they are when
    [run] is entered. *)
Record run_event := {
  ev_index : nat;
  ev_step : step_ptr;
  ev_prev : option step_ptr;
  ev_objects : gmap step_ptr ITransformationStep;
  ev_data : gmap data_ptr TransformationStepData
}.

Definition firstStep (gp : GixPreProcessor) : option step_ptr := head (steps gp).

Definition lastStep (gp : GixPreProcessor) : option step_ptr := last (steps gp).

(** [getOpt(id, b)]. *)
Definition getOpt (gp : GixPreProcessor) (id : string) (b : bool) : variant :=
  match opts gp !! id with
  | Some v => v
  | None => VBool b
  end.

(** [std::get<bool>]; [None] is [std::bad_variant_access]. *)
Definition get_bool (v : variant) : option bool :=
  match v with VBool b => Some b | _ => None end.

(** *** Notions the properties are stated with *)

(** The input pointer a step has at the moment it is run, and the output
    pointer its predecessor in the step list has at that moment. *)
Definition input_at (ev : run_event) : option (option data_ptr) :=
  getInput <$> ev_objects ev !! ev_step ev.

Definition output_at (ev : run_event) (p : step_ptr) : option (option data_ptr) :=
  getOutput <$> ev_objects ev !! p.

(** The record a step has as input at the moment it is run. *)
Definition input_data_at (ev : run_event) : option TransformationStepData :=
  match input_at ev with
  | Some p => data_at (ev_data ev) p
  | None => None
  end.

(** What holds of an event of a pipeline [all], for a loop entered with the
    objects [o0] and the records [d0]: the step at position 0 is run on
    those; a step further down that is not the object [first] is run with
    the output pointer of its predecessor as input pointer. *)
Definition linked_event (all : list step_ptr) (first : step_ptr)
    (o0 : gmap step_ptr ITransformationStep) (d0 : gmap data_ptr TransformationStepData)
    (ev : run_event) : Prop :=
  all !! ev_index ev = Some (ev_step ev)
  /\ match ev_index ev with
     | O => ev_objects ev = o0 /\ ev_data ev = d0
     | S k => ev_step ev <> first ->
              exists p d, all !! k = Some p /\ ev_prev ev = Some p
                          /\ output_at ev p = Some d /\ input_at ev = Some d
     end.

Section Pipeline.

Context {P : Steps}.

(** The [for] loop of [transform], from position [idx] on: [first] is
    [steps.at(0)], [todo] the steps still to run.  Next to the result it
    yields the list of run events, on which the properties are stated. *)
Fixpoint transform_from (first : step_ptr) (idx : nat) (todo : list step_ptr)
    (prev_step : option step_ptr) (w : world)
    : option (bool * world * list run_event) :=
  match todo with
  | [] => Some (true, w, [])
  | step :: todo' =>
      let linked :=
        if negb (step =? first)%nat then
          match prev_step with
          | None => None
          | Some p =>
              match w_objects w !! p with
              | None => None
              | Some pobj => update_object step (setInput (getOutput pobj)) (w_objects w)
              end
          end
        else Some (w_objects w) in
      match linked with
      | None => None
      | Some o =>
          let ev := {| ev_index := idx; ev_step := step; ev_prev := prev_step;
                       ev_objects := o; ev_data := w_data w |} in
          let '(ok, w') := run step prev_step
                             {| w_objects := o; w_data := w_data w; w_err := w_err w |} in
          if negb ok then Some (false, w', [ev])
          else
            match transform_from first (S idx) todo' (Some step) w' with
            | Some (b, w'', evs) => Some (b, w'', ev :: evs)
            | None => None
            end
      end
  end.

(** The preprocessor as the steps leave it. *)
Definition set_world (w : world) (gp : GixPreProcessor) : GixPreProcessor :=
  set_err_data (w_err w) (set_data_objects (w_data w) (set_objects (w_objects w) gp)).

Definition transform (gp : GixPreProcessor)
    : option (bool * GixPreProcessor * list run_event) :=
  match steps gp with
  | [] => Some (true, gp, [])
  | first :: _ =>
      match transform_from first 0 (steps gp) None
              {| w_objects := objects gp; w_data := data_objects gp;
                 w_err := err_data gp |} with
      | Some (b, w, evs) => Some (b, set_world w gp, evs)
      | None => None
      end
  end.

(** The first lines of [process]: the record of the input file is made and
    given to the first step and to [input], the record of the output file to
    the last step and to [output].  [None]: a step pointer points to no
    object. *)
Definition set_files (first last : step_ptr) (gp : GixPreProcessor)
    : option GixPreProcessor :=
  let '(infile, gp) := new_file_data (_infile gp) gp in
  match update_object first (setInput (Some infile)) (objects gp) with
  | None => None
  | Some o =>
      let gp := set_input (Some infile) (set_objects o gp) in
      let '(outfile, gp) := new_file_data (_outfile gp) gp in
      match update_object last (setOutput (Some outfile)) (objects gp) with
      | None => None
      | Some o => Some (set_output (Some outfile) (set_objects o gp))
      end
  end.

(** [output == nullptr || !output->isValid()]. *)
Definition bad_output (gp : GixPreProcessor) : option bool :=
  match output gp with
  | None => Some true
  | Some _ => (fun d => negb (isValid d)) <$> data_at (data_objects gp) (output gp)
  end.

(** [process]; what it prints in verbose mode is left out. *)
Definition process (gp : GixPreProcessor)
    : option (bool * GixPreProcessor * list run_event) :=
  match firstStep gp, lastStep gp with
  | Some first, Some last =>
      match set_files first last gp with
      | None => None
      | Some gp =>
          match data_at (data_objects gp) (input gp) with
          | None => None
          | Some input_data =>
              if negb (isValid input_data)
              then Some (false, SET_PP_ERR 1 "Bad input file" gp, [])
              else
                match get_bool (getOpt gp "no_output" false) with
                | None => None
                | Some no_output =>
                    match (if negb no_output then bad_output gp else Some false) with
                    | None => None
                    | Some true => Some (false, SET_PP_ERR 2 "Bad output file" gp, [])
                    | Some false =>
                        if negb (file_exists (filename input_data))
                        then Some (false, SET_PP_ERR 4 "Input file does not exist" gp, [])
                        else transform gp
                    end
                end
          end
      end
  | _, _ => Some (false, gp, [])
  end.

End Pipeline.

(** The record [process] builds for a file name. *)
Definition file_data (name : string) : TransformationStepData :=
  {| type := Filename; filename := name |}.

(** *** The constructor and the accessors *)

(** [GixPreProcessor()], with the member initialisers of the header. *)
Definition new_GixPreProcessor : GixPreProcessor :=
  {| _infile := EmptyString; _outfile := EmptyString; input := None; output := None;
     steps := []; opts := ∅;
     err_data := {| err_code := 0; err_messages := []; warnings := [] |};
     objects := ∅; data_objects := ∅ |}.

Definition set_steps (l : list step_ptr) (gp : GixPreProcessor) :=
  {| _infile := _infile gp; _outfile := _outfile gp; input := input gp;
     output := output gp; steps := l; opts := opts gp;
     err_data := err_data gp; objects := objects gp; data_objects := data_objects gp |}.

Definition set_opts (o : gmap string variant) (gp : GixPreProcessor) :=
  {| _infile := _infile gp; _outfile := _outfile gp; input := input gp;
     output := output gp; steps := steps gp; opts := o;
     err_data := err_data gp; objects := objects gp; data_objects := data_objects gp |}.

Definition addStep (s : step_ptr) (gp : GixPreProcessor) : GixPreProcessor :=
  set_steps (steps gp ++ [s])%list gp.

Definition addCustomStep (stp : step_ptr) (gp : GixPreProcessor) : GixPreProcessor :=
  addStep stp gp.

Definition setInputFile (i : string) (gp : GixPreProcessor) : GixPreProcessor :=
  {| _infile := i; _outfile := _outfile gp; input := input gp;
     output := output gp; steps := steps gp; opts := opts gp;
     err_data := err_data gp; objects := objects gp; data_objects := data_objects gp |}.

Definition setOutputFile (o : string) (gp : GixPreProcessor) : GixPreProcessor :=
  {| _infile := _infile gp; _outfile := o; input := input gp;
     output := output gp; steps := steps gp; opts := opts gp;
     err_data := err_data gp; objects := objects gp; data_objects := data_objects gp |}.

(** [getInputFile], [getOutputFile]: [input->filename()] and
    [output->filename()]; [None] when the pointer is null or points to no
    record. *)
Definition getInputFile (gp : GixPreProcessor) : option string :=
  filename <$> data_at (data_objects gp) (input gp).

Definition getOutputFile (gp : GixPreProcessor) : option string :=
  filename <$> data_at (data_objects gp) (output gp).

Definition setOpt (id : string) (v : variant) (gp : GixPreProcessor) : GixPreProcessor :=
  set_opts (<[id := v]> (opts gp)) gp.

(** [isFirstStep], [isLastStep]: [front()] and [back()] of an empty vector are
    undefined. *)
Definition isFirstStep (s : step_ptr) (gp : GixPreProcessor) : option bool :=
  (fun p => (s =? p)%nat) <$> head (steps gp).

Definition isLastStep (s : step_ptr) (gp : GixPreProcessor) : option bool :=
  (fun p => (s =? p)%nat) <$> last (steps gp).

End PreProcessor.

(** ** gixpp: [main] *)

Module GixppMain.

Import Gixpp PreProcessor.

(** What popl's parser hands to [main]: the options nobody declared, which
    switches are set, and the values given ([None]: the option is not set).
    The options that only reach the copy resolver are left out. *)
Record cmdline := {
  unknown_options : list string;
  opt_help : bool;
  opt_version : bool;
  opt_infile : option string;
  opt_outfile : option string;
  opt_esql : bool;
  opt_esql_preprocess_copy : bool;
  opt_esql_param_style : option string;
  opt_esql_static_calls : bool;
  opt_debug_info : bool;
  opt_consolidate : bool;
  opt_parser_scanner_debug : bool;
  opt_emit_map_file : bool;
  opt_emit_cobol85 : bool;
  opt_varying_ids : option string;
  opt_picx_as_varchar : option string;
  opt_no_rec_code : option string
}.

(** [value()] of an option declared with a default. *)
Definition value_or (default : string) (o : option string) : string :=
  match o with
  | Some v => v
  | None => default
  end.

(** [fprintf(stderr, "...\n")]. *)
Definition line (m : string) : string := m ++ String "010" EmptyString.

(** [std::string::find] of a character. *)
Fixpoint find (c : ascii) (s : string) : option nat :=
  match s with
  | EmptyString => None
  | String a s' => if Ascii.eqb a c then Some 0%nat else S <$> find c s'
  end.

Definition npos : Z := 18446744073709551615.

(** The test [main] makes on the value of [--varying]: [cpos] is an [int]
    that receives a [size_t], and is compared with [size_t]s. *)
Definition bad_varying_ids (varying_ids : string) : bool :=
  let size := Z.of_nat (String.length varying_ids) in
  let cpos := CLib.to_int (match find "," varying_ids with
                           | Some i => Z.of_nat i
                           | None => npos
                           end) in
  (CLib.to_uint64 cpos =? npos)%Z
  || (size <? 3)%Z
  || (cpos =? 0)%Z
  || (CLib.to_uint64 cpos =? CLib.to_uint64 (size - 1))%Z.

(** What [main] does with the value of [--no-rec-code]:
    [int i = atoi(c.c_str())], wrapped to an [int] by [CLib.atoi]. *)
Definition set_no_rec_code (c : string) (gp : GixPreProcessor) : GixPreProcessor :=
  let i := CLib.atoi c in
  if negb (i =? 0)%Z && (-999999999 <=? i)%Z && (i <=? 999999999)%Z
  then setOpt "no_rec_code" (VInt i) gp
  else gp.

(** [main], in the branch for [-e]: the options set before the two steps
    are added. *)
Definition esql_options (args : cmdline) (gp : GixPreProcessor) : GixPreProcessor :=
  let gp := match opt_varying_ids args with
            | Some v => setOpt "varlen_suffixes" (VString v) gp
            | None => gp
            end in
  let gp := setOpt "emit_static_calls" (VBool (opt_esql_static_calls args)) gp in
  let gp := setOpt "params_style" (VString (value_or "d" (opt_esql_param_style args))) gp in
  let gp := setOpt "preprocess_copy_files" (VBool (opt_esql_preprocess_copy args)) gp in
  let gp := setOpt "consolidated_map" (VBool true) gp in
  let gp := setOpt "emit_map_file" (VBool (opt_emit_map_file args)) gp in
  let gp := setOpt "emit_cobol85" (VBool (opt_emit_cobol85 args)) gp in
  let gp := setOpt "picx_as_varchar"
              (VBool (String.eqb (to_lower (value_or "char" (opt_picx_as_varchar args)))
                                 "varchar")) gp in
  let gp := setOpt "debug_parser_scanner" (VBool (opt_parser_scanner_debug args)) gp in
  match opt_no_rec_code args with
  | Some c => set_no_rec_code c gp
  | None => gp
  end.

(** The step classes (TPSourceConsolidation.h, TPESQLParser.h and
    TPESQLProcessor.h are not part of the sources): the object each
    constructor builds. *)
Class StepClasses := {
  TPSourceConsolidation : ITransformationStep;
  TPESQLParser : ITransformationStep;
  TPESQLProcessor : ITransformationStep
}.

(** [gp.addStep(std::make_shared<T>(&gp))]: the new object lives at an
    address no object has. *)
Definition add_new_step (st : ITransformationStep) (gp : GixPreProcessor) : GixPreProcessor :=
  let p : step_ptr := fresh (dom (objects gp)) in
  addStep p (set_objects (<[p := st]> (objects gp)) gp).

(** The pipeline of a preprocessor, given as step objects. *)
Definition step_objects (gp : GixPreProcessor) : list (option ITransformationStep) :=
  map (fun p => objects gp !! p) (steps gp).

(** Every step of the pipeline is an object, and no object is there twice. *)
Definition well_formed (gp : GixPreProcessor) : Prop :=
  NoDup (steps gp) /\ forall p, p ∈ steps gp -> is_Some (objects gp !! p).

Section Main.

Context {P : Steps} {K : StepClasses}.

(** [main] from [if (opt_consolidate->is_set())] to the setting of
    [emit_debug_info]. *)
Definition configure (args : cmdline) (gp : GixPreProcessor) : GixPreProcessor :=
  let gp := if opt_consolidate args then add_new_step TPSourceConsolidation gp else gp in
  let gp :=
    if opt_esql args then
      let gp := esql_options args gp in
      let gp := add_new_step TPESQLParser gp in
      add_new_step TPESQLProcessor gp
    else gp in
  setOpt "emit_debug_info" (VBool (opt_debug_info args)) gp.

(** [main]: the exit code and what is written to stderr; [None] when
    [process] does not return.  What goes to stdout and the set-up of the
    copy resolver are left out. *)
Definition main (args : cmdline) : option (Z * string) :=
  let gp := new_GixPreProcessor in
  if negb (List.length (unknown_options args) =? 0)%nat then
    Some (1%Z, String.concat EmptyString
                 (map (fun uo => line ("ERROR: unknown option: " ++ uo))
                      (unknown_options args)))
  else if opt_help args then Some (0%Z, EmptyString)
  else if opt_version args then Some (0%Z, EmptyString)
  else if negb (opt_consolidate args) && negb (opt_esql args) then
    Some (1%Z, line "ERROR: please enter at least one of the -e or -c options")
  else
    match opt_infile args, opt_outfile args with
    | Some infile, Some outfile =>
        let picx := value_or "char" (opt_picx_as_varchar args) in
        if (match opt_picx_as_varchar args with Some _ => true | None => false end)
           && negb (String.eqb picx "char") && negb (String.eqb picx "charf")
           && negb (String.eqb picx "varchar")
        then
          Some (1%Z,
                line ("ERROR: picx argument must be " ++ String Fixup.dquote "charf"
                      ++ String Fixup.dquote " or " ++ String Fixup.dquote "varchar"
                      ++ String Fixup.dquote EmptyString)
                ++ line ("ERROR: -P/--picx-as argument must be one of "
                         ++ String Fixup.dquote "char" ++ String Fixup.dquote ", "
                         ++ String Fixup.dquote "charf" ++ String Fixup.dquote ", "
                         ++ String Fixup.dquote "varchar"
                         ++ String Fixup.dquote EmptyString))
        else if (match opt_varying_ids args with
                 | Some v => bad_varying_ids v
                 | None => false
                 end)
        then Some (1%Z, line "ERROR: please enter suffixes as --varying=LEN,ARR")
        else
          let gp := configure args gp in
          match main_files infile outfile with
          | Exit rc err => Some (rc, err)
          | Process infile outfile =>
              let gp := setOutputFile outfile (setInputFile infile gp) in
              match process gp with
              | None => None
              | Some (b, gp, _) =>
                  let errs := if negb b
                              then String.concat EmptyString
                                     (map line (err_messages (err_data gp)))
                              else EmptyString in
                  let warns := String.concat EmptyString
                                 (map line (warnings (err_data gp))) in
                  Some (err_code (err_data gp), errs ++ warns)
              end
          end
    | _, _ =>
        Some (1%Z, line "ERROR: please enter at least the input and output file parameters")
    end.

End Main.

End GixppMain.

(** ** DbInterfaceFactory, as built for a host other than Windows *)

Module Factory.

(** The dynamic loader and what the driver libraries provide: [dlopen], the
    pointer the provider found by [dlsym] returns when it is called ([None]
    outside: no such symbol; [None] inside: the provider returns NULL), and
    the two things [load_dblib] does to the interface object. *)
Class Dl := {
  LIBHANDLE : Type;
  IDbInterface : Type;
  dlopen : string -> option LIBHANDLE;
  dlsym : LIBHANDLE -> string -> option (option IDbInterface);
  set_native_lib_ptr : option LIBHANDLE -> IDbInterface -> IDbInterface;
  init : IDbInterface -> IDbInterface
}.

Section Loader.

Context {D : Dl}.

(** [load_dblib]: [None] is undefined behaviour (the name does not fit
    [bfr], or [dbi] is null when [dbi->native_lib_ptr] is assigned);
    [Some None] is a null interface pointer. *)
Definition load_dblib (lib_id : string) : option (option IDbInterface) :=
  let bfr := "libgixsql-" ++ lib_id in
  let bfr := bfr ++ ".so" in
  if (256 <=? String.length bfr)%nat then None
  else
    let libHandle := dlopen bfr in
    let dbi :=
      match libHandle with
      | Some h =>
          match dlsym h "get_dblib" with
          | Some provided => provided
          | None => None
          end
      | None => None
      end in
    match dbi with
    | None => None
    | Some d => Some (Some (init (set_native_lib_ptr libHandle d)))
    end.

(** [getInterface(std::string, logger)]. *)
Definition getInterface (t : string) : option (option IDbInterface) :=
  if String.eqb t "pgsql" then load_dblib "pgsql"
  else if String.eqb t "odbc" then load_dblib "odbc"
  else if String.eqb t "mysql" then load_dblib "mysql"
  else if String.eqb t "oracle" then load_dblib "oracle"
  else if String.eqb t "sqlite" then load_dblib "sqlite"
  else Some None.

End Loader.

Definition getAvailableDrivers : list string :=
  [ "odbc"; "mysql"; "pgsql"; "oracle"; "sqlite" ].

End Factory.

(** ** A test bench

    Concrete codes, helpers and a scripted backend, on which the properties
    below are exercised. *)

Module Bench.

Import PGSQL.

(** Distinct negative codes, as the interface asks of error codes. *)
Definition codes : DbErr :=
  {| DBERR_CONNECTION_FAILED := -100;
     DBERR_SQL_ERROR := -106;
     DBERR_CLOSE_CURSOR_FAILED := -112;
     DBERR_MOVE_TO_FIRST_FAILED := -120;
     DBERR_PREPARE_FAILED := -124;
     DBERR_INTERNAL_ERR := -9999 |}.

Definition utils : Utils :=
  {| is_tx_termination_statement :=
       fun q => String.prefix "COMMIT" q || String.prefix "ROLLBACK" q;
     is_update_or_delete_statement :=
       fun q => String.prefix "UPDATE" q || String.prefix "DELETE" q
                || String.prefix "INSERT" q;
     DB_NULL := 4294967295;
     CBL_FIELD_IS_BINARY := fun flags => Z.testbit flags 8 |}.

Definition command_ok (tag_rows : string) : PGresult :=
  {| status := PGRES_COMMAND_OK; errorMessage := EmptyString;
     diag_sqlstate := None; cmd_tuples := tag_rows; tuples := [];
     attr_types := [] |}.

Definition tuples_ok (rows : list (list (option string))) (types : list Z) : PGresult :=
  {| status := PGRES_TUPLES_OK; errorMessage := EmptyString;
     diag_sqlstate := None; cmd_tuples := CLib.to_string (List.length rows);
     tuples := rows; attr_types := types |}.

Definition syntax_error : PGresult :=
  {| status := PGRES_FATAL_ERROR; errorMessage := "ERROR:  syntax error";
     diag_sqlstate := Some "42601"; cmd_tuples := EmptyString; tuples := [];
     attr_types := [] |}.

(** The table the scripted backend serves: one row, one [varchar] column. *)
Definition one_row : PGresult := tuples_ok [[Some "abc"]] [1043%Z].

(** A SELECT yields [one_row]; an UPDATE, DELETE or INSERT touches no row; a
    CLOSE fails; every other command succeeds. *)
Definition answer (command : string) : option PGresult :=
  if String.prefix "SELECT" command then Some one_row
  else if @is_update_or_delete_statement utils command then Some (command_ok "0")
  else if String.prefix "CLOSE" command then Some syntax_error
  else Some (command_ok EmptyString).

Definition backend : Libpq :=
  {| PQconnectdbParams := fun _ => Some CONNECTION_OK;
     PQerrorMessage := fun _ => EmptyString;
     PQanswer := fun _ rq =>
       match rq with
       | Exec command => answer command
       | ExecParams command _ _ _ _ _ => answer command
       | Prepare _ _ => Some (command_ok EmptyString)
       | ExecPrepared _ _ _ _ _ => Some one_row
       end;
     PQunescapeBytea := fun s => Some (list_ascii_of_string s) |}.

Definition info : IDataSourceInfo :=
  {| getDbName := "testdb"; getHost := "localhost"; getPort := 5432;
     getUsername := "test"; getPassword := "test"; getOptions := ∅ |}.

Definition options (mode : AutoCommitMode) : IConnectionOptions :=
  {| autocommit := mode; client_encoding := EmptyString; fixup_parameters := true |}.

(** The driver after [connect] on the scripted backend. *)
Definition connected (mode : AutoCommitMode) : DbInterfacePGSQL :=
  match connect (E := codes) (L := backend) info (options mode)
          new_DbInterfacePGSQL with
  | Some (_, s) => s
  | None => new_DbInterfacePGSQL
  end.

(** The state a call leaves, the call's result apart. *)
Definition after {A} (m : M A) (s : DbInterfacePGSQL) : DbInterfacePGSQL :=
  match m s with
  | Some (_, s') => s'
  | None => s
  end.

Definition bench_exec (query : string) : M Z :=
  exec (E := codes) (U := utils) (L := backend) query.

Definition bench_exec_params (query : string) (paramTypes : list CobolVarType)
    (paramValues : list string) (paramLengths paramFlags : list Z) : M Z :=
  exec_params (E := codes) (U := utils) (L := backend) query
              paramTypes paramValues paramLengths paramFlags.

Definition bench_exec_prepared (name : string) (paramTypes : list CobolVarType)
    (paramValues : list string) (paramLengths paramFlags : list Z) : M Z :=
  exec_prepared (E := codes) (U := utils) (L := backend) name
                paramTypes paramValues paramLengths paramFlags.

(** The driver after a SELECT on the scripted backend. *)
Definition after_select : DbInterfacePGSQL :=
  after (bench_exec "SELECT a FROM t") (connected On).

Definition cursor_codes : DbErrCursor :=
  {| DBERR_CONN_RESET_FAILED := -101;
     DBERR_DECLARE_CURSOR_FAILED := -110;
     DBERR_OPEN_CURSOR_FAILED := -111;
     DBERR_FETCH_ROW_FAILED := -113;
     DBERR_TOO_MUCH_DATA := -114;
     FETCH_CUR_ROW := 3;
     FETCH_PREV_ROW := 2 |}.

Definition rev_string (s : string) : string :=
  string_of_list_ascii (rev (list_ascii_of_string s)).

Definition str_utils : StrUtils :=
  {| starts_with := fun s p => String.prefix p s;
     trim_copy := fun s => rev_string (CLib.skip_spaces (rev_string (CLib.skip_spaces s)));
     VARLEN_LENGTH_SZ := 2 |}.

(** Two rows of one [varchar] column. *)
Definition two_rows : PGresult := tuples_ok [[Some "abc"]; [Some "de"]] [1043%Z].

(** A backend that answers every statement with [two_rows]. *)
Definition table_backend : Libpq :=
  {| PQconnectdbParams := fun _ => Some CONNECTION_OK;
     PQerrorMessage := fun _ => "server closed the connection unexpectedly";
     PQanswer := fun _ _ => Some two_rows;
     PQunescapeBytea := fun s => Some (list_ascii_of_string s) |}.

(** A backend on which every statement fails. *)
Definition failing_backend : Libpq :=
  {| PQconnectdbParams := fun _ => Some CONNECTION_OK;
     PQerrorMessage := fun _ => "server closed the connection unexpectedly";
     PQanswer := fun _ _ => Some syntax_error;
     PQunescapeBytea := fun s => Some (list_ascii_of_string s) |}.

(** What libpq holds after a SHOW: one row, and no row count in the command
    tag. *)
Definition show_row : PGresult :=
  {| status := PGRES_TUPLES_OK; errorMessage := EmptyString;
     diag_sqlstate := None; cmd_tuples := EmptyString;
     tuples := [[Some "16.2"]]; attr_types := [25%Z] |}.

(** A backend that answers a SHOW with [show_row] and every other statement
    as a command that touched three rows and returns none. *)
Definition tag_backend : Libpq :=
  {| PQconnectdbParams := fun _ => Some CONNECTION_OK;
     PQerrorMessage := fun _ => EmptyString;
     PQanswer := fun _ rq =>
       match rq with
       | Exec command | ExecParams command _ _ _ _ _ =>
           if String.prefix "SHOW" command then Some show_row else Some (command_ok "3")
       | _ => Some (command_ok "3")
       end;
     PQunescapeBytea := fun s => Some (list_ascii_of_string s) |}.

(** A driver object with a fresh connection and the options on record. *)
Definition attached (mode : AutoCommitMode) (native : bool) : DbInterfacePGSQL :=
  set_use_native_cursors native
    (set_conn_info info (options mode)
       (set_connaddr (Some {| conn_status := CONNECTION_OK; conn_log := [] |})
          new_DbInterfacePGSQL)).

(** A cursor over table [t], not yet opened. *)
Definition crsr : ICursor := {| getName := "CRSR01"; getPrivateData := None |}.

Definition crsr_source : CursorSource :=
  {| getQuery := "SELECT a FROM t"; getQuerySource := (None, 0%Z);
     isWithHold := false; getParameterValues := []; getParameterTypes := [];
     getParameterLengths := []; getParameterFlags := [] |}.

(** The same cursor with a parameter. *)
Definition crsr_source_k : CursorSource :=
  {| getQuery := "SELECT a FROM t WHERE k = $1"; getQuerySource := (None, 0%Z);
     isWithHold := false; getParameterValues := ["42"];
     getParameterTypes := [COBOL_TYPE_ALPHANUMERIC];
     getParameterLengths := [2%Z]; getParameterFlags := [0%Z] |}.

(** A loader that finds the PostgreSQL driver only. *)
Definition loader : Factory.Dl :=
  {| Factory.LIBHANDLE := nat;
     Factory.IDbInterface := string;
     Factory.dlopen := fun file => if String.eqb file "libgixsql-pgsql.so"
                                   then Some 1%nat else None;
     Factory.dlsym := fun _ sym => if String.eqb sym "get_dblib"
                                   then Some (Some "pgsql driver") else None;
     Factory.set_native_lib_ptr := fun _ d => d;
     Factory.init := fun d => d |}.

End Bench.

(** A pipeline bench: every file exists, and a step that has no output yet
    produces a buffer record. *)

Module PipelineBench.

Import PreProcessor.

(** A step that has no output yet gets a new buffer record. *)
Definition produce (step : step_ptr) (w : world) : world :=
  match w_objects w !! step with
  | Some st =>
      match getOutput st with
      | Some _ => w
      | None =>
          let p : data_ptr := fresh (dom (w_data w)) in
          {| w_objects := <[step := setOutput (Some p) st]> (w_objects w);
             w_data := <[p := {| type := Buffer; filename := EmptyString |}]> (w_data w);
             w_err := w_err w |}
      end
  | None => w
  end.

Definition steps_impl : Steps :=
  {| isValid := fun d => negb (String.eqb (filename d) EmptyString);
     file_exists := fun _ => true;
     run := fun step _ w => (true, produce step w) |}.

(** A last step that writes its result under another name: it changes the
    file name in the record it has as output. *)
Definition rename_output (step : step_ptr) (w : world) : world :=
  match w_objects w !! step with
  | Some st =>
      match getOutput st with
      | Some p =>
          {| w_objects := w_objects w;
             w_data := alter (setFilename "foo.out") p (w_data w);
             w_err := w_err w |}
      | None => w
      end
  | None => w
  end.

Definition renaming_steps : Steps :=
  {| isValid := fun d => negb (String.eqb (filename d) EmptyString);
     file_exists := fun _ => true;
     run := fun step _ w => (true, rename_output step (produce step w)) |}.

Definition fresh_step : ITransformationStep :=
  {| getInput := None; getOutput := None |}.

(** A preprocessor for [foo.cbl] and [foo.cob] with the given step list over
    three step objects. *)
Definition gixpp (pipeline : list step_ptr) : GixPreProcessor :=
  {| _infile := "foo.cbl"; _outfile := "foo.cob"; input := None; output := None;
     steps := pipeline; opts := ∅;
     err_data := {| err_code := 0; err_messages := []; warnings := [] |};
     objects := <[0%nat := fresh_step]> (<[1%nat := fresh_step]> (<[2%nat := fresh_step]> ∅));
     data_objects := ∅ |}.

Definition step_classes : GixppMain.StepClasses :=
  {| GixppMain.TPSourceConsolidation := fresh_step;
     GixppMain.TPESQLParser := fresh_step;
     GixppMain.TPESQLProcessor := fresh_step |}.

(** A host on which no file exists. *)
Definition empty_disk : Steps :=
  {| isValid := fun d => negb (String.eqb (filename d) EmptyString);
     file_exists := fun _ => false;
     run := fun step _ w => (true, produce step w) |}.

(** [gixpp -e -i foo.cbl -o foo.cbsql]. *)
Definition esql_run : GixppMain.cmdline :=
  {| GixppMain.unknown_options := []; GixppMain.opt_help := false;
     GixppMain.opt_version := false; GixppMain.opt_infile := Some "foo.cbl";
     GixppMain.opt_outfile := Some "foo.cbsql"; GixppMain.opt_esql := true;
     GixppMain.opt_esql_preprocess_copy := false;
     GixppMain.opt_esql_param_style := None;
     GixppMain.opt_esql_static_calls := false; GixppMain.opt_debug_info := false;
     GixppMain.opt_consolidate := false; GixppMain.opt_parser_scanner_debug := false;
     GixppMain.opt_emit_map_file := false; GixppMain.opt_emit_cobol85 := false;
     GixppMain.opt_varying_ids := None; GixppMain.opt_picx_as_varchar := None;
     GixppMain.opt_no_rec_code := None |}.

End PipelineBench.

(** * Properties *)

(** ** C library helpers *)

Module CLibFacts.

Import CLib.

Lemma tolower_idempotent (c : ascii) : tolower (tolower c) = tolower c.
Proof. destruct c as [[] [] [] [] [] [] [] []]; reflexivity. Qed.

Lemma to_lower_idempotent (s : string) : to_lower (to_lower s) = to_lower s.
Proof.
  induction s as [|c s IH]; simpl; [reflexivity|].
  now rewrite tolower_idempotent, IH.
Qed.

(** The digit loop inverts the decimal printer. *)
Lemma atoi_digits_string_of_uint (d : Decimal.uint) (acc : nat) :
  atoi_digits (NilEmpty.string_of_uint d) (Z.of_nat acc)
  = Z.of_nat (Nat.of_uint_acc d acc).
Proof.
  revert acc.
  induction d as [|d IH|d IH|d IH|d IH|d IH|d IH|d IH|d IH|d IH|d IH];
    intros acc; simpl; try reflexivity;
    rewrite ?Nat.tail_mul_spec;
    match goal with
    | |- context [Z.of_nat (nat_of_ascii ?c)] =>
        let v := eval vm_compute in (Z.of_nat (nat_of_ascii c)) in
        change (Z.of_nat (nat_of_ascii c)) with v
    end;
    match goal with
    | |- atoi_digits _ ?z = Z.of_nat (Nat.of_uint_acc _ ?m) =>
        replace z with (Z.of_nat m) by lia; apply IH
    end.
Qed.

Lemma strtol_string_of_uint (d : Decimal.uint) :
  d <> Decimal.Nil ->
  strtol (NilEmpty.string_of_uint d)
  = to_long_sat (atoi_digits (NilEmpty.string_of_uint d) 0).
Proof. destruct d; intros Hd; solve [reflexivity | congruence]. Qed.

Lemma to_int_small (z : Z) :
  (-2147483648 <= z < 2147483648)%Z -> to_int z = z.
Proof. intros Hz. unfold to_int. rewrite Z.mod_small by lia. lia. Qed.

Lemma to_long_sat_small (z : Z) :
  (-9223372036854775808 <= z <= 9223372036854775807)%Z -> to_long_sat z = z.
Proof. intros Hz. unfold to_long_sat. lia. Qed.

Lemma to_uint_nonnil (n : nat) : Nat.to_uint n <> Decimal.Nil.
Proof.
  pose proof (Unsigned.to_of (Nat.to_uint n)) as E.
  rewrite Unsigned.of_to in E. rewrite E.
  unfold Decimal.unorm. destruct (Decimal.nzhead _); discriminate.
Qed.

Lemma strtol_to_string (n : nat) : strtol (to_string n) = to_long_sat (Z.of_nat n).
Proof.
  unfold to_string.
  rewrite strtol_string_of_uint by apply to_uint_nonnil.
  change 0%Z with (Z.of_nat 0).
  rewrite atoi_digits_string_of_uint.
  change (Nat.of_uint_acc (Nat.to_uint n) 0) with (Nat.of_uint (Nat.to_uint n)).
  now rewrite Unsigned.of_to.
Qed.

(** [atoi] reads back what [std::to_string] prints of an [int] that is not
    negative. *)
Lemma atoi_to_string (n : nat) :
  (Z.of_nat n < 2147483648)%Z -> atoi (to_string n) = Z.of_nat n.
Proof.
  intros Hn. unfold atoi. rewrite strtol_to_string.
  rewrite to_long_sat_small by lia. apply to_int_small. lia.
Qed.

(** Beyond [int] it wraps. *)
Example atoi_wraps :
  atoi "2147483648" = (-2147483648)%Z /\ atoi "4294967297" = 1%Z
  /\ atoi "99999999999999999999" = (-1)%Z /\ atoi " -12x" = (-12)%Z.
Proof. repeat split. Qed.

Lemma memcpy_length_le (p : memory) (src : list ascii) :
  (List.length src <= List.length p)%nat ->
  List.length (memcpy p src) = List.length p.
Proof.
  intros Hle. unfold memcpy.
  rewrite List.length_app, List.length_skipn. lia.
Qed.

(** [memcpy] leaves the bytes after the copied ones as they were. *)
Lemma memcpy_skipn (p : memory) (src : list ascii) (k : nat) :
  (List.length src <= k)%nat ->
  skipn k (memcpy p src) = skipn k p.
Proof.
  intros Hle. unfold memcpy.
  rewrite List.skipn_app.
  rewrite (List.skipn_all2 src) by exact Hle.
  rewrite List.skipn_skipn. simpl. f_equal. lia.
Qed.

End CLibFacts.

(** ** gixpp: the file-name arguments *)

Module GixppFacts.

Import Gixpp.

(** Equal file names end the program with exit code 1 and the message, as
    long as the output name is no alias. *)
Lemma same_file_is_refused (f : string) :
  String.eqb (path_stem f) "@" = false ->
  main_files f f
  = Exit 1 ("ERROR: input and output file must be different" ++ String "010" "").
Proof.
  intros Hna. unfold main_files, is_alias. rewrite Hna.
  now rewrite String.eqb_refl.
Qed.

(** The name an alias is turned into: the period is there twice, once from
    [main] and once from [path::extension()]. *)
Lemma alias_outfile (infile outfile : string) :
  String.eqb (path_stem outfile) "@" = true ->
  main_files infile outfile = Process infile (path_stem infile ++ "." ++ path_extension outfile)
  \/ main_files infile outfile
     = Exit 1 ("ERROR: input and output file must be different" ++ String "010" "").
Proof.
  intros Ha. unfold main_files, is_alias, get_basename. rewrite Ha.
  destruct (String.eqb infile _); [right | left]; reflexivity.
Qed.

(** C9, on the spec's own scenario: [-i foo.cbl -o @.cob] makes gixpp write
    to [foo..cob], not to [foo.cob]; the extension taken from the alias keeps
    its leading period and [main] adds another. *)
Theorem C9_alias_doubles_the_period :
  path_stem "@.cob" = "@"
  /\ path_extension "@.cob" = ".cob"
  /\ main_files "foo.cbl" "@.cob" = Process "foo.cbl" "foo..cob"
  /\ main_files "foo.cbl" "@.cob" <> Process "foo.cbl" "foo.cob"
  /\ main_files "foo.cbl" "foo.cbl"
     = Exit 1 ("ERROR: input and output file must be different" ++ String "010" "").
Proof. repeat split; try reflexivity. discriminate. Qed.

End GixppFacts.

(** ** pgsql_fixup_parameters *)

Module FixupFacts.

Import Fixup.

(** Scenario S4 of the spec. *)
Example fixup_S4 :
  pgsql_fixup_parameters "UPDATE T SET A=? WHERE K=?" = "UPDATE T SET A=$1 WHERE K=$2".
Proof. reflexivity. Qed.

Example fixup_named :
  pgsql_fixup_parameters "SELECT a FROM t WHERE b = :hvb AND c = ':x' AND d = ?"
  = "SELECT a FROM t WHERE b = $1 AND c = ':x' AND d = $2".
Proof. reflexivity. Qed.

(** *** Agreement with the specification's scanner on plain statements *)

Lemma drop_name_length (s : string) : (String.length (drop_name s) <= String.length s)%nat.
Proof.
  induction s as [|c s IH]; cbn; [lia|].
  destruct (CLib.isalnum c); cbn; lia.
Qed.

Lemma append_assoc (a b c : string) : (a ++ b) ++ c = a ++ (b ++ c).
Proof.
  induction a as [|x a IH]; [reflexivity|].
  change (String x ((a ++ b) ++ c) = String x (a ++ (b ++ c))). now rewrite IH.
Qed.

Lemma spec_rewrite_nil (fuel : nat) (r : region) (k : nat) :
  spec_rewrite fuel r k EmptyString = EmptyString.
Proof. destruct fuel; reflexivity. Qed.

Lemma append_nil_r (a : string) : a ++ "" = a.
Proof.
  induction a as [|x a IH]; [reflexivity|].
  change (String x (a ++ "") = String x a). now rewrite IH.
Qed.

Lemma drop_name_alnum (c : ascii) (rest : string) :
  CLib.isalnum c = true -> drop_name (String c rest) = drop_name rest.
Proof. intros H. cbn. now rewrite H. Qed.

Lemma drop_name_other (c : ascii) (rest : string) :
  CLib.isalnum c = false -> drop_name (String c rest) = String c rest.
Proof. intros H. cbn. now rewrite H. Qed.


(** A character is the double quote, the single quote, [?], [:], or none of
    the four; only the last kind can be alphanumeric. *)
Lemma classify (c : ascii) :
  let tests := (Ascii.eqb c dquote, Ascii.eqb c squote, Ascii.eqb c "?",
                Ascii.eqb c ":") in
  (tests = (true, false, false, false) /\ CLib.isalnum c = false)
  \/ (tests = (false, true, false, false) /\ CLib.isalnum c = false)
  \/ (tests = (false, false, true, false) /\ CLib.isalnum c = false)
  \/ (tests = (false, false, false, true) /\ CLib.isalnum c = false)
  \/ tests = (false, false, false, false).
Proof. destruct c as [[] [] [] [] [] [] [] []]; vm_compute; tauto. Qed.

(** Closes a case of [loop_simulates]: one step of the driver's loop against
    one step of the specification's scanner, then the induction hypothesis
    [IH] at region [r'] and marker [m']. *)
Ltac one_step IH r' m' c rest fuel Hfuel Hd Hs Hq Hc Hal :=
  let f := fresh "fuel" in
  cbn [pending drop_name] in Hfuel; rewrite ?Hal in Hfuel;
  cbn [String.length] in Hfuel;
  destruct fuel as [|f]; [lia|];
  cbn [loop]; unfold step;
  cbn [in_param_id in_single_quoted_string in_double_quoted_string n out_sql push
       andb];
  rewrite ?Hd, ?Hs, ?Hq, ?Hc, ?Hal; cbn [andb orb negb];
  rewrite (IH _ r' m' f);
  [ cbn [out_sql n push pending drop_name]; rewrite ?Hal;
    cbn [spec_rewrite]; rewrite ?Hd, ?Hs, ?Hq, ?Hc;
    rewrite ?append_assoc; reflexivity
  | unfold agrees; cbn; repeat split
  | assumption
  | pose proof (drop_name_length rest); cbn [pending]; lia ].

(** The driver's loop, started in a state that agrees with region [r] and
    marker [m], appends what the specification's scanner produces from [r]
    on the characters still pending. *)
Lemma loop_simulates (rest : string) :
  forall (st : loop_state) (r : region) (m : marker) (fuel : nat),
    agrees st r m ->
    plain r m rest = true ->
    (String.length (pending m rest) <= fuel)%nat ->
    out_sql (loop rest st) = out_sql st ++ spec_rewrite fuel r (n st) (pending m rest).
Proof.
  induction rest as [|c rest IH]; intros st r m fuel Hag Hplain Hfuel.
  - cbn [loop]. replace (pending m "") with "" by (destruct m; reflexivity).
    now rewrite spec_rewrite_nil, append_nil_r.
  - destruct st as [k sq dq pid out]. destruct Hag as [Hreg Hpid]. cbn in Hreg, Hpid.
    cbn [plain] in Hplain.
    destruct (classify c) as [[Ht Hal]|[[Ht Hal]|[[Ht Hal]|[[Ht Hal]|Ht]]]];
      injection Ht as Hd Hs Hq Hc; rewrite ?Hd, ?Hs, ?Hq, ?Hc, ?Hal in Hplain.
    + destruct r.
      * destruct Hreg as [-> ->]. destruct m; subst pid; one_step IH InDouble NoMarker c rest fuel Hfuel Hd Hs Hq Hc Hal.
      * destruct Hreg as (-> & -> & ->). discriminate.
      * destruct Hreg as (-> & -> & ->). subst pid. one_step IH Outside NoMarker c rest fuel Hfuel Hd Hs Hq Hc Hal.
    + destruct r.
      * destruct Hreg as [-> ->]. destruct m; subst pid; one_step IH InSingle NoMarker c rest fuel Hfuel Hd Hs Hq Hc Hal.
      * destruct Hreg as (-> & -> & ->). subst pid. one_step IH Outside NoMarker c rest fuel Hfuel Hd Hs Hq Hc Hal.
      * destruct Hreg as (-> & -> & ->). discriminate.
    + destruct r.
      * destruct Hreg as [-> ->]. destruct m; subst pid; one_step IH Outside AfterQuestion c rest fuel Hfuel Hd Hs Hq Hc Hal.
      * destruct Hreg as (-> & -> & ->). subst pid. one_step IH InSingle NoMarker c rest fuel Hfuel Hd Hs Hq Hc Hal.
      * destruct Hreg as (-> & -> & ->). subst pid. one_step IH InDouble NoMarker c rest fuel Hfuel Hd Hs Hq Hc Hal.
    + destruct r.
      * destruct Hreg as [-> ->]. destruct m; subst pid; one_step IH Outside InName c rest fuel Hfuel Hd Hs Hq Hc Hal.
      * destruct Hreg as (-> & -> & ->). subst pid. one_step IH InSingle NoMarker c rest fuel Hfuel Hd Hs Hq Hc Hal.
      * destruct Hreg as (-> & -> & ->). subst pid. one_step IH InDouble NoMarker c rest fuel Hfuel Hd Hs Hq Hc Hal.
    + destruct r.
      * destruct Hreg as [-> ->].
        destruct (CLib.isalnum c) eqn:Hal.
        -- destruct m; subst pid; try discriminate.
           ++ one_step IH Outside NoMarker c rest fuel Hfuel Hd Hs Hq Hc Hal.
           ++ (* inside a name: the driver skips, the scanner has dropped it *)
              cbn [pending drop_name] in *. rewrite Hal in Hfuel |- *.
              cbn [loop]. unfold step. cbn [in_param_id andb]. rewrite Hal.
              apply (IH _ Outside InName fuel); [unfold agrees; cbn; repeat split | assumption | assumption].
        -- destruct m; subst pid; one_step IH Outside NoMarker c rest fuel Hfuel Hd Hs Hq Hc Hal.
      * destruct Hreg as (-> & -> & ->). subst pid.
        destruct (CLib.isalnum c) eqn:Hal; one_step IH InSingle NoMarker c rest fuel Hfuel Hd Hs Hq Hc Hal.
      * destruct Hreg as (-> & -> & ->). subst pid.
        destruct (CLib.isalnum c) eqn:Hal; one_step IH InDouble NoMarker c rest fuel Hfuel Hd Hs Hq Hc Hal.
Qed.

(** On a plain statement the driver rewrites the markers exactly as the
    specification words it. *)
Theorem fixup_agrees_on_plain_statements (sql : string) :
  plain Outside NoMarker sql = true ->
  pgsql_fixup_parameters sql = spec_fixup_parameters sql.
Proof.
  intros Hplain. unfold pgsql_fixup_parameters, spec_fixup_parameters.
  rewrite (loop_simulates sql init Outside NoMarker (String.length sql)).
  - reflexivity.
  - unfold agrees; cbn; repeat split.
  - exact Hplain.
  - cbn. lia.
Qed.

Example fixup_S4_is_plain :
  plain Outside NoMarker "UPDATE T SET A=? WHERE K=?" = true
  /\ spec_fixup_parameters "UPDATE T SET A=? WHERE K=?" = "UPDATE T SET A=$1 WHERE K=$2".
Proof.
  split; [reflexivity|].
  now rewrite <- (fixup_agrees_on_plain_statements "UPDATE T SET A=? WHERE K=?").
Defined.

(** The statement of C6 is not plain: the literal holds a double quote. *)
Example nail_sql_is_not_plain : plain Outside NoMarker nail_sql = false.
Proof. reflexivity. Qed.

(** C6: a double quote inside a single-quoted literal flips
    [in_double_quoted_string], which nothing flips back; the [?] after the
    literal stands outside every quoted region and is copied instead of being
    replaced by [$1], as the rewriting the spec describes would do. *)
Theorem C6_marker_after_quote_in_literal :
  pgsql_fixup_parameters nail_sql = nail_sql
  /\ spec_fixup_parameters nail_sql
     = "INSERT INTO T VALUES ('6" ++ String dquote " nail', $1)"
  /\ pgsql_fixup_parameters nail_sql <> spec_fixup_parameters nail_sql.
Proof. repeat split; try reflexivity. vm_compute. discriminate. Qed.

End FixupFacts.

(** ** DbInterfacePGSQL *)

Module PGSQLFacts.

Import PGSQL.
Local Open Scope pgsql_scope.

(** Unfolds the monad. *)
Ltac run :=
  repeat progress
    (unfold bind, ret, get, modify, deref, crash, pgsqlSetError, pgsqlClearError,
       note_result, make_shared_PGResultSetData, parameter_count_mismatch in *);
  cbn beta iota in *; cbn [fst snd] in *.

Section DriverFacts.

Context {E : DbErr} {U : Utils} {L : Libpq}.

(** *** Sending *)

Lemma PQsend_connected (rq : request) (s : DbInterfacePGSQL) (c : PGconn) :
  connaddr s = Some c ->
  PQsend rq s
  = Some (PQanswer c rq, set_connaddr (Some (exchanged c rq (PQanswer c rq))) s).
Proof. intros Hc. unfold PQsend. now rewrite Hc. Qed.

Lemma PQsend_disconnected (rq : request) (s : DbInterfacePGSQL) :
  connaddr s = None -> PQsend rq s = Some (None, s).
Proof. intros Hc. unfold PQsend. now rewrite Hc. Qed.

(** [PQsend] always returns and only touches [connaddr]. *)
Lemma PQsend_frame (rq : request) (s : DbInterfacePGSQL) :
  exists r s', PQsend rq s = Some (r, s')
    /\ connection_opts s' = connection_opts s
    /\ use_native_cursors s' = use_native_cursors s
    /\ _prepared_stmts s' = _prepared_stmts s
    /\ current_resultset_data s' = current_resultset_data s
    /\ last_rc s' = last_rc s
    /\ last_state s' = last_state s.
Proof.
  unfold PQsend. destruct (connaddr s); eexists; eexists; (split; [reflexivity|]);
    repeat split.
Qed.

(** *** exec always returns once the driver is connected *)

Lemma reset_if_current_frame (w : option PGResultSetData) (s : DbInterfacePGSQL) :
  exists s', reset_if_current w s = Some (tt, s')
    /\ connaddr s' = connaddr s
    /\ connection_opts s' = connection_opts s
    /\ use_native_cursors s' = use_native_cursors s
    /\ _prepared_stmts s' = _prepared_stmts s.
Proof.
  unfold reset_if_current. run.
  destruct (same_object _ _); eexists; (split; [reflexivity|]); repeat split.
Qed.

Lemma start_new_transaction_returns (s : DbInterfacePGSQL) :
  exists rc s', start_new_transaction s = Some (rc, s')
    /\ connection_opts s' = connection_opts s.
Proof.
  unfold start_new_transaction. run.
  destruct (PQsend_frame (Exec "START TRANSACTION") s) as (r & s1 & -> & Ho & _).
  eexists; eexists; split; [reflexivity|]. exact Ho.
Qed.

Lemma keep_or_fail_returns (crsr : option ICursor) (wk_rs : PGResultSetData)
    (s : DbInterfacePGSQL) :
  exists res s', keep_or_fail crsr wk_rs s = Some (res, s')
    /\ connection_opts s' = connection_opts s.
Proof.
  unfold keep_or_fail. run.
  destruct (_ || _); [destruct crsr|]; eexists; eexists; (split; [reflexivity|]);
    reflexivity.
Qed.

Lemma after_exec_returns (crsr : option ICursor) (query : string)
    (wk_rs : PGResultSetData) (nrows : Z) (s : DbInterfacePGSQL) :
  exists res s', after_exec crsr query wk_rs nrows s = Some (res, s')
    /\ connection_opts s' = connection_opts s.
Proof.
  unfold after_exec. run.
  destruct (last_rc s =? PGRES_COMMAND_OK)%Z;
    [destruct (is_update_or_delete_statement query);
       [destruct (nrows <=? 0)%Z|]|];
    try apply keep_or_fail_returns.
  eexists; eexists; split; reflexivity.
Qed.

Lemma trap_tx_termination_returns (crsr : option ICursor) (query : string)
    (wk_rs : PGResultSetData) (nrows : Z) (s : DbInterfacePGSQL) (o : IConnectionOptions) :
  connection_opts s = Some o ->
  exists res s', trap_tx_termination crsr query wk_rs nrows s = Some (res, s')
    /\ connection_opts s' = Some o.
Proof.
  intros Ho. unfold trap_tx_termination. run. rewrite Ho.
  destruct (is_Off (autocommit o) && is_tx_termination_statement query).
  - cbn [last_rc set_current_resultset_data].
    destruct (last_rc s =? PGRES_COMMAND_OK)%Z.
    + destruct (start_new_transaction_returns (set_current_resultset_data None s))
        as (rc & s1 & -> & Ho1).
      eexists; eexists; split; [reflexivity|]. now rewrite Ho1.
    + destruct (after_exec_returns crsr query wk_rs nrows (set_current_resultset_data None s))
        as (res & s1 & -> & Ho1).
      eexists; eexists; split; [reflexivity|]. now rewrite Ho1.
  - destruct (after_exec_returns crsr query wk_rs nrows s) as (res & s1 & -> & Ho1).
    eexists; eexists; split; [reflexivity|]. now rewrite Ho1.
Qed.

Lemma _pgsql_exec_returns (crsr : option ICursor) (query : string)
    (s : DbInterfacePGSQL) (o : IConnectionOptions) :
  connection_opts s = Some o ->
  exists res s', _pgsql_exec crsr query s = Some (res, s')
    /\ connection_opts s' = Some o.
Proof.
  intros Ho. unfold _pgsql_exec. run.
  destruct (reset_if_current_frame (initial_wk_rs crsr s) s) as (s1 & -> & _ & Ho1 & _).
  rewrite Ho in Ho1.
  destruct (PQsend_frame (exec_request query) (set_next_addr (S (next_addr s1)) s1))
    as (r & s2 & -> & Ho2 & _).
  apply trap_tx_termination_returns. exact (eq_trans Ho2 Ho1).
Qed.

Lemma exec_returns (query : string) (s : DbInterfacePGSQL) (o : IConnectionOptions) :
  connection_opts s = Some o ->
  exists rc s', exec query s = Some (rc, s') /\ connection_opts s' = Some o.
Proof.
  intros Ho. unfold exec. run.
  destruct (_pgsql_exec_returns None query s o Ho) as ([rc c] & s' & -> & Ho').
  eexists; eexists; split; [reflexivity | exact Ho'].
Qed.

(** *** What exec and exec_params exchange with the backend *)

Lemma keep_or_fail_frame (crsr : option ICursor) (wk_rs : PGResultSetData)
    (s : DbInterfacePGSQL) :
  exists res s', keep_or_fail crsr wk_rs s = Some (res, s')
    /\ connaddr s' = connaddr s
    /\ connection_opts s' = connection_opts s.
Proof.
  unfold keep_or_fail. run.
  destruct (_ || _); [destruct crsr|]; eexists; eexists; (split; [reflexivity|]);
    split; reflexivity.
Qed.

Lemma after_exec_frame (crsr : option ICursor) (query : string)
    (wk_rs : PGResultSetData) (nrows : Z) (s : DbInterfacePGSQL) :
  exists res s', after_exec crsr query wk_rs nrows s = Some (res, s')
    /\ connaddr s' = connaddr s
    /\ connection_opts s' = connection_opts s.
Proof.
  unfold after_exec. run.
  destruct (last_rc s =? PGRES_COMMAND_OK)%Z;
    [destruct (is_update_or_delete_statement query);
       [destruct (nrows <=? 0)%Z|]|];
    try apply keep_or_fail_frame.
  eexists; eexists; split; [reflexivity|]. split; reflexivity.
Qed.

(** The zero-row exit: only [last_rc] is written. *)
Lemma after_exec_zero_rows (crsr : option ICursor) (query : string)
    (wk_rs : PGResultSetData) (nrows : Z) (s : DbInterfacePGSQL) :
  last_rc s = PGRES_COMMAND_OK ->
  is_update_or_delete_statement query = true ->
  (nrows <= 0)%Z ->
  after_exec crsr query wk_rs nrows s = Some ((DBERR_SQL_ERROR, crsr), set_last_rc 100 s).
Proof.
  intros Hrc Hupd Hrows. unfold after_exec. run.
  rewrite Hrc, Hupd. cbn.
  apply Z.leb_le in Hrows. now rewrite Hrows.
Qed.

Lemma start_new_transaction_trace (s : DbInterfacePGSQL) (c : PGconn) :
  connaddr s = Some c ->
  let r2 := PQanswer c (Exec "START TRANSACTION") in
  exists s',
    start_new_transaction s
    = Some (if negb (PQresultStatus r2 =? PGRES_COMMAND_OK)%Z
            then DBERR_SQL_ERROR else DBERR_NO_ERROR, s')
    /\ connaddr s' = Some (exchanged c (Exec "START TRANSACTION") r2)
    /\ connection_opts s' = connection_opts s.
Proof.
  intros Hc r2. unfold start_new_transaction. run.
  rewrite (PQsend_connected _ s c Hc). fold r2.
  eexists. split; [reflexivity|]. split; reflexivity.
Qed.

(** After the statement itself, the only thing the driver may still send is
    the START TRANSACTION that follows a trapped COMMIT or ROLLBACK. *)
Lemma trap_tx_termination_trace (crsr : option ICursor) (query : string)
    (wk_rs : PGResultSetData) (nrows : Z) (s : DbInterfacePGSQL)
    (o : IConnectionOptions) (c : PGconn) :
  connection_opts s = Some o ->
  connaddr s = Some c ->
  let r2 := PQanswer c (Exec "START TRANSACTION") in
  exists res s',
    trap_tx_termination crsr query wk_rs nrows s = Some (res, s')
    /\ connection_opts s' = Some o
    /\ if is_Off (autocommit o) && is_tx_termination_statement query
          && (last_rc s =? PGRES_COMMAND_OK)%Z
       then connaddr s' = Some (exchanged c (Exec "START TRANSACTION") r2)
            /\ fst res = (if negb (PQresultStatus r2 =? PGRES_COMMAND_OK)%Z
                          then DBERR_SQL_ERROR else DBERR_NO_ERROR)
       else connaddr s' = Some c.
Proof.
  intros Ho Hc r2. unfold trap_tx_termination. run. rewrite Ho.
  destruct (is_Off (autocommit o) && is_tx_termination_statement query); cbn [andb].
  - cbn [last_rc set_current_resultset_data].
    destruct (last_rc s =? PGRES_COMMAND_OK)%Z.
    + destruct (start_new_transaction_trace (set_current_resultset_data None s) c Hc)
        as (s1 & -> & Hc1 & Ho1).
      eexists; eexists; split; [reflexivity|].
      split; [now rewrite Ho1|]. split; [exact Hc1 | reflexivity].
    + destruct (after_exec_frame crsr query wk_rs nrows (set_current_resultset_data None s))
        as (res & s1 & -> & Hc1 & Ho1).
      eexists; eexists; split; [reflexivity|].
      split; [now rewrite Ho1 | now rewrite Hc1].
  - destruct (after_exec_frame crsr query wk_rs nrows s) as (res & s1 & -> & Hc1 & Ho1).
    eexists; eexists; split; [reflexivity|].
    split; [now rewrite Ho1 | now rewrite Hc1].
Qed.

(** [_pgsql_exec] up to the trap: one request has gone out and its result
    is in [last_rc] and [last_state]. *)
Lemma _pgsql_exec_sends (crsr : option ICursor) (query : string)
    (s : DbInterfacePGSQL) (c : PGconn) :
  connaddr s = Some c ->
  let r := PQanswer c (exec_request query) in
  exists wk_rs s2,
    _pgsql_exec crsr query s = trap_tx_termination crsr query wk_rs (get_num_rows r) s2
    /\ connaddr s2 = Some (exchanged c (exec_request query) r)
    /\ connection_opts s2 = connection_opts s
    /\ last_rc s2 = PQresultStatus r
    /\ last_state s2 = pg_get_sqlstate r.
Proof.
  intros Hc r. unfold _pgsql_exec. run.
  destruct (reset_if_current_frame (initial_wk_rs crsr s) s) as (s1 & -> & Hc1 & Ho1 & _).
  rewrite Hc in Hc1.
  rewrite (PQsend_connected _ (set_next_addr (S (next_addr s1)) s1) c Hc1). fold r.
  eexists; eexists; split; [reflexivity|].
  repeat split. exact Ho1.
Qed.

Lemma _pgsql_exec_params_sends (crsr : option ICursor) (query : string)
    (paramTypes : list CobolVarType) (paramValues : list string)
    (paramLengths paramFlags : list Z) (ps : list bound_param)
    (s : DbInterfacePGSQL) (c : PGconn) :
  connaddr s = Some c ->
  List.length paramTypes = List.length paramValues ->
  List.length paramTypes = List.length paramFlags ->
  bind_params 0 paramValues paramTypes paramLengths paramFlags = Some ps ->
  let rq := exec_params_request query paramValues ps in
  let r := PQanswer c rq in
  exists wk_rs s2,
    _pgsql_exec_params crsr query paramTypes paramValues paramLengths paramFlags s
    = trap_tx_termination crsr query wk_rs (get_num_rows r) s2
    /\ connaddr s2 = Some (exchanged c rq r)
    /\ connection_opts s2 = connection_opts s
    /\ last_rc s2 = PQresultStatus r
    /\ last_state s2 = pg_get_sqlstate r.
Proof.
  intros Hc Hv Hf Hb rq r. unfold _pgsql_exec_params. run.
  rewrite Hv, <- Hf, Hv, Nat.eqb_refl. cbn [negb orb]. rewrite Hb.
  destruct (reset_if_current_frame (initial_wk_rs crsr s) s) as (s1 & -> & Hc1 & Ho1 & _).
  rewrite Hc in Hc1.
  rewrite (PQsend_connected _ (set_next_addr (S (next_addr s1)) s1) c Hc1).
  fold rq. fold r.
  eexists; eexists; split; [reflexivity|].
  repeat split. exact Ho1.
Qed.

Lemma exec_trace (query : string) (s : DbInterfacePGSQL)
    (o : IConnectionOptions) (c : PGconn) :
  connection_opts s = Some o ->
  connaddr s = Some c ->
  let r := PQanswer c (exec_request query) in
  let c1 := exchanged c (exec_request query) r in
  let r2 := PQanswer c1 (Exec "START TRANSACTION") in
  exists rc s',
    exec query s = Some (rc, s')
    /\ connection_opts s' = Some o
    /\ if is_Off (autocommit o) && is_tx_termination_statement query
          && (PQresultStatus r =? PGRES_COMMAND_OK)%Z
       then connaddr s' = Some (exchanged c1 (Exec "START TRANSACTION") r2)
            /\ rc = (if negb (PQresultStatus r2 =? PGRES_COMMAND_OK)%Z
                     then DBERR_SQL_ERROR else DBERR_NO_ERROR)
       else connaddr s' = Some c1.
Proof.
  intros Ho Hc r c1 r2. unfold exec. run.
  destruct (_pgsql_exec_sends None query s c Hc) as (wk & s2 & -> & Hc2 & Ho2 & Hrc2 & _).
  fold r in Hc2, Hrc2 |- *. fold c1 in Hc2. rewrite Ho in Ho2.
  destruct (trap_tx_termination_trace None query wk (get_num_rows r) s2 o c1 Ho2 Hc2)
    as ([rc cur] & s' & -> & Ho' & Htr).
  rewrite Hrc2 in Htr. cbn [fst] in Htr.
  exists rc, s'. split; [reflexivity|]. split; [exact Ho' | exact Htr].
Qed.

Lemma exec_params_trace (query : string) (paramTypes : list CobolVarType)
    (paramValues : list string) (paramLengths paramFlags : list Z)
    (ps : list bound_param) (s : DbInterfacePGSQL)
    (o : IConnectionOptions) (c : PGconn) :
  connection_opts s = Some o ->
  connaddr s = Some c ->
  List.length paramTypes = List.length paramValues ->
  List.length paramTypes = List.length paramFlags ->
  bind_params 0 paramValues paramTypes paramLengths paramFlags = Some ps ->
  let rq := exec_params_request query paramValues ps in
  let r := PQanswer c rq in
  let c1 := exchanged c rq r in
  let r2 := PQanswer c1 (Exec "START TRANSACTION") in
  exists rc s',
    exec_params query paramTypes paramValues paramLengths paramFlags s = Some (rc, s')
    /\ connection_opts s' = Some o
    /\ if is_Off (autocommit o) && is_tx_termination_statement query
          && (PQresultStatus r =? PGRES_COMMAND_OK)%Z
       then connaddr s' = Some (exchanged c1 (Exec "START TRANSACTION") r2)
            /\ rc = (if negb (PQresultStatus r2 =? PGRES_COMMAND_OK)%Z
                     then DBERR_SQL_ERROR else DBERR_NO_ERROR)
       else connaddr s' = Some c1.
Proof.
  intros Ho Hc Hv Hf Hb rq r c1 r2. unfold exec_params. run.
  destruct (_pgsql_exec_params_sends None query paramTypes paramValues paramLengths
              paramFlags ps s c Hc Hv Hf Hb) as (wk & s2 & -> & Hc2 & Ho2 & Hrc2 & _).
  fold rq in Hc2, Hrc2 |- *. fold r in Hc2, Hrc2 |- *. fold c1 in Hc2. rewrite Ho in Ho2.
  destruct (trap_tx_termination_trace None query wk (get_num_rows r) s2 o c1 Ho2 Hc2)
    as ([rc cur] & s' & -> & Ho' & Htr).
  rewrite Hrc2 in Htr. cbn [fst] in Htr.
  exists rc, s'. split; [reflexivity|]. split; [exact Ho' | exact Htr].
Qed.

(** *** The session's transaction *)

Lemma open_transactions_snoc (log : list exchange) (x : exchange) :
  open_transactions (log ++ [x]) = tx_step (open_transactions log) x.
Proof. unfold open_transactions. now rewrite fold_left_app. Qed.

Lemma tx_step_start (open : nat) (r : option PGresult) :
  PQresultStatus r = PGRES_COMMAND_OK ->
  tx_step open (Exec "START TRANSACTION", r) = 1%nat.
Proof. intros Hok. unfold tx_step. cbn. now rewrite Hok. Qed.

Lemma tx_step_begin (open : nat) (r : option PGresult) :
  PQresultStatus r = PGRES_COMMAND_OK ->
  tx_step open (Exec "BEGIN TRANSACTION", r) = 1%nat.
Proof. intros Hok. unfold tx_step. cbn. now rewrite Hok. Qed.

(** A statement that is not trapped leaves the transaction open. *)
Lemma tx_step_untrapped (rq : request) (query : string) (r : option PGresult) :
  command_of rq = Some query ->
  is_tx_termination_statement query && (PQresultStatus r =? PGRES_COMMAND_OK)%Z = false ->
  tx_step 1 (rq, r) = 1%nat.
Proof.
  intros Hq Hnt. unfold tx_step. cbn [fst snd]. rewrite Hq.
  destruct (PQresultStatus r =? PGRES_COMMAND_OK)%Z; [|reflexivity].
  destruct (opens_transaction query); [reflexivity|].
  rewrite andb_true_r in Hnt. now rewrite Hnt.
Qed.

Lemma is_setup_not_begin (x : exchange) :
  is_setup x -> fst x <> Exec "BEGIN TRANSACTION".
Proof. intros [rest ->]. discriminate. Qed.

(** *** connect *)

Lemma connect_options_done (conn : PGconn) (info : IDataSourceInfo)
    (o : IConnectionOptions) (s : DbInterfacePGSQL) :
  exists s',
    connect_options conn info o s = Some (DBERR_NO_ERROR, s')
    /\ connaddr s' = Some conn
    /\ connection_opts s' = Some o.
Proof.
  unfold connect_options. run.
  destruct (getOptions info !! "decode_binary") as [v|];
    [destruct (is_on_word v), (is_off_word v)|];
    (destruct (getOptions info !! "native_cursors") as [w|];
       [destruct (is_on_word w), (is_off_word w)|]);
    eexists; (split; [reflexivity|]); split; reflexivity.
Qed.

Lemma connect_statement_failed_frame (r : option PGresult) (s : DbInterfacePGSQL) :
  exists s', connect_statement_failed r s = Some (DBERR_CONNECTION_FAILED, s')
             /\ connaddr s' = connaddr s.
Proof. unfold connect_statement_failed. run. eexists. split; reflexivity. Qed.

Lemma connect_autocommit_begins (conn : PGconn) (info : IDataSourceInfo)
    (o : IConnectionOptions) (s s' : DbInterfacePGSQL) (rc : Z) (c : PGconn) :
  autocommit o = Off ->
  connaddr s = None ->
  Forall is_setup (conn_log conn) ->
  connect_autocommit conn info o s = Some (rc, s') ->
  connaddr s' = Some c ->
  rc = DBERR_NO_ERROR /\ connection_opts s' = Some o /\ begun c.
Proof.
  intros Hoff Hnone Hpre. unfold connect_autocommit, PQtalk. rewrite Hoff. cbn [is_Off].
  destruct (negb (PQresultStatus (PQanswer conn (Exec "BEGIN TRANSACTION"))
                  =? PGRES_COMMAND_OK)%Z) eqn:Hst.
  - destruct (connect_statement_failed_frame
                (PQanswer conn (Exec "BEGIN TRANSACTION")) s) as (s1 & -> & Hc1).
    intros [= <- <-] Hc. congruence.
  - destruct (connect_options_done
                (exchanged conn (Exec "BEGIN TRANSACTION")
                   (PQanswer conn (Exec "BEGIN TRANSACTION"))) info o s)
      as (s1 & -> & Hc1 & Ho1).
    intros [= <- <-] Hc. rewrite Hc1 in Hc. injection Hc as <-.
    split; [reflexivity|]. split; [exact Ho1|].
    exists (conn_log conn), (PQanswer conn (Exec "BEGIN TRANSACTION")).
    split; [reflexivity|]. split; [exact Hpre|].
    apply negb_false_iff, Z.eqb_eq in Hst. exact Hst.
Qed.

Lemma connect_default_schema_begins (conn : PGconn) (info : IDataSourceInfo)
    (o : IConnectionOptions) (s s' : DbInterfacePGSQL) (rc : Z) (c : PGconn) :
  autocommit o = Off ->
  connaddr s = None ->
  Forall is_setup (conn_log conn) ->
  connect_default_schema conn info o s = Some (rc, s') ->
  connaddr s' = Some c ->
  rc = DBERR_NO_ERROR /\ connection_opts s' = Some o /\ begun c.
Proof.
  intros Hoff Hnone Hpre. unfold connect_default_schema, PQtalk.
  destruct (getOptions info !! "default_schema") as [schema|];
    [|now apply connect_autocommit_begins].
  destruct (negb (String.eqb schema EmptyString));
    [|now apply connect_autocommit_begins].
  set (rq := Exec ("set search_path to " ++ schema)).
  destruct (negb (PQresultStatus (PQanswer conn rq) =? PGRES_COMMAND_OK)%Z).
  - destruct (connect_statement_failed_frame (PQanswer conn rq) s) as (s1 & -> & Hc1).
    intros [= <- <-] Hc. congruence.
  - apply connect_autocommit_begins; try assumption.
    cbn [exchanged conn_log]. apply Forall_app. split; [exact Hpre|].
    constructor; [|constructor]. now exists ("search_path to " ++ schema).
Qed.

Lemma connect_client_encoding_begins (conn : PGconn) (info : IDataSourceInfo)
    (o : IConnectionOptions) (s s' : DbInterfacePGSQL) (rc : Z) (c : PGconn) :
  autocommit o = Off ->
  connaddr s = None ->
  Forall is_setup (conn_log conn) ->
  connect_client_encoding conn info o s = Some (rc, s') ->
  connaddr s' = Some c ->
  rc = DBERR_NO_ERROR /\ connection_opts s' = Some o /\ begun c.
Proof.
  intros Hoff Hnone Hpre. unfold connect_client_encoding, PQsetClientEncoding, PQtalk.
  destruct (negb (String.eqb (client_encoding o) EmptyString));
    [|now apply connect_default_schema_begins].
  set (rq := Exec ("set client_encoding to '" ++ client_encoding o ++ "'")).
  destruct (negb (_ =? 0)%Z).
  - run. intros [= <- <-] Hc. cbn in Hc. congruence.
  - apply connect_default_schema_begins; try assumption.
    cbn [exchanged conn_log]. apply Forall_app. split; [exact Hpre|].
    constructor; [|constructor].
    now exists ("client_encoding to '" ++ client_encoding o ++ "'").
Qed.

Lemma connect_begins (info : IDataSourceInfo) (o : IConnectionOptions)
    (s s' : DbInterfacePGSQL) (rc : Z) (c : PGconn) :
  autocommit o = Off ->
  connect info o s = Some (rc, s') ->
  connaddr s' = Some c ->
  rc = DBERR_NO_ERROR /\ connection_opts s' = Some o /\ begun c.
Proof.
  intros Hoff. unfold connect. run.
  destruct (PQconnectdbParams (connection_params info)) as [st|].
  - cbn [conn_status].
    destruct (negb (st =? CONNECTION_OK)%Z).
    + intros [= <- <-] Hc. cbn in Hc. congruence.
    + apply connect_client_encoding_begins; try assumption; [reflexivity | constructor].
  - intros [= <- <-] Hc. cbn in Hc. congruence.
Qed.

Lemma begun_open (c : PGconn) : begun c -> open_transactions (conn_log c) = 1%nat.
Proof.
  intros (pre & r & -> & _ & Hok).
  rewrite open_transactions_snoc. now apply tx_step_begin.
Qed.

Lemma mismatch_test (paramTypes : list CobolVarType) (paramValues : list string)
    (paramFlags : list Z) :
  List.length paramTypes <> List.length paramValues
  \/ List.length paramTypes <> List.length paramFlags ->
  negb (List.length paramTypes =? List.length paramValues)%nat
  || negb (List.length paramTypes =? List.length paramFlags)%nat = true.
Proof.
  intros [Hne|Hne]; apply Nat.eqb_neq in Hne; rewrite Hne; cbn;
    [reflexivity | apply orb_true_r].
Qed.

(** *** Autocommit off *)

Lemma tx_code_iff (r2 : option PGresult) :
  DBERR_SQL_ERROR <> DBERR_NO_ERROR ->
  (if negb (PQresultStatus r2 =? PGRES_COMMAND_OK)%Z
   then DBERR_SQL_ERROR else DBERR_NO_ERROR) = DBERR_NO_ERROR
  <-> PQresultStatus r2 = PGRES_COMMAND_OK.
Proof.
  intros Hne. destruct (PQresultStatus r2 =? PGRES_COMMAND_OK)%Z eqn:Hst; cbn.
  - apply Z.eqb_eq in Hst. tauto.
  - apply Z.eqb_neq in Hst. tauto.
Qed.

(** The transaction survives whatever [trap_tx_termination] lets through. *)
Lemma open_after_statement (o : IConnectionOptions) (c : PGconn) (rq : request)
    (query : string) (r : option PGresult) (rc : Z) (conn' : option PGconn) :
  autocommit o = Off ->
  DBERR_SQL_ERROR <> DBERR_NO_ERROR ->
  command_of rq = Some query ->
  open_transactions (conn_log c) = 1%nat ->
  let c1 := exchanged c rq r in
  let r2 := PQanswer c1 (Exec "START TRANSACTION") in
  (if is_Off (autocommit o) && is_tx_termination_statement query
      && (PQresultStatus r =? PGRES_COMMAND_OK)%Z
   then conn' = Some (exchanged c1 (Exec "START TRANSACTION") r2)
        /\ rc = (if negb (PQresultStatus r2 =? PGRES_COMMAND_OK)%Z
                 then DBERR_SQL_ERROR else DBERR_NO_ERROR)
   else conn' = Some c1) ->
  rc = DBERR_NO_ERROR ->
  exists c', conn' = Some c' /\ open_transactions (conn_log c') = 1%nat.
Proof.
  intros Hoff Hne Hq Hopen c1 r2. rewrite Hoff. cbn [is_Off andb].
  destruct (is_tx_termination_statement query && (PQresultStatus r =? PGRES_COMMAND_OK)%Z)
    eqn:Htrap.
  - intros [-> ->] Hrc. apply (tx_code_iff r2 Hne) in Hrc.
    eexists. split; [reflexivity|].
    subst c1. cbn [exchanged conn_log]. rewrite open_transactions_snoc.
    now apply tx_step_start.
  - intros -> _. eexists. split; [reflexivity|].
    subst c1. cbn [exchanged conn_log]. rewrite open_transactions_snoc, Hopen.
    now apply tx_step_untrapped with (query := query).
Qed.

Lemma exec_params_throws (query : string) (paramTypes : list CobolVarType)
    (paramValues : list string) (paramLengths paramFlags : list Z)
    (s : DbInterfacePGSQL) :
  List.length paramTypes = List.length paramValues ->
  List.length paramTypes = List.length paramFlags ->
  bind_params 0 paramValues paramTypes paramLengths paramFlags = None ->
  exec_params query paramTypes paramValues paramLengths paramFlags s = None.
Proof.
  intros Hv Hf Hb. unfold exec_params, _pgsql_exec_params. run.
  rewrite Hv, <- Hf, Hv, Nat.eqb_refl. cbn [negb orb]. now rewrite Hb.
Qed.

Lemma exec_params_mismatch (query : string) (paramTypes : list CobolVarType)
    (paramValues : list string) (paramLengths paramFlags : list Z)
    (s : DbInterfacePGSQL) :
  List.length paramTypes <> List.length paramValues
  \/ List.length paramTypes <> List.length paramFlags ->
  exec_params query paramTypes paramValues paramLengths paramFlags s
  = Some (DBERR_INTERNAL_ERR,
          set_last_rc DBERR_INTERNAL_ERR
            (set_last_error "Internal error: parameter count mismatch" s)).
Proof.
  intros Hne. apply mismatch_test in Hne.
  unfold exec_params, _pgsql_exec_params. run. now rewrite Hne.
Qed.

(** C5: with autocommit off, a connection that [connect] hands over has seen
    exactly one BEGIN TRANSACTION, as the last statement and with success;
    a COMMIT or ROLLBACK that succeeds through [exec] or [exec_params] is
    followed at once by START TRANSACTION, and the call succeeds exactly when
    that does; so a call that succeeds on a session with its transaction open
    leaves it with its transaction open. *)
Theorem C5_autocommit_off_keeps_a_transaction_open (o : IConnectionOptions) :
  autocommit o = Off ->
  DBERR_SQL_ERROR <> DBERR_NO_ERROR ->
  (forall info s rc s' c,
      connect info o s = Some (rc, s') ->
      connaddr s' = Some c ->
      rc = DBERR_NO_ERROR
      /\ connection_opts s' = Some o
      /\ (exists pre r,
             conn_log c = (pre ++ [(Exec "BEGIN TRANSACTION", r)])%list
             /\ Forall (fun x => fst x <> Exec "BEGIN TRANSACTION") pre
             /\ PQresultStatus r = PGRES_COMMAND_OK)
      /\ open_transactions (conn_log c) = 1%nat)
  /\ (forall s c query,
         connection_opts s = Some o ->
         connaddr s = Some c ->
         is_tx_termination_statement query = true ->
         let rq := exec_request query in
         PQresultStatus (PQanswer c rq) = PGRES_COMMAND_OK ->
         exists rc s' r2,
           exec query s = Some (rc, s')
           /\ connaddr s' = Some (exchanged (exchanged c rq (PQanswer c rq))
                                    (Exec "START TRANSACTION") r2)
           /\ (rc = DBERR_NO_ERROR <-> PQresultStatus r2 = PGRES_COMMAND_OK))
  /\ (forall s c query paramTypes paramValues paramLengths paramFlags ps,
         connection_opts s = Some o ->
         connaddr s = Some c ->
         List.length paramTypes = List.length paramValues ->
         List.length paramTypes = List.length paramFlags ->
         bind_params 0 paramValues paramTypes paramLengths paramFlags = Some ps ->
         is_tx_termination_statement query = true ->
         let rq := exec_params_request query paramValues ps in
         PQresultStatus (PQanswer c rq) = PGRES_COMMAND_OK ->
         exists rc s' r2,
           exec_params query paramTypes paramValues paramLengths paramFlags s = Some (rc, s')
           /\ connaddr s' = Some (exchanged (exchanged c rq (PQanswer c rq))
                                    (Exec "START TRANSACTION") r2)
           /\ (rc = DBERR_NO_ERROR <-> PQresultStatus r2 = PGRES_COMMAND_OK))
  /\ (forall s c query rc s',
         connection_opts s = Some o ->
         connaddr s = Some c ->
         open_transactions (conn_log c) = 1%nat ->
         exec query s = Some (rc, s') ->
         rc = DBERR_NO_ERROR ->
         exists c', connaddr s' = Some c' /\ open_transactions (conn_log c') = 1%nat)
  /\ (forall s c query paramTypes paramValues paramLengths paramFlags rc s',
         connection_opts s = Some o ->
         connaddr s = Some c ->
         open_transactions (conn_log c) = 1%nat ->
         exec_params query paramTypes paramValues paramLengths paramFlags s = Some (rc, s') ->
         rc = DBERR_NO_ERROR ->
         exists c', connaddr s' = Some c' /\ open_transactions (conn_log c') = 1%nat).
Proof.
  intros Hoff Hne. repeat apply conj.
  - intros info s rc s' c Hrun Hc.
    destruct (connect_begins info o s s' rc c Hoff Hrun Hc) as (Hrc & Ho & Hb).
    split; [exact Hrc|]. split; [exact Ho|]. split.
    + destruct Hb as (pre & r & Hlog & Hpre & Hok).
      exists pre, r. split; [exact Hlog|]. split; [|exact Hok].
      eapply Forall_impl; [exact Hpre|]. apply is_setup_not_begin.
    + now apply begun_open.
  - intros s c query Ho Hc Htx rq Hok.
    destruct (exec_trace query s o c Ho Hc) as (rc & s' & Hrun & _ & Htr).
    fold rq in Htr. rewrite Hoff, Htx, Hok in Htr. cbn in Htr.
    destruct Htr as [Hc' Hrc].
    exists rc, s'. eexists. split; [exact Hrun|]. split; [exact Hc'|].
    rewrite Hrc. now apply tx_code_iff.
  - intros s c query ts vs ls fs ps Ho Hc Hv Hf Hb Htx rq Hok.
    destruct (exec_params_trace query ts vs ls fs ps s o c Ho Hc Hv Hf Hb)
      as (rc & s' & Hrun & _ & Htr).
    fold rq in Htr. rewrite Hoff, Htx, Hok in Htr. cbn in Htr.
    destruct Htr as [Hc' Hrc].
    exists rc, s'. eexists. split; [exact Hrun|]. split; [exact Hc'|].
    rewrite Hrc. now apply tx_code_iff.
  - intros s c query rc s' Ho Hc Hopen Hrun Hrc.
    destruct (exec_trace query s o c Ho Hc) as (rc1 & s1 & Hrun1 & _ & Htr).
    rewrite Hrun in Hrun1. injection Hrun1 as <- <-.
    now apply (open_after_statement o c (exec_request query) query
                 (PQanswer c (exec_request query)) rc (connaddr s')).
  - intros s c query ts vs ls fs rc s' Ho Hc Hopen Hrun Hrc.
    destruct (Nat.eq_dec (List.length ts) (List.length vs)) as [Hv|Hv];
      [destruct (Nat.eq_dec (List.length ts) (List.length fs)) as [Hf|Hf]|].
    + destruct (bind_params 0 vs ts ls fs) as [ps|] eqn:Hb.
      * destruct (exec_params_trace query ts vs ls fs ps s o c Ho Hc Hv Hf Hb)
          as (rc1 & s1 & Hrun1 & _ & Htr).
        rewrite Hrun in Hrun1. injection Hrun1 as <- <-.
        now apply (open_after_statement o c (exec_params_request query vs ps) query
                     (PQanswer c (exec_params_request query vs ps)) rc (connaddr s')).
      * rewrite (exec_params_throws query ts vs ls fs s Hv Hf Hb) in Hrun. discriminate.
    + rewrite (exec_params_mismatch query ts vs ls fs s) in Hrun by now right.
      injection Hrun as _ <-. exists c. split; assumption.
    + rewrite (exec_params_mismatch query ts vs ls fs s) in Hrun by now left.
      injection Hrun as _ <-. exists c. split; assumption.
Qed.

(** *** Zero rows *)

(** An UPDATE, DELETE (or whatever [is_update_or_delete_statement] accepts)
    that runs and touches no row: the call fails with code 100; the state
    stays the one read from the command's result. *)
Lemma exec_zero_rows (query : string) (s : DbInterfacePGSQL)
    (o : IConnectionOptions) (c : PGconn) :
  connection_opts s = Some o ->
  connaddr s = Some c ->
  is_Off (autocommit o) && is_tx_termination_statement query = false ->
  is_update_or_delete_statement query = true ->
  let r := PQanswer c (exec_request query) in
  PQresultStatus r = PGRES_COMMAND_OK ->
  (get_num_rows r <= 0)%Z ->
  exists s',
    exec query s = Some (DBERR_SQL_ERROR, s')
    /\ get_error_code s' = 100%Z
    /\ get_state s' = pg_get_sqlstate r.
Proof.
  intros Ho Hc Hnt Hupd r Hok Hrows. unfold exec. run.
  destruct (_pgsql_exec_sends None query s c Hc) as (wk & s2 & -> & _ & Ho2 & Hrc2 & Hst2).
  fold r in Hrc2, Hst2 |- *.
  unfold trap_tx_termination. run. rewrite Ho2, Ho, Hnt.
  rewrite (after_exec_zero_rows None query wk (get_num_rows r) s2)
    by (try assumption; now rewrite Hrc2).
  eexists. split; [reflexivity|]. split; [reflexivity | exact Hst2].
Qed.

(** *** cursor_close *)

Lemma clearPrivateData_when_set (c : ICursor) :
  match getPrivateData c with
  | Some _ => clearPrivateData c
  | None => c
  end = clearPrivateData c.
Proof. destruct c as [nm [d|]]; reflexivity. Qed.

Lemma cursor_close_null (s : DbInterfacePGSQL) :
  cursor_close None s = Some ((DBERR_CLOSE_CURSOR_FAILED, None), s).
Proof. reflexivity. Qed.

(** With native cursors the state a close leaves is the one [exec] of the
    CLOSE statement leaves; the code [exec] returns is dropped. *)
Lemma cursor_close_native (c : ICursor) (s s1 : DbInterfacePGSQL) (rc : Z) :
  use_native_cursors s = true ->
  exec ("CLOSE " ++ getName c) s = Some (rc, s1) ->
  cursor_close (Some c) s = Some ((DBERR_NO_ERROR, Some (clearPrivateData c)), s1).
Proof.
  intros Hn Hx. unfold cursor_close. run. rewrite Hn, Hx.
  now rewrite clearPrivateData_when_set.
Qed.

Lemma cursor_close_emulated (c : ICursor) (s : DbInterfacePGSQL) :
  use_native_cursors s = false ->
  cursor_close (Some c) s = Some ((DBERR_NO_ERROR, Some (clearPrivateData c)), s).
Proof.
  intros Hn. unfold cursor_close. run. rewrite Hn.
  now rewrite clearPrivateData_when_set.
Qed.

(** C10: on a connected driver, closing a cursor that is not null returns
    [DBERR_NO_ERROR] and leaves the cursor without private data; with native
    cursors a [CLOSE <name>] is executed and whatever it returns is ignored;
    [DBERR_CLOSE_CURSOR_FAILED] only answers a null cursor. *)
Theorem C10_cursor_close_ignores_close_result
    (s : DbInterfacePGSQL) (o : IConnectionOptions) (c : ICursor) :
  connection_opts s = Some o ->
  DBERR_CLOSE_CURSOR_FAILED <> DBERR_NO_ERROR ->
  (exists s',
      cursor_close (Some c) s = Some ((DBERR_NO_ERROR, Some (clearPrivateData c)), s')
      /\ getPrivateData (clearPrivateData c) = None
      /\ (use_native_cursors s = true ->
          exists rc, exec ("CLOSE " ++ getName c) s = Some (rc, s'))
      /\ (use_native_cursors s = false -> s' = s))
  /\ (forall cur rc cur' s',
         cursor_close cur s = Some ((rc, cur'), s') ->
         rc = DBERR_CLOSE_CURSOR_FAILED -> cur = None).
Proof.
  intros Ho Hne.
  assert (Hclose : exists s',
      cursor_close (Some c) s = Some ((DBERR_NO_ERROR, Some (clearPrivateData c)), s')
      /\ (use_native_cursors s = true ->
          exists rc, exec ("CLOSE " ++ getName c) s = Some (rc, s'))
      /\ (use_native_cursors s = false -> s' = s)).
  { destruct (use_native_cursors s) eqn:Hn.
    - destruct (exec_returns ("CLOSE " ++ getName c) s o Ho) as (rc & s1 & Hx & _).
      exists s1. split; [now apply cursor_close_native with (rc := rc)|].
      split; [intros _; now exists rc | discriminate].
    - exists s. split; [now apply cursor_close_emulated|].
      split; [discriminate | reflexivity]. }
  split.
  - destruct Hclose as (s' & Hc & Hnat & Hemu).
    exists s'. repeat split; assumption.
  - intros [c0|] rc cur' s' Hrun Hrc; [exfalso | reflexivity].
    clear Hclose. subst rc.
    destruct (use_native_cursors s) eqn:Hn.
    + destruct (exec_returns ("CLOSE " ++ getName c0) s o Ho) as (rc & s1 & Hx & _).
      rewrite (cursor_close_native c0 s s1 rc Hn Hx) in Hrun.
      injection Hrun as Hrc _ _. now apply Hne.
    + rewrite (cursor_close_emulated c0 s Hn) in Hrun.
      injection Hrun as Hrc _ _. now apply Hne.
Qed.

(** *** prepare, exec_prepared *)

Lemma prepare_lower (name sql : string) (s : DbInterfacePGSQL) :
  prepare name sql s = prepare (to_lower name) sql s.
Proof. unfold prepare. now rewrite CLibFacts.to_lower_idempotent. Qed.

Lemma exec_prepared_lower (name : string) (paramTypes : list CobolVarType)
    (paramValues : list string) (paramLengths paramFlags : list Z)
    (s : DbInterfacePGSQL) :
  exec_prepared name paramTypes paramValues paramLengths paramFlags s
  = exec_prepared (to_lower name) paramTypes paramValues paramLengths paramFlags s.
Proof. unfold exec_prepared. now rewrite CLibFacts.to_lower_idempotent. Qed.

Lemma prepare_duplicate (name sql : string) (s : DbInterfacePGSQL) :
  is_prepared s (to_lower name) = true ->
  prepare name sql s = Some (DBERR_PREPARE_FAILED, s).
Proof. intros Hp. unfold prepare. run. now rewrite Hp. Qed.

(** What [prepare] does to the table: nothing, or one new entry under the
    lower-cased name. *)
Lemma prepare_table (name sql : string) (s s' : DbInterfacePGSQL) (rc : Z) :
  prepare name sql s = Some (rc, s') ->
  (rc = DBERR_PREPARE_FAILED /\ _prepared_stmts s' = _prepared_stmts s)
  \/ (rc = DBERR_NO_ERROR
      /\ is_prepared s (to_lower name) = false
      /\ _prepared_stmts s' = <[to_lower name := None]> (_prepared_stmts s)).
Proof.
  unfold prepare. run.
  destruct (is_prepared s (to_lower name)) eqn:Hp.
  - intros [= <- <-]. now left.
  - destruct (connection_opts s) as [o|]; [|discriminate].
    destruct (PQsend_frame
                (Prepare (to_lower name)
                   (if fixup_parameters o then Fixup.pgsql_fixup_parameters sql else sql)) s)
      as (r & s1 & -> & _ & _ & Hst & _).
    cbn [last_rc set_last_state set_last_error set_last_rc].
    destruct (negb (PQresultStatus r =? PGRES_COMMAND_OK)%Z); cbn beta iota.
    + intros [= <- <-]. left. split; [reflexivity | exact Hst].
    + intros [= <- <-]. right. repeat split. cbn. now rewrite Hst.
Qed.

Lemma exec_prepared_frame (name : string) (paramTypes : list CobolVarType)
    (paramValues : list string) (paramLengths paramFlags : list Z)
    (ps : list bound_param) (s : DbInterfacePGSQL) (c : PGconn) :
  connaddr s = Some c ->
  is_prepared s (to_lower name) = true ->
  List.length paramTypes = List.length paramValues ->
  List.length paramTypes = List.length paramFlags ->
  bind_params 0 paramValues paramTypes paramLengths paramFlags = Some ps ->
  let rq := ExecPrepared (to_lower name) (List.length paramValues)
              (map bp_val ps) (map bp_length ps) (map bp_format ps) in
  let r := PQanswer c rq in
  exists rc s',
    exec_prepared name paramTypes paramValues paramLengths paramFlags s = Some (rc, s')
    /\ connaddr s' = Some (exchanged c rq r)
    /\ current_resultset_data s' = current_resultset_data s
    /\ get_state s' = pg_get_sqlstate r
    /\ if (PQresultStatus r =? PGRES_COMMAND_OK)%Z || (PQresultStatus r =? PGRES_TUPLES_OK)%Z
       then rc = DBERR_NO_ERROR
            /\ get_error_code s' = PQresultStatus r
            /\ exists rs, _prepared_stmts s' = <[to_lower name := Some rs]> (_prepared_stmts s)
                          /\ resultset rs = r /\ current_row_index rs = (-1)%Z
       else rc = DBERR_SQL_ERROR
            /\ get_error_code s' = (- (10000 + PQresultStatus r))%Z
            /\ _prepared_stmts s' = _prepared_stmts s.
Proof.
  intros Hc Hp Hv Hf Hb rq r. unfold exec_prepared. run.
  rewrite Hp, Hv, <- Hf, Hv, Nat.eqb_refl. cbn [negb orb]. rewrite Hb.
  unfold PQsend. cbn [connaddr set_next_addr]. rewrite Hc. fold rq. fold r.
  cbn [last_rc set_last_state set_last_error set_last_rc].
  destruct ((PQresultStatus r =? PGRES_COMMAND_OK)%Z || (PQresultStatus r =? PGRES_TUPLES_OK)%Z);
    eexists; eexists; (split; [reflexivity|]); repeat apply conj; try reflexivity.
  eexists. repeat apply conj; reflexivity.
Qed.

(** C8: [prepare] and [exec_prepared] see the name only through [to_lower];
    preparing a name whose lower-cased form is in the table returns
    [DBERR_PREPARE_FAILED] and changes nothing (nothing is sent either); the
    only entry [prepare] ever adds is under the lower-cased name.
    [exec_prepared] looks the lower-cased name up in the table: a name whose
    lower-cased form is not there is refused with [DBERR_SQL_ERROR] and
    nothing is sent, and after a successful [prepare] every spelling of the
    name with the same lower-cased form is found, so that [exec_prepared]
    sends the EXECUTE for the lower-cased name. *)
Theorem C8_prepare_names_are_lower_cased
    (name name' sql : string) (s : DbInterfacePGSQL) :
  prepare name sql s = prepare (to_lower name) sql s
  /\ (is_prepared s (to_lower name) = true ->
      prepare name sql s = Some (DBERR_PREPARE_FAILED, s))
  /\ (forall paramTypes paramValues paramLengths paramFlags,
         to_lower name' = to_lower name ->
         exec_prepared name' paramTypes paramValues paramLengths paramFlags s
         = exec_prepared name paramTypes paramValues paramLengths paramFlags s)
  /\ (forall paramTypes paramValues paramLengths paramFlags,
         is_prepared s (to_lower name') = false ->
         exec_prepared name' paramTypes paramValues paramLengths paramFlags s
         = Some (DBERR_SQL_ERROR, s))
  /\ (forall s',
         DBERR_PREPARE_FAILED <> DBERR_NO_ERROR ->
         to_lower name' = to_lower name ->
         prepare name sql s = Some (DBERR_NO_ERROR, s') ->
         is_prepared s (to_lower name) = false
         /\ _prepared_stmts s' = <[to_lower name := None]> (_prepared_stmts s)
         /\ is_prepared s' (to_lower name') = true
         /\ forall paramTypes paramValues paramLengths paramFlags ps c,
              connaddr s' = Some c ->
              List.length paramTypes = List.length paramValues ->
              List.length paramTypes = List.length paramFlags ->
              bind_params 0 paramValues paramTypes paramLengths paramFlags = Some ps ->
              let rq := ExecPrepared (to_lower name) (List.length paramValues)
                          (map bp_val ps) (map bp_length ps) (map bp_format ps) in
              exists rc s'',
                exec_prepared name' paramTypes paramValues paramLengths paramFlags s'
                = Some (rc, s'')
                /\ connaddr s'' = Some (exchanged c rq (PQanswer c rq))).
Proof.
  split; [apply prepare_lower|].
  split; [apply prepare_duplicate|].
  split; [|split].
  - intros ts vs ls fs Hl.
    rewrite (exec_prepared_lower name'), (exec_prepared_lower name). now rewrite Hl.
  - intros ts vs ls fs Hp. unfold exec_prepared. run. now rewrite Hp.
  - intros s' Hne Hl Hrun.
    destruct (prepare_table name sql s s' _ Hrun) as [[Hrc _]|(_ & Hfresh & Htab)].
    + exfalso. apply Hne. now symmetry.
    + assert (Hfound : is_prepared s' (to_lower name') = true).
      { unfold is_prepared. rewrite Htab, Hl. now rewrite lookup_insert_eq. }
      repeat split; try assumption.
      intros ts vs ls fs ps c Hc Hv Hf Hb rq.
      destruct (exec_prepared_frame name' ts vs ls fs ps s' c Hc Hfound Hv Hf Hb)
        as (rc & s'' & Hexec & Hconn & _).
      rewrite Hl in Hconn. exists rc, s''. split; [exact Hexec | exact Hconn].
Qed.

(** *** move_to_first_record *)

Lemma get_num_rows_of_row_count (r : PGresult) :
  PQcmdTuples r = Some (CLib.to_string (PQntuples r)) ->
  (Z.of_nat (PQntuples r) < 2147483648)%Z ->
  get_num_rows (Some r) = Z.of_nat (PQntuples r).
Proof.
  intros Hc Hint. unfold get_num_rows. rewrite Hc. now apply CLibFacts.atoi_to_string.
Qed.

(** What [move_to_first_record] does once the result set is resolved. *)
Lemma move_to_first_record_resolved (name : string) (s : DbInterfacePGSQL)
    (rs : PGResultSetData) (r : PGresult) :
  named_resultset s name = Some rs ->
  resultset rs = Some r ->
  move_to_first_record name s
  = if (get_num_rows (Some r) <=? 0)%Z
    then Some (false, set_last_state "02000"
                        (set_last_rc DBERR_NO_DATA (set_last_error "No data" s)))
    else Some (true, s).
Proof.
  unfold named_resultset, move_to_first_record. run.
  intros Hn Hr.
  destruct (String.eqb (to_lower name) EmptyString).
  - rewrite Hn, Hr. now destruct (_ <=? _)%Z.
  - destruct (_prepared_stmts s !! to_lower name) as [[rs'|]|]; try discriminate.
    injection Hn as ->. rewrite Hr. now destruct (_ <=? _)%Z.
Qed.

Lemma move_to_first_record_unresolved (name : string) (s : DbInterfacePGSQL) :
  (forall rs r, named_resultset s name = Some rs -> resultset rs <> Some r) ->
  move_to_first_record name s
  = Some (false, set_last_state "HY000"
                   (set_last_rc DBERR_MOVE_TO_FIRST_FAILED
                      (set_last_error "Invalid statement reference" s))).
Proof.
  unfold named_resultset, move_to_first_record. run.
  intros Hn.
  destruct (String.eqb (to_lower name) EmptyString).
  - destruct (current_resultset_data s) as [rs|]; [|reflexivity].
    destruct (resultset rs) as [r|] eqn:Hr; [|reflexivity].
    now destruct (Hn rs r).
  - destruct (_prepared_stmts s !! to_lower name) as [[rs|]|]; try reflexivity.
    destruct (resultset rs) as [r|] eqn:Hr; [|reflexivity].
    now destruct (Hn rs r).
Qed.

(** C3, as the code has it: [move_to_first_record] counts rows as the driver
    does everywhere, by the row count in the command tag of the result
    ([atoi] of [PQcmdTuples], an [int]).  It returns true exactly when that
    count, for the result held under the name (or, for the empty name, the
    current result), is at least one; when the count is zero or less it
    returns false and leaves error code 100 ([DBERR_NO_DATA]) and state
    02000.  For a result whose tag reports the number of rows it holds, as
    that of a SELECT or a FETCH does, the count is the number of rows of the
    result set. *)
Theorem C3_move_to_first_record_iff_rows (name : string) (s : DbInterfacePGSQL) :
  exists b s',
    move_to_first_record name s = Some (b, s')
    /\ (b = true <->
        exists rs r, named_resultset s name = Some rs /\ resultset rs = Some r
                     /\ (1 <= get_num_rows (Some r))%Z)
    /\ (forall rs r, named_resultset s name = Some rs -> resultset rs = Some r ->
                     (get_num_rows (Some r) <= 0)%Z ->
                     b = false /\ get_error_code s' = 100%Z
                     /\ get_error_code s' = DBERR_NO_DATA /\ get_state s' = "02000")
    /\ (forall rs r, named_resultset s name = Some rs -> resultset rs = Some r ->
                     PQcmdTuples r = Some (CLib.to_string (PQntuples r)) ->
                     (Z.of_nat (PQntuples r) < 2147483648)%Z ->
                     get_num_rows (Some r) = Z.of_nat (PQntuples r)).
Proof.
  assert (Hcount : forall (rs : PGResultSetData) r,
             named_resultset s name = Some rs -> resultset rs = Some r ->
             PQcmdTuples r = Some (CLib.to_string (PQntuples r)) ->
             (Z.of_nat (PQntuples r) < 2147483648)%Z ->
             get_num_rows (Some r) = Z.of_nat (PQntuples r)).
  { intros rs r _ _. apply get_num_rows_of_row_count. }
  destruct (named_resultset s name) as [rs|] eqn:Hn.
  - destruct (resultset rs) as [r|] eqn:Hr.
    + rewrite (move_to_first_record_resolved name s rs r Hn Hr).
      destruct (get_num_rows (Some r) <=? 0)%Z eqn:Hle.
      * apply Z.leb_le in Hle.
        eexists; eexists; split; [reflexivity|]. split; [|split; [|exact Hcount]].
        -- split; [discriminate|].
           intros (rs' & r' & [= <-] & Hr' & Hrows).
           rewrite Hr in Hr'. injection Hr' as <-. lia.
        -- intros rs' r' [= <-] Hr' _. repeat split.
      * apply Z.leb_gt in Hle.
        eexists; eexists; split; [reflexivity|]. split; [|split; [|exact Hcount]].
        -- split; [|reflexivity]. intros _. exists rs, r. repeat split; [assumption | lia].
        -- intros rs' r' [= <-] Hr' H0.
           rewrite Hr in Hr'. injection Hr' as <-. lia.
    + rewrite move_to_first_record_unresolved.
      * eexists; eexists; split; [reflexivity|]. split; [|split; [|exact Hcount]].
        -- split; [discriminate|]. intros (rs' & r' & [= <-] & Hr' & _). congruence.
        -- intros rs' r' [= <-] Hr'. congruence.
      * intros rs' r' Hn' Hr'. congruence.
  - rewrite move_to_first_record_unresolved.
    + eexists; eexists; split; [reflexivity|]. split; [|split; [|exact Hcount]].
      * split; [discriminate|]. intros (rs' & r' & Hn' & _). congruence.
      * intros rs' r' Hn'. congruence.
    + intros rs' r' Hn' Hr'. congruence.
Qed.

Lemma exec_params_zero_rows (query : string) (paramTypes : list CobolVarType)
    (paramValues : list string) (paramLengths paramFlags : list Z)
    (ps : list bound_param) (s : DbInterfacePGSQL)
    (o : IConnectionOptions) (c : PGconn) :
  connection_opts s = Some o ->
  connaddr s = Some c ->
  List.length paramTypes = List.length paramValues ->
  List.length paramTypes = List.length paramFlags ->
  bind_params 0 paramValues paramTypes paramLengths paramFlags = Some ps ->
  is_Off (autocommit o) && is_tx_termination_statement query = false ->
  is_update_or_delete_statement query = true ->
  let r := PQanswer c (exec_params_request query paramValues ps) in
  PQresultStatus r = PGRES_COMMAND_OK ->
  (get_num_rows r <= 0)%Z ->
  exists s',
    exec_params query paramTypes paramValues paramLengths paramFlags s
    = Some (DBERR_SQL_ERROR, s')
    /\ get_error_code s' = 100%Z
    /\ get_state s' = pg_get_sqlstate r.
Proof.
  intros Ho Hc Hv Hf Hb Hnt Hupd r Hok Hrows. unfold exec_params. run.
  destruct (_pgsql_exec_params_sends None query paramTypes paramValues paramLengths
              paramFlags ps s c Hc Hv Hf Hb) as (wk & s2 & -> & _ & Ho2 & Hrc2 & Hst2).
  fold r in Hrc2, Hst2 |- *.
  unfold trap_tx_termination. run. rewrite Ho2, Ho, Hnt.
  rewrite (after_exec_zero_rows None query wk (get_num_rows r) s2)
    by (try assumption; now rewrite Hrc2).
  eexists. split; [reflexivity|]. split; [reflexivity | exact Hst2].
Qed.

(** *** Parameter arrays of different lengths *)

(** C7, as the code has it: when the types, values and flags arrays are not
    all of the same length, [exec_params] returns [DBERR_INTERNAL_ERR], and so
    does [exec_prepared] for a statement name that is in the table; the only
    change is to [last_error] and [last_rc], so nothing has been sent.  For a
    name that is not in the table [exec_prepared] returns [DBERR_SQL_ERROR]
    before it looks at the arrays. *)
Theorem C7_parameter_count_mismatch (query name : string)
    (paramTypes : list CobolVarType) (paramValues : list string)
    (paramLengths paramFlags : list Z) (s : DbInterfacePGSQL) :
  List.length paramTypes <> List.length paramValues
  \/ List.length paramTypes <> List.length paramFlags ->
  let s_err := set_last_rc DBERR_INTERNAL_ERR
                 (set_last_error "Internal error: parameter count mismatch" s) in
  exec_params query paramTypes paramValues paramLengths paramFlags s
  = Some (DBERR_INTERNAL_ERR, s_err)
  /\ (is_prepared s (to_lower name) = true ->
      exec_prepared name paramTypes paramValues paramLengths paramFlags s
      = Some (DBERR_INTERNAL_ERR, s_err))
  /\ (is_prepared s (to_lower name) = false ->
      exec_prepared name paramTypes paramValues paramLengths paramFlags s
      = Some (DBERR_SQL_ERROR, s))
  /\ connaddr s_err = connaddr s.
Proof.
  intros Hne s_err. apply mismatch_test in Hne.
  split; [|split; [|split]].
  - unfold exec_params, _pgsql_exec_params. run. now rewrite Hne.
  - intros Hp. unfold exec_prepared. run. now rewrite Hp, Hne.
  - intros Hp. unfold exec_prepared. run. now rewrite Hp.
  - reflexivity.
Qed.

(** *** get_resultset_value *)

Lemma memset0_skipn (p : CLib.memory) (off n : nat) :
  (off + n <= List.length p)%nat ->
  skipn (off + n) (CLib.memset0 p off n) = skipn (off + n) p.
Proof.
  intros Hle. unfold CLib.memset0.
  rewrite List.app_assoc, List.skipn_app.
  rewrite List.skipn_all2
    by (rewrite List.length_app, List.length_firstn, List.repeat_length; lia).
  rewrite List.length_app, List.length_firstn, List.repeat_length.
  replace (off + n - (Nat.min off (List.length p) + n))%nat with 0%nat by lia.
  reflexivity.
Qed.

Lemma skipn_succ_eq {A} (k : nat) (l l' : list A) :
  skipn k l = skipn k l' -> skipn (S k) l = skipn (S k) l'.
Proof.
  intros Heq. change (S k) with (1 + k)%nat.
  now rewrite <- !List.skipn_skipn, Heq.
Qed.

(** Text path: a value longer than [bfrlen] is refused, the buffer is left
    alone. *)
Lemma get_resultset_value_text_too_long (this : DbInterfacePGSQL)
    (ty : ResultSetContextType) (ctx : IResultSetContextData) (row col : Z)
    (bfr : CLib.memory) (bfrlen : nat) (is_db_null : bool)
    (wk_rs : PGResultSetData) (row' : Z) (res : string) :
  select_resultset this ty ctx row = Selected (Some wk_rs) row' ->
  PQgetvalue (resultset wk_rs) row' col = Some res ->
  negb (PQftype (resultset wk_rs) col =? OID_BYTEA)%Z || (decode_binary this =? 0)%Z = true ->
  (bfrlen < CLib.strlen res)%nat ->
  get_resultset_value this ty ctx row col bfr bfrlen is_db_null
  = Some {| rv_return := false; rv_bfr := bfr; rv_value_len := 0;
            rv_is_db_null := is_db_null |}.
Proof.
  intros Hsel Hval Htext Hlong. unfold get_resultset_value.
  rewrite Hsel, Hval, Htext.
  assert (Hnz : (CLib.strlen res =? 0)%nat = false) by (apply Nat.eqb_neq; lia).
  rewrite Hnz. cbn [andb].
  apply Nat.ltb_lt in Hlong. now rewrite Hlong.
Qed.

(** Bytea path: the same for the decoded length. *)
Lemma get_resultset_value_bytea_too_long (this : DbInterfacePGSQL)
    (ty : ResultSetContextType) (ctx : IResultSetContextData) (row col : Z)
    (bfr : CLib.memory) (bfrlen : nat) (is_db_null : bool)
    (wk_rs : PGResultSetData) (row' : Z) (res : string) (bytes : list ascii) :
  select_resultset this ty ctx row = Selected (Some wk_rs) row' ->
  PQgetvalue (resultset wk_rs) row' col = Some res ->
  (CLib.strlen res =? 0)%nat && PQgetisnull (resultset wk_rs) row' col = false ->
  negb (PQftype (resultset wk_rs) col =? OID_BYTEA)%Z || (decode_binary this =? 0)%Z = false ->
  PQunescapeBytea res = Some bytes ->
  (bfrlen < List.length bytes)%nat ->
  get_resultset_value this ty ctx row col bfr bfrlen is_db_null
  = Some {| rv_return := false; rv_bfr := bfr; rv_value_len := 0;
            rv_is_db_null := is_db_null |}.
Proof.
  intros Hsel Hval Hnull Hbin Hun Hlong. unfold get_resultset_value.
  rewrite Hsel, Hval, Hnull, Hbin, Hun.
  apply Nat.ltb_lt in Hlong. now rewrite Hlong.
Qed.

Lemma c_str_length (res : string) :
  List.length (list_ascii_of_string (CLib.c_str res)) = CLib.strlen res.
Proof.
  unfold CLib.strlen. generalize (CLib.c_str res) as t.
  induction t as [|a t IH]; cbn; [reflexivity | now rewrite IH].
Qed.

(** X16: what the call may write: with a buffer of at least [bfrlen] bytes, the
    bytes from offset [bfrlen + 1] on are never touched. *)
Lemma get_resultset_value_footprint (this : DbInterfacePGSQL)
    (ty : ResultSetContextType) (ctx : IResultSetContextData) (row col : Z)
    (bfr : CLib.memory) (bfrlen : nat) (is_db_null : bool) (rv : resultset_value) :
  (bfrlen <= List.length bfr)%nat ->
  get_resultset_value this ty ctx row col bfr bfrlen is_db_null = Some rv ->
  skipn (S bfrlen) (rv_bfr rv) = skipn (S bfrlen) bfr.
Proof.
  intros Hlen. unfold get_resultset_value.
  destruct (select_resultset this ty ctx row) as [| |[wk_rs|] row']; try discriminate;
    try (intros [= <-]; reflexivity).
  destruct (PQgetvalue (resultset wk_rs) row' col) as [res|];
    [|intros [= <-]; reflexivity].
  destruct ((CLib.strlen res =? 0)%nat && PQgetisnull (resultset wk_rs) row' col).
  { intros [= <-]. cbn [rv_bfr]. unfold CLib.poke0.
    apply CLibFacts.memcpy_skipn. cbn. lia. }
  destruct (negb (PQftype (resultset wk_rs) col =? OID_BYTEA)%Z
            || (decode_binary this =? 0)%Z).
  - destruct (bfrlen <? CLib.strlen res)%nat eqn:Hcmp; intros [= <-]; [reflexivity|].
    apply Nat.ltb_ge in Hcmp. cbn [rv_bfr].
    apply CLibFacts.memcpy_skipn.
    rewrite List.length_app, c_str_length. cbn. lia.
  - destruct (PQunescapeBytea res) as [bytes|]; [|intros [= <-]; reflexivity].
    destruct (bfrlen <? List.length bytes)%nat eqn:Hcmp; intros [= <-]; [reflexivity|].
    apply Nat.ltb_ge in Hcmp. cbn [rv_bfr].
    apply skipn_succ_eq.
    destruct (List.length bytes <? bfrlen)%nat eqn:Hlt.
    + apply Nat.ltb_lt in Hlt.
      replace bfrlen with (List.length bytes + (bfrlen - List.length bytes))%nat at 1 3 by lia.
      rewrite memset0_skipn
        by (rewrite CLibFacts.memcpy_length_le; lia).
      apply CLibFacts.memcpy_skipn. lia.
    + apply CLibFacts.memcpy_skipn. exact Hcmp.
Qed.

End DriverFacts.

(** The scripted backend refuses every CLOSE; the cursor is closed all the
    same. *)
Lemma C10_close_on_the_bench :
  let c := {| getName := "CUR1";
              getPrivateData := Some {| rs_addr := 7; resultset := Some Bench.one_row;
                                        current_row_index := 0; num_rows := 1 |} |} in
  let s := Bench.connected On in
  (exists s',
      cursor_close (E := Bench.codes) (U := Bench.utils) (L := Bench.backend) (Some c) s
      = Some ((DBERR_NO_ERROR, Some (clearPrivateData c)), s')
      /\ getPrivateData (clearPrivateData c) = None
      /\ (use_native_cursors s = true ->
          exists rc, exec (E := Bench.codes) (U := Bench.utils) (L := Bench.backend)
                       ("CLOSE " ++ getName c) s = Some (rc, s'))
      /\ (use_native_cursors s = false -> s' = s))
  /\ (forall cur rc cur' s',
         cursor_close (E := Bench.codes) (U := Bench.utils) (L := Bench.backend) cur s
         = Some ((rc, cur'), s') ->
         rc = DBERR_CLOSE_CURSOR_FAILED (DbErr := Bench.codes) -> cur = None).
Proof.
  apply (C10_cursor_close_ignores_close_result (E := Bench.codes) (U := Bench.utils)
           (L := Bench.backend) (Bench.connected On) (Bench.options On)).
  - reflexivity.
  - vm_compute. discriminate.
Defined.

(** Scenario S4: [p1] is prepared, then executed as [P1], which sends the
    EXECUTE for [p1]; [P2] is not known; preparing [P1] again fails and
    leaves the driver as it was. *)
Lemma C8_prepare_on_the_bench :
  let prep := prepare (E := Bench.codes) (L := Bench.backend) in
  let s := Bench.connected On in
  let s1 := Bench.after (prep "p1" "UPDATE T SET A=? WHERE K=?") s in
  prep "p1" "UPDATE T SET A=? WHERE K=?" s = Some (DBERR_NO_ERROR, s1)
  /\ is_prepared s1 (to_lower "P1") = true
  /\ prep "P1" "SELECT 1" s1 = Some (DBERR_PREPARE_FAILED (DbErr := Bench.codes), s1)
  /\ Bench.bench_exec_prepared "P2" [] [] [] [] s1
     = Some (DBERR_SQL_ERROR (DbErr := Bench.codes), s1)
  /\ exists c rc s2,
       connaddr s1 = Some c
       /\ Bench.bench_exec_prepared "P1" [COBOL_TYPE_ALPHANUMERIC; COBOL_TYPE_ALPHANUMERIC]
            ["abc"; "7"] [3; 1]%Z [0; 0]%Z s1 = Some (rc, s2)
       /\ connaddr s2
          = Some (exchanged c (ExecPrepared "p1" 2 [Some "abc"; Some "7"] [3; 1]%Z [0; 0]%Z)
                    (Some Bench.one_row)).
Proof.
  cbv zeta.
  set (s := Bench.connected On).
  set (q := "UPDATE T SET A=? WHERE K=?").
  assert (Hrun : prepare (E := Bench.codes) (L := Bench.backend) "p1" q s
                 = Some (DBERR_NO_ERROR,
                         Bench.after (prepare (E := Bench.codes) (L := Bench.backend) "p1" q) s))
    by (vm_compute; reflexivity).
  set (s1 := Bench.after _ s) in *.
  pose proof (C8_prepare_names_are_lower_cased (E := Bench.codes) (U := Bench.utils)
                (L := Bench.backend) "p1" "P1" q s) as (_ & _ & _ & _ & Hfound).
  destruct (Hfound s1) as (_ & _ & Hp & Hexec);
    [vm_compute; discriminate | reflexivity | exact Hrun |].
  split; [exact Hrun|]. split; [exact Hp|]. split; [|split].
  - apply (C8_prepare_names_are_lower_cased (E := Bench.codes) (U := Bench.utils)
             (L := Bench.backend) "P1" "P1" "SELECT 1" s1).
    exact Hp.
  - apply (C8_prepare_names_are_lower_cased (E := Bench.codes) (U := Bench.utils)
             (L := Bench.backend) "P2" "P2" "SELECT 1" s1).
    vm_compute. reflexivity.
  - eexists.
    edestruct (Hexec [COBOL_TYPE_ALPHANUMERIC; COBOL_TYPE_ALPHANUMERIC]
                 ["abc"; "7"] [3; 1]%Z [0; 0]%Z) as (rc & s2 & Hsent & Hconn);
      [vm_compute; reflexivity | reflexivity | reflexivity | vm_compute; reflexivity |].
    exists rc, s2. split; [reflexivity|]. split; [exact Hsent | exact Hconn].
Defined.

(** After a SELECT of one row on the scripted backend,
    [move_to_first_record] on the current result set succeeds: the tag of
    the result counts its one row. *)
Lemma C3_first_record_on_the_bench :
  exists s' rs r,
    move_to_first_record (E := Bench.codes) "" Bench.after_select = Some (true, s')
    /\ named_resultset Bench.after_select "" = Some rs
    /\ resultset rs = Some r
    /\ get_num_rows (Some r) = Z.of_nat (PQntuples r)
    /\ PQntuples r = 1%nat.
Proof.
  destruct (C3_move_to_first_record_iff_rows (E := Bench.codes) "" Bench.after_select)
    as (b & s' & Hrun & Hiff & _ & Hcount).
  assert (Hn : named_resultset Bench.after_select ""
               = Some {| rs_addr := 0; resultset := Some Bench.one_row;
                         current_row_index := -1; num_rows := 0 |})
    by (vm_compute; reflexivity).
  pose proof (Hcount _ Bench.one_row Hn eq_refl eq_refl eq_refl) as Hrows.
  assert (Hb : b = true).
  { apply Hiff. eexists; exists Bench.one_row.
    split; [exact Hn|]. split; [reflexivity|]. rewrite Hrows. vm_compute. discriminate. }
  subst b. exists s'. eexists; exists Bench.one_row.
  split; [exact Hrun|]. split; [exact Hn|]. split; [reflexivity|].
  split; [exact Hrows | reflexivity].
Defined.

(** C3, counterexample: the rows of the result set are not what is counted.
    After a SHOW the current result set holds one row, but its command tag
    carries no count: [move_to_first_record] returns false with code 100 and
    state 02000.  After an UPDATE that touched three rows the current result
    set holds no row, and [move_to_first_record] returns true. *)
Lemma C3_rows_are_counted_by_the_command_tag :
  let run_exec q :=
    Bench.after (exec (E := Bench.codes) (U := Bench.utils) (L := Bench.tag_backend) q)
      (Bench.attached On false) in
  let s1 := run_exec "SHOW server_version" in
  let s2 := run_exec "UPDATE t SET a = 1" in
  (exists rs r, named_resultset s1 "" = Some rs /\ resultset rs = Some r
                /\ PQntuples r = 1%nat)
  /\ (exists s', move_to_first_record (E := Bench.codes) "" s1 = Some (false, s')
                 /\ get_error_code s' = 100%Z /\ get_state s' = "02000")
  /\ (exists rs r, named_resultset s2 "" = Some rs /\ resultset rs = Some r
                   /\ PQntuples r = 0%nat)
  /\ move_to_first_record (E := Bench.codes) "" s2 = Some (true, s2).
Proof.
  cbv zeta. split; [|split; [|split]].
  - eexists; eexists. split; [vm_compute; reflexivity|].
    split; [vm_compute; reflexivity | reflexivity].
  - eexists. split; [vm_compute; reflexivity|]. split; vm_compute; reflexivity.
  - eexists; eexists. split; [vm_compute; reflexivity|].
    split; [vm_compute; reflexivity | reflexivity].
  - vm_compute. reflexivity.
Qed.

Example first_record_of_one_row :
  move_to_first_record (E := Bench.codes) "" Bench.after_select
  = Some (true, Bench.after_select).
Proof. vm_compute. reflexivity. Qed.

(** C2: an UPDATE that the backend executes ([PGRES_COMMAND_OK], command tag
    with a row count of 0, no SQLSTATE field in the result) makes [exec] and
    [exec_params] return [DBERR_SQL_ERROR] with error code 100, but the state
    they leave is 00000, not 02000: the zero-row exit writes [last_rc] only. *)
Theorem C2_zero_rows_leave_state_00000 :
  let s := Bench.connected On in
  let q := "UPDATE t SET a = 1 WHERE k = 0" in
  let s1 := Bench.after (Bench.bench_exec q) s in
  let s2 := Bench.after (Bench.bench_exec_params q [] [] [] []) s in
  Bench.bench_exec q s = Some (DBERR_SQL_ERROR (DbErr := Bench.codes), s1)
  /\ get_error_code s1 = 100%Z
  /\ get_state s1 = "00000"
  /\ Bench.bench_exec_params q [] [] [] [] s = Some (DBERR_SQL_ERROR (DbErr := Bench.codes), s2)
  /\ get_error_code s2 = 100%Z
  /\ get_state s2 = "00000"
  /\ get_state s1 <> "02000" /\ get_state s2 <> "02000".
Proof. cbv zeta. repeat apply conj; vm_compute; solve [reflexivity | discriminate]. Qed.

(** C7, counterexample: the lengths array is not compared.  With no types,
    values or flags and one length, [exec_params] sends the statement and
    succeeds; and [exec_prepared] on a name that was never prepared answers
    two values without types with [DBERR_SQL_ERROR]. *)
Lemma C7_lengths_are_not_compared :
  let s := Bench.connected On in
  let call := Bench.bench_exec_params "SELECT a FROM t" [] [] [5%Z] [] in
  ~ same_length [] [] [5%Z] []
  /\ call s = Some (DBERR_NO_ERROR, Bench.after call s)
  /\ connaddr (Bench.after call s)
     = Some (exchanged {| conn_status := CONNECTION_OK; conn_log := [] |}
               (exec_params_request "SELECT a FROM t" [] []) (Some Bench.one_row))
  /\ ~ (exists s', call s = Some (DBERR_INTERNAL_ERR (DbErr := Bench.codes), s')
                   /\ connaddr s' = connaddr s)
  /\ ~ same_length [] ["a"; "b"] [] []
  /\ Bench.bench_exec_prepared "never_prepared" [] ["a"; "b"] [] [] s
     = Some (DBERR_SQL_ERROR (DbErr := Bench.codes), s)
  /\ DBERR_SQL_ERROR (DbErr := Bench.codes) <> DBERR_INTERNAL_ERR (DbErr := Bench.codes).
Proof.
  cbv zeta. split; [|split; [|split; [|split; [|split; [|split]]]]].
  - intros (_ & H & _). discriminate H.
  - vm_compute. reflexivity.
  - vm_compute. reflexivity.
  - intros (s' & Hrun & _). vm_compute in Hrun. discriminate Hrun.
  - intros (H & _). discriminate H.
  - vm_compute. reflexivity.
  - vm_compute. discriminate.
Qed.

(** A call of [exec_params] with two types and one value, on the bench. *)
Lemma C7_mismatch_on_the_bench :
  let s := Bench.connected On in
  let s_err := set_last_rc (DBERR_INTERNAL_ERR (DbErr := Bench.codes))
                 (set_last_error "Internal error: parameter count mismatch" s) in
  let types := [COBOL_TYPE_ALPHANUMERIC; COBOL_TYPE_ALPHANUMERIC] in
  Bench.bench_exec_params "SELECT a FROM t WHERE k = $1" types ["a"] [1%Z] [0%Z; 0%Z] s
  = Some (DBERR_INTERNAL_ERR (DbErr := Bench.codes), s_err)
  /\ (is_prepared s (to_lower "P1") = true ->
      Bench.bench_exec_prepared "P1" types ["a"] [1%Z] [0%Z; 0%Z] s
      = Some (DBERR_INTERNAL_ERR (DbErr := Bench.codes), s_err))
  /\ (is_prepared s (to_lower "P1") = false ->
      Bench.bench_exec_prepared "P1" types ["a"] [1%Z] [0%Z; 0%Z] s
      = Some (DBERR_SQL_ERROR (DbErr := Bench.codes), s))
  /\ connaddr s_err = connaddr s.
Proof.
  apply (C7_parameter_count_mismatch (E := Bench.codes) (U := Bench.utils)
           (L := Bench.backend)).
  left. cbn. lia.
Defined.

(** C1: the current result set holds the three-character value [abc] and
    the caller passes a buffer with [bfrlen = 3].  The length test lets the
    value through, and the copy "with trailing null" writes four bytes: the
    byte at offset 3, one past the end of the buffer, is set to NUL.  (A value
    of four characters is refused and nothing is written.) *)
Theorem C1_terminator_is_written_past_the_buffer :
  let call := get_resultset_value (L := Bench.backend) Bench.after_select
                CurrentResultSet CurrentResultSetContextData 0 0 in
  let bfrlen := 3%nat in
  let bfr : CLib.memory := ["x"; "x"; "x"; "y"; "y"]%char in
  call bfr bfrlen false
  = Some {| rv_return := true; rv_bfr := ["a"; "b"; "c"; zero; "y"]%char;
            rv_value_len := 3; rv_is_db_null := false |}
  /\ nth_error bfr bfrlen = Some "y"%char
  /\ (forall rv, call bfr bfrlen false = Some rv ->
                 nth_error (rv_bfr rv) bfrlen = Some zero)
  /\ call bfr 2%nat false
     = Some {| rv_return := false; rv_bfr := bfr; rv_value_len := 0;
               rv_is_db_null := false |}.
Proof.
  cbv zeta. repeat apply conj.
  - vm_compute. reflexivity.
  - reflexivity.
  - intros rv Hrv. vm_compute in Hrv. injection Hrv as <-. reflexivity.
  - vm_compute. reflexivity.
Qed.

(** Scenario S5 on the scripted backend: [connect] with autocommit off issues
    one BEGIN TRANSACTION; [exec] of a COMMIT succeeds and is followed by
    START TRANSACTION; the transaction is open before and after. *)
Lemma C5_commit_on_the_bench :
  let o := Bench.options Off in
  let s := Bench.connected Off in
  let s' := Bench.after (Bench.bench_exec "COMMIT") s in
  (exists c, connaddr s = Some c
             /\ map fst (conn_log c) = [Exec "BEGIN TRANSACTION"]
             /\ open_transactions (U := Bench.utils) (conn_log c) = 1%nat)
  /\ Bench.bench_exec "COMMIT" s = Some (DBERR_NO_ERROR, s')
  /\ get_error_code s' = PGRES_COMMAND_OK
  /\ (exists c', connaddr s' = Some c'
                 /\ map fst (conn_log c')
                    = [Exec "BEGIN TRANSACTION"; exec_request "COMMIT";
                       Exec "START TRANSACTION"]
                 /\ open_transactions (U := Bench.utils) (conn_log c') = 1%nat).
Proof.
  cbv zeta.
  pose proof (C5_autocommit_off_keeps_a_transaction_open (E := Bench.codes)
                (U := Bench.utils) (L := Bench.backend) (Bench.options Off) eq_refl)
    as HC5.
  destruct HC5 as (Hconnect & _ & _ & Hexec & _); [vm_compute; discriminate|].
  destruct (connaddr (Bench.connected Off)) as [c|] eqn:Hc;
    [|vm_compute in Hc; discriminate].
  assert (Hopen : open_transactions (U := Bench.utils) (conn_log c) = 1%nat).
  { apply (Hconnect Bench.info new_DbInterfacePGSQL DBERR_NO_ERROR (Bench.connected Off) c);
      [vm_compute; reflexivity | exact Hc]. }
  split.
  - exists c. split; [reflexivity|]. split; [|exact Hopen].
    vm_compute in Hc. injection Hc as <-. vm_compute. reflexivity.
  - split; [vm_compute; reflexivity|]. split; [vm_compute; reflexivity|].
    destruct (Hexec (Bench.connected Off) c "COMMIT" DBERR_NO_ERROR
                (Bench.after (Bench.bench_exec "COMMIT") (Bench.connected Off)))
      as (c' & Hc' & Hopen').
    + vm_compute. reflexivity.
    + exact Hc.
    + exact Hopen.
    + vm_compute. reflexivity.
    + vm_compute. reflexivity.
    + exists c'. split; [exact Hc'|]. split; [|exact Hopen'].
      vm_compute in Hc'. injection Hc' as <-. vm_compute. reflexivity.
Defined.

End PGSQLFacts.

(** ** GixPreProcessor *)

Module PreProcessorFacts.

Import PreProcessor.

Lemma update_object_input (step p : step_ptr) (o o' : gmap step_ptr ITransformationStep)
    (pobj : ITransformationStep) :
  o !! p = Some pobj ->
  update_object step (setInput (getOutput pobj)) o = Some o' ->
  (getOutput <$> o' !! p) = Some (getOutput pobj)
  /\ (getInput <$> o' !! step) = Some (getOutput pobj).
Proof.
  intros Hp. unfold update_object.
  destruct (o !! step) as [st|] eqn:Hst; [|discriminate].
  intros [= <-]. split.
  - destruct (decide (step = p)) as [->|Hne].
    + rewrite lookup_insert_eq. cbn. congruence.
    + rewrite lookup_insert_ne by exact Hne. now rewrite Hp.
  - now rewrite lookup_insert_eq.
Qed.

Lemma update_object_some (p : step_ptr) (f : ITransformationStep -> ITransformationStep)
    (o : gmap step_ptr ITransformationStep) :
  is_Some (o !! p) ->
  exists o', update_object p f o = Some o' /\ forall q, is_Some (o !! q) -> is_Some (o' !! q).
Proof.
  intros [st Hst]. unfold update_object. rewrite Hst.
  eexists. split; [reflexivity|]. intros q Hq.
  destruct (decide (p = q)) as [->|Hne]; [now rewrite lookup_insert_eq|].
  now rewrite lookup_insert_ne.
Qed.

(** The pointers of the first and the last step after both have been set. *)
Lemma update_object_first_last (first last : step_ptr)
    (o o1 o2 : gmap step_ptr ITransformationStep) (d e : option data_ptr) :
  update_object first (setInput d) o = Some o1 ->
  update_object last (setOutput e) o1 = Some o2 ->
  (getInput <$> o2 !! first) = Some d /\ (getOutput <$> o2 !! last) = Some e.
Proof.
  unfold update_object.
  destruct (o !! first) as [st|]; [|discriminate]. intros [= <-].
  destruct (decide (last = first)) as [->|Hne].
  - rewrite lookup_insert_eq. intros [= <-]. now rewrite lookup_insert_eq.
  - rewrite lookup_insert_ne by congruence.
    destruct (o !! last) as [st'|]; [|discriminate]. intros [= <-].
    rewrite lookup_insert_ne by exact Hne. now rewrite !lookup_insert_eq.
Qed.

(** What [set_files] leaves: two new records at two addresses, [input] and
    the first step's input pointing to the one, [output] and the last step's
    output to the other. *)
Lemma set_files_spec (first last : step_ptr) (gp gp2 : GixPreProcessor) :
  set_files first last gp = Some gp2 ->
  exists infile outfile,
    infile <> outfile
    /\ (infile ∉ dom (data_objects gp)) /\ (outfile ∉ dom (data_objects gp))
    /\ input gp2 = Some infile /\ output gp2 = Some outfile
    /\ data_objects gp2
       = <[outfile := file_data (_outfile gp)]>
           (<[infile := file_data (_infile gp)]> (data_objects gp))
    /\ (getInput <$> objects gp2 !! first) = Some (Some infile)
    /\ (getOutput <$> objects gp2 !! last) = Some (Some outfile)
    /\ steps gp2 = steps gp /\ opts gp2 = opts gp /\ err_data gp2 = err_data gp
    /\ _infile gp2 = _infile gp /\ _outfile gp2 = _outfile gp.
Proof.
  unfold set_files, new_file_data.
  cbn [objects set_data_objects set_input set_objects _outfile data_objects].
  set (infile := fresh (dom (data_objects gp))).
  set (d1 := <[infile := _]> (data_objects gp)).
  set (outfile := fresh (dom d1)).
  destruct (update_object first _ (objects gp)) as [o1|] eqn:Hu1; [|discriminate].
  destruct (update_object last _ o1) as [o2|] eqn:Hu2; [|discriminate].
  intros [= <-].
  assert (Hin : infile ∉ dom (data_objects gp)) by apply is_fresh.
  assert (Hout : outfile ∉ dom d1) by apply is_fresh.
  assert (Hne : infile <> outfile).
  { intros Heq. apply Hout. rewrite <- Heq. subst d1. rewrite dom_insert. set_solver. }
  exists infile, outfile.
  destruct (update_object_first_last _ _ _ _ _ _ _ Hu1 Hu2) as [Hfi Hlo].
  repeat split; try assumption.
  intros Hd. apply Hout. subst d1. rewrite dom_insert. set_solver.
Qed.

Section PipelineFacts.

Context {P : Steps}.

Lemma set_files_data (first last : step_ptr) (gp gp2 : GixPreProcessor) :
  set_files first last gp = Some gp2 ->
  data_at (data_objects gp2) (input gp2) = Some (file_data (_infile gp))
  /\ data_at (data_objects gp2) (output gp2) = Some (file_data (_outfile gp))
  /\ bad_output gp2 = Some (negb (isValid (file_data (_outfile gp)))).
Proof.
  intros Hs.
  destruct (set_files_spec _ _ _ _ Hs)
    as (infile & outfile & Hne & _ & _ & Hi & Ho & Hd & _).
  assert (Hin : data_at (data_objects gp2) (input gp2) = Some (file_data (_infile gp))).
  { rewrite Hi, Hd. cbn [data_at].
    rewrite lookup_insert_ne by congruence. apply lookup_insert_eq. }
  assert (Hout : data_at (data_objects gp2) (output gp2) = Some (file_data (_outfile gp))).
  { rewrite Ho, Hd. cbn [data_at]. apply lookup_insert_eq. }
  split; [exact Hin|]. split; [exact Hout|].
  unfold bad_output. rewrite Hout. now rewrite Ho.
Qed.

Lemma set_files_some (first last : step_ptr) (gp : GixPreProcessor) :
  is_Some (objects gp !! first) -> is_Some (objects gp !! last) ->
  is_Some (set_files first last gp).
Proof.
  intros Hf Hl. unfold set_files, new_file_data.
  cbn [objects set_data_objects set_input set_objects _outfile data_objects].
  destruct (update_object_some first (setInput (Some (fresh (dom (data_objects gp)))))
              (objects gp) Hf) as (o1 & -> & Hkeep).
  destruct (update_object_some last
              (setOutput (Some (fresh (dom (<[fresh (dom (data_objects gp)) :=
                 setFilename (_infile gp) (setType Filename new_TransformationStepData)]>
                 (data_objects gp))))))
              o1 (Hkeep last Hl)) as (o2 & -> & _).
  eexists. reflexivity.
Qed.

(** How [process] ends. *)
Lemma process_cases (gp : GixPreProcessor) :
  process gp = None
  \/ (steps gp = [] /\ process gp = Some (false, gp, []))
  \/ exists first lst gp2,
       firstStep gp = Some first /\ lastStep gp = Some lst
       /\ set_files first lst gp = Some gp2
       /\ ((isValid (file_data (_infile gp)) = false
            /\ process gp = Some (false, SET_PP_ERR 1 "Bad input file" gp2, []))
           \/ (isValid (file_data (_infile gp)) = true
               /\ exists no_output, get_bool (getOpt gp "no_output" false) = Some no_output
                  /\ ((no_output = false /\ isValid (file_data (_outfile gp)) = false
                       /\ process gp = Some (false, SET_PP_ERR 2 "Bad output file" gp2, []))
                      \/ ((no_output = true \/ isValid (file_data (_outfile gp)) = true)
                          /\ ((file_exists (_infile gp) = false
                               /\ process gp
                                  = Some (false,
                                          SET_PP_ERR 4 "Input file does not exist" gp2, []))
                              \/ (file_exists (_infile gp) = true
                                  /\ process gp = transform gp2)))))).
Proof.
  remember (process gp) as res eqn:Hres.
  unfold process in Hres.
  destruct (firstStep gp) as [first|] eqn:Hfirst.
  2:{ right. left. unfold firstStep in Hfirst.
      destruct (steps gp); [now split | discriminate]. }
  destruct (lastStep gp) as [lst|] eqn:Hlast.
  2:{ exfalso. unfold firstStep, lastStep in *.
      destruct (steps gp) as [|x l]; [discriminate|].
      destruct (List.exists_last (l := x :: l)) as (l' & y & Hl); [discriminate|].
      rewrite Hl, last_snoc in Hlast. discriminate. }
  destruct (set_files first lst gp) as [gp2|] eqn:Hset; [|now left].
  destruct (set_files_data _ _ _ _ Hset) as (Hin & _ & Hbad).
  destruct (set_files_spec _ _ _ _ Hset)
    as (_ & _ & _ & _ & _ & _ & _ & _ & _ & _ & _ & Hopts & _ & _ & _).
  rewrite Hin in Hres. cbn [filename file_data] in Hres.
  assert (Hopt : getOpt gp2 "no_output" false = getOpt gp "no_output" false)
    by (unfold getOpt; now rewrite Hopts).
  rewrite Hopt, Hbad in Hres.
  destruct (isValid (file_data (_infile gp))) eqn:Hvi; cbn [negb] in Hres.
  2:{ right. right. exists first, lst, gp2. do 2 (split; [reflexivity|]). split; [exact Hset|].
      left. split; [reflexivity | exact Hres]. }
  destruct (get_bool (getOpt gp "no_output" false)) as [no_output|] eqn:Hno;
    [|now left].
  right. right. exists first, lst, gp2. do 2 (split; [reflexivity|]). split; [exact Hset|].
  right. split; [reflexivity|].
  exists no_output. split; [reflexivity|].
  destruct no_output; cbn [negb] in Hres.
  - right. split; [now left|].
    destruct (file_exists (_infile gp)); cbn [negb] in Hres;
      [right | left]; split; try reflexivity; exact Hres.
  - destruct (isValid (file_data (_outfile gp))) eqn:Hvo; cbn [negb] in Hres.
    + right. split; [now right|].
      destruct (file_exists (_infile gp)); cbn [negb] in Hres;
        [right | left]; split; try reflexivity; exact Hres.
    + left. repeat split. exact Hres.
Qed.

Lemma transform_from_events (all : list step_ptr) (first : step_ptr)
    (todo done : list step_ptr) (idx : nat) (prev_step : option step_ptr)
    (w w' : world) (b : bool) (evs : list run_event) :
  all = (done ++ todo)%list ->
  List.length done = idx ->
  prev_step = last done ->
  all !! 0%nat = Some first ->
  transform_from first idx todo prev_step w = Some (b, w', evs) ->
  Forall (fun ev => (idx <= ev_index ev)%nat
                    /\ linked_event all first (w_objects w) (w_data w) ev) evs
  /\ map ev_index evs = seq idx (List.length evs).
Proof.
  revert done idx prev_step w w' b evs.
  induction todo as [|step todo IH]; intros done idx prev_step w w' b evs
    Hall Hlen Hprev Hfirst; cbn [transform_from].
  - intros [= <- <- <-]. split; [constructor | reflexivity].
  - assert (Hstep : all !! idx = Some step).
    { subst all idx. rewrite lookup_app_r by lia.
      now replace (List.length done - List.length done)%nat with 0%nat by lia. }
    set (linked := if negb (step =? first)%nat then _ else _).
    destruct linked as [o|] eqn:Hlinked; [|discriminate].
    assert (Hhere : (idx <= idx)%nat
                    /\ linked_event all first (w_objects w) (w_data w)
                         {| ev_index := idx; ev_step := step; ev_prev := prev_step;
                            ev_objects := o; ev_data := w_data w |}).
    { split; [lia|]. split; [exact Hstep|]. cbn [ev_index ev_step ev_prev].
      subst linked.
      destruct idx as [|k].
      - assert (step = first) by congruence. subst step.
        rewrite Nat.eqb_refl in Hlinked. cbn [negb] in Hlinked.
        injection Hlinked as <-. now split.
      - intros Hnf. apply Nat.eqb_neq in Hnf. rewrite Hnf in Hlinked.
        cbn [negb] in Hlinked.
        destruct prev_step as [p|]; [|discriminate].
        destruct (w_objects w !! p) as [pobj|] eqn:Hp; [|discriminate].
        destruct (update_object_input step p (w_objects w) o pobj Hp Hlinked)
          as [Hout Hin].
        exists p, (getOutput pobj). repeat split; try assumption.
        subst all.
        destruct (List.exists_last (l := done)) as (done' & x & ->);
          [intros ->; discriminate|].
        rewrite last_snoc in Hprev. injection Hprev as ->.
        rewrite List.length_app in Hlen. cbn in Hlen.
        rewrite <- List.app_assoc. rewrite lookup_app_r by lia.
        now replace (k - List.length done')%nat with 0%nat by lia. }
    destruct (run step prev_step _) as [ok w1] eqn:Hrun.
    destruct ok; cbn [negb].
    + destruct (transform_from first (S idx) todo (Some step) w1)
        as [[[b1 w2] evs1]|] eqn:Hrest; [|discriminate].
      intros [= <- <- <-].
      destruct (IH (done ++ [step])%list (S idx) (Some step) w1 w2 b1 evs1)
        as [Hevs Hidx]; try assumption.
      * now rewrite <- List.app_assoc.
      * rewrite List.length_app. cbn. lia.
      * now rewrite last_snoc.
      * split.
        -- constructor; [exact Hhere|].
           eapply Forall_impl; [exact Hevs|].
           intros ev (Hle & Hat & Hlink). split; [lia|]. split; [exact Hat|].
           destruct (ev_index ev); [lia | exact Hlink].
        -- cbn. now rewrite Hidx.
    + intros [= <- <- <-]. split; [|reflexivity].
      constructor; [exact Hhere | constructor].
Qed.

(** [process] chains the steps: they are run in order; step 0 is run with
    the Filename record of [_infile] as its input, and every step further
    down that is not the object at position 0 is run with, as its input, the
    output its predecessor has at that moment. *)
Theorem step_inputs_are_chained (gp gp' : GixPreProcessor) (b : bool)
    (evs : list run_event) :
  process gp = Some (b, gp', evs) ->
  map ev_index evs = seq 0 (List.length evs)
  /\ forall ev, In ev evs ->
       steps gp !! ev_index ev = Some (ev_step ev)
       /\ match ev_index ev with
          | O => input_data_at ev = Some (file_data (_infile gp))
          | S k => steps gp !! 0%nat <> Some (ev_step ev) ->
                   exists p d, steps gp !! k = Some p
                               /\ output_at ev p = Some d /\ input_at ev = Some d
          end.
Proof.
  intros Hrun.
  destruct (process_cases gp) as [Hn|[[Hs He]|(first & lst & gp2 & Hf & _ & Hset & Hc)]].
  - congruence.
  - rewrite He in Hrun. injection Hrun as <- <- <-. split; [reflexivity | intros ev []].
  - destruct Hc as [[_ He]|(_ & no & _ & [(_ & _ & He)|(_ & [[_ He]|[_ He]])])];
      rewrite He in Hrun;
      try (injection Hrun as <- <- <-; split; [reflexivity | intros ev []]).
    destruct (set_files_spec _ _ _ _ Hset)
      as (infile & outfile & Hne & _ & _ & Hi & Ho & Hd & Hfi & _ & Hsteps & _).
    unfold transform in Hrun. rewrite Hsteps in Hrun.
    unfold firstStep in Hf.
    destruct (steps gp) as [|first' rest] eqn:Hs; [discriminate|].
    cbn [head] in Hf. injection Hf as ->.
    destruct (transform_from first 0 (first :: rest) None _)
      as [[[b1 w3] evs1]|] eqn:Ht; [|discriminate].
    injection Hrun as <- <- <-.
    destruct (transform_from_events (first :: rest) first (first :: rest) [] 0 None
                _ w3 b1 evs1 eq_refl eq_refl eq_refl eq_refl Ht) as [Hevs Hidx].
    split; [exact Hidx|].
    intros ev Hin. rewrite List.Forall_forall in Hevs.
    destruct (Hevs ev Hin) as (_ & Hat & Hlink). split; [exact Hat|].
    cbn [w_objects w_data] in Hlink.
    destruct (ev_index ev) as [|k] eqn:Hk.
    + destruct Hlink as [Hobj Hdata].
      cbn in Hat. injection Hat as Hst.
      unfold input_data_at, input_at. rewrite <- Hst, Hobj, Hfi, Hdata, Hd.
      cbn [data_at]. rewrite lookup_insert_ne by congruence. apply lookup_insert_eq.
    + intros Hnf. destruct Hlink as (p & d & Hp & _ & Hout & Hin').
      * intros Heq. apply Hnf. now rewrite Heq.
      * now exists p, d.
Qed.

End PipelineFacts.

(** Three distinct steps on the bench. *)
Lemma three_steps_on_the_bench :
  let gp := PipelineBench.gixpp [0; 1; 2]%nat in
  exists gp' evs,
    process (P := PipelineBench.steps_impl) gp = Some (true, gp', evs)
    /\ map ev_index evs = [0; 1; 2]%nat
    /\ forall ev, In ev evs ->
         steps gp !! ev_index ev = Some (ev_step ev)
         /\ match ev_index ev with
            | O => input_data_at ev = Some (file_data "foo.cbl")
            | S k => exists p d, steps gp !! k = Some p
                                 /\ output_at ev p = Some d /\ input_at ev = Some d
            end.
Proof.
  cbv zeta.
  destruct (process (P := PipelineBench.steps_impl) (PipelineBench.gixpp [0; 1; 2]%nat))
    as [[[b gp'] evs]|] eqn:Hrun; [|vm_compute in Hrun; discriminate].
  assert (Hb : b = true) by (vm_compute in Hrun; now injection Hrun as <- _ _).
  subst b. exists gp', evs. split; [reflexivity|].
  destruct (step_inputs_are_chained (P := PipelineBench.steps_impl)
              (PipelineBench.gixpp [0; 1; 2]%nat) gp' true evs Hrun) as [Hidx Hevs].
  assert (Hlen : map ev_index evs = [0; 1; 2]%nat).
  { rewrite Hidx. vm_compute in Hrun. now injection Hrun as _ <-. }
  split; [exact Hlen|].
  intros ev Hin. destruct (Hevs ev Hin) as [Hat Hlink]. split; [exact Hat|].
  destruct (ev_index ev) as [|k] eqn:Hk; [exact Hlink|].
  apply Hlink. intros H0. rewrite <- Hat in H0.
  assert (Hk' : In (S k) (map ev_index evs)) by (rewrite <- Hk; now apply in_map).
  rewrite Hlen in Hk'.
  destruct Hk' as [Hk'|[Hk'|[Hk'|[]]]]; try discriminate;
    injection Hk' as <-; vm_compute in H0; discriminate.
Defined.


End PreProcessorFacts.

(** ** pgsql_fixup_parameters: laws *)

Module FixupLaws.

Import Fixup FixupFacts.

Lemma loop_app (a b : string) (st : loop_state) :
  loop (a ++ b) st = loop b (loop a st).
Proof.
  revert st. induction a as [|c a IH]; intros st; [reflexivity|].
  change (loop (a ++ b) (step st c) = loop b (loop a (step st c))). apply IH.
Qed.

Lemma step_ordinary (st : loop_state) (c : ascii) :
  ordinary c = true -> in_param_id st = false ->
  step st c = push st (String c EmptyString).
Proof.
  unfold ordinary. intros Ho Hp. destruct st as [k sq dq pid out]. cbn in Hp. subst pid.
  unfold step. cbn [in_param_id andb].
  destruct (Ascii.eqb c dquote); [discriminate|].
  destruct (Ascii.eqb c squote); [discriminate|].
  destruct (Ascii.eqb c "?"); [discriminate|].
  destruct (Ascii.eqb c ":"); [discriminate|].
  reflexivity.
Qed.

Lemma push_push (st : loop_state) (a b : string) :
  push (push st a) b = push st (a ++ b).
Proof. unfold push. cbn. now rewrite append_assoc. Qed.

Lemma push_nil (st : loop_state) : push st EmptyString = st.
Proof. destruct st. unfold push. cbn. now rewrite append_nil_r. Qed.

Lemma loop_ordinary (w : string) (st : loop_state) :
  all_ordinary w = true -> in_param_id st = false ->
  loop w st = push st w.
Proof.
  revert st. induction w as [|c w IH]; intros st Hw Hp.
  - now rewrite push_nil.
  - cbn in Hw. apply andb_true_iff in Hw as [Hc Hw].
    cbn [loop]. rewrite (step_ordinary st c Hc Hp).
    rewrite IH by (assumption || exact Hp). apply push_push.
Qed.

Lemma string_of_uint_ordinary (d : Decimal.uint) :
  all_ordinary (NilEmpty.string_of_uint d) = true.
Proof. induction d; cbn; try reflexivity; exact IHd. Qed.


Lemma no_marker_ordinary_or_quote (c : ascii) :
  Ascii.eqb c "?" || Ascii.eqb c ":" = false ->
  ordinary c = true \/ Ascii.eqb c dquote = true \/ Ascii.eqb c squote = true.
Proof.
  unfold ordinary. intros H. apply orb_false_iff in H as [-> ->].
  destruct (Ascii.eqb c dquote); [now right; left|].
  destruct (Ascii.eqb c squote); [now right; right|]. now left.
Qed.

(** What one iteration appends for a character that is no marker, outside a
    parameter name. *)
Lemma step_no_marker (st : loop_state) (c : ascii) :
  Ascii.eqb c "?" || Ascii.eqb c ":" = false -> in_param_id st = false ->
  out_sql (step st c) = out_sql st ++ String c EmptyString
  /\ in_param_id (step st c) = false.
Proof.
  intros Hm Hp. destruct st as [k sq dq pid out]. cbn in Hp. subst pid.
  apply orb_false_iff in Hm as [Hq Hc].
  unfold step. cbn [in_param_id andb]. rewrite Hq, Hc.
  destruct (Ascii.eqb c dquote); [split; reflexivity|].
  destruct (Ascii.eqb c squote); split; reflexivity.
Qed.

Lemma loop_no_marker (sql : string) (st : loop_state) :
  has_marker sql = false -> in_param_id st = false ->
  out_sql (loop sql st) = out_sql st ++ sql.
Proof.
  revert st. induction sql as [|c sql IH]; intros st Hm Hp.
  - cbn. now rewrite append_nil_r.
  - cbn [has_marker] in Hm. apply orb_false_iff in Hm as [Hc Hm].
    destruct (step_no_marker st c Hc Hp) as [Ho Hp'].
    cbn [loop]. rewrite (IH _ Hm Hp'), Ho. now rewrite append_assoc.
Qed.

(** X1: a statement without [?] and [:] comes back unchanged, whatever its
    quotes. *)
Theorem fixup_without_marker (sql : string) :
  has_marker sql = false -> pgsql_fixup_parameters sql = sql.
Proof.
  intros Hm. unfold pgsql_fixup_parameters.
  now rewrite (loop_no_marker sql init Hm eq_refl).
Qed.

Lemma fixup_without_marker_witness :
  has_marker "SELECT 'a' FROM t" = false
  /\ pgsql_fixup_parameters "SELECT 'a' FROM t" = "SELECT 'a' FROM t".
Proof. split; [reflexivity|]. now apply fixup_without_marker. Defined.

Lemma step_flags (st : loop_state) (c : ascii) :
  Ascii.eqb c dquote || Ascii.eqb c squote = false ->
  in_single_quoted_string (step st c) = in_single_quoted_string st
  /\ in_double_quoted_string (step st c) = in_double_quoted_string st.
Proof.
  intros Hq. apply orb_false_iff in Hq as [Hd Hs].
  destruct st as [k sq dq pid out]. unfold step. cbn [in_param_id].
  destruct (pid && CLib.isalnum c); [split; reflexivity|].
  rewrite Hd, Hs.
  destruct (_ || _); [destruct (_ && _)|]; split; reflexivity.
Qed.

Lemma loop_flags (a : string) (st : loop_state) :
  has_quote a = false ->
  in_single_quoted_string (loop a st) = in_single_quoted_string st
  /\ in_double_quoted_string (loop a st) = in_double_quoted_string st.
Proof.
  revert st. induction a as [|c a IH]; intros st Hq; [split; reflexivity|].
  cbn [has_quote] in Hq. apply orb_false_iff in Hq as [Hc Hq].
  cbn [loop]. destruct (IH (step st c) Hq) as [-> ->]. now apply step_flags.
Qed.

Lemma step_question_colon (st : loop_state) :
  in_single_quoted_string st = false -> in_double_quoted_string st = false ->
  step st "?" = step st ":".
Proof. destruct st as [k sq dq [] out]; cbn; intros -> ->; reflexivity. Qed.

(** X2: after a prefix without quote characters, [?] is handled exactly as [:]
    is: the alphanumeric characters that follow it are dropped as the name of
    a [:name] marker would be. *)
Theorem fixup_question_mark_as_colon (a b : string) :
  has_quote a = false ->
  pgsql_fixup_parameters (a ++ String "?" b) = pgsql_fixup_parameters (a ++ String ":" b).
Proof.
  intros Hq. unfold pgsql_fixup_parameters. rewrite !loop_app. cbn [loop].
  destruct (loop_flags a init Hq) as [Hs Hd].
  now rewrite step_question_colon.
Qed.

Lemma fixup_question_mark_as_colon_witness :
  has_quote "SELECT a FROM t WHERE k = " = false
  /\ pgsql_fixup_parameters ("SELECT a FROM t WHERE k = " ++ String "?" "key AND j = 1")
     = pgsql_fixup_parameters ("SELECT a FROM t WHERE k = " ++ String ":" "key AND j = 1").
Proof.
  split; [reflexivity|]. now apply fixup_question_mark_as_colon.
Defined.

Example question_mark_with_name :
  pgsql_fixup_parameters "SELECT a FROM t WHERE k = ?key AND j = 1"
  = "SELECT a FROM t WHERE k = $1 AND j = 1".
Proof. reflexivity. Qed.


(** One iteration of a first pass against a second pass over what it
    appends: the second pass, outside any parameter name and with the same
    quote flags, copies the appended text and ends with the quote flags the
    first pass has after the iteration. *)
Lemma step_emits (st1 st2 : loop_state) (c : ascii) :
  in_single_quoted_string st2 = in_single_quoted_string st1 ->
  in_double_quoted_string st2 = in_double_quoted_string st1 ->
  in_param_id st2 = false ->
  exists e,
    out_sql (step st1 c) = out_sql st1 ++ e
    /\ out_sql (loop e st2) = out_sql st2 ++ e
    /\ in_single_quoted_string (loop e st2) = in_single_quoted_string (step st1 c)
    /\ in_double_quoted_string (loop e st2) = in_double_quoted_string (step st1 c)
    /\ in_param_id (loop e st2) = false.
Proof.
  destruct st1 as [k sq dq pid out], st2 as [k2 sq2 dq2 pid2 out2].
  cbn [in_single_quoted_string in_double_quoted_string in_param_id].
  intros -> -> ->. unfold step at 1 2 3. cbn [in_param_id].
  destruct (pid && CLib.isalnum c).
  { exists EmptyString. cbn. rewrite !append_nil_r. repeat split. }
  cbn [in_single_quoted_string in_double_quoted_string in_param_id n out_sql push].
  destruct (Ascii.eqb c dquote) eqn:Hd.
  { exists (String c EmptyString). cbn [loop]. unfold step. cbn. rewrite Hd.
    repeat split. }
  destruct (Ascii.eqb c squote) eqn:Hs.
  { exists (String c EmptyString). cbn [loop]. unfold step. cbn. rewrite Hd, Hs.
    repeat split. }
  destruct (Ascii.eqb c "?" || Ascii.eqb c ":") eqn:Hm.
  - destruct sq, dq; cbn [negb andb];
      try solve [exists (String c EmptyString); cbn [loop]; unfold step; cbn;
                 rewrite Hd, Hs, Hm; repeat split].
    exists ("$" ++ CLib.to_string k).
    rewrite loop_ordinary; [repeat split | | reflexivity].
    unfold CLib.to_string.
    change (all_ordinary (String "$" (NilEmpty.string_of_uint (Nat.to_uint k))) = true).
    cbn [all_ordinary]. now rewrite string_of_uint_ordinary.
  - exists (String c EmptyString). cbn [loop]. unfold step. cbn. rewrite Hd, Hs, Hm.
    repeat split.
Qed.

Lemma second_pass (sql : string) :
  forall st1 st2 : loop_state,
    in_single_quoted_string st2 = in_single_quoted_string st1 ->
    in_double_quoted_string st2 = in_double_quoted_string st1 ->
    in_param_id st2 = false ->
    exists w,
      out_sql (loop sql st1) = out_sql st1 ++ w
      /\ out_sql (loop w st2) = out_sql st2 ++ w.
Proof.
  induction sql as [|c sql IH]; intros st1 st2 Hs Hd Hp.
  - exists EmptyString. cbn. now rewrite !append_nil_r.
  - destruct (step_emits st1 st2 c Hs Hd Hp) as (e & He1 & He2 & Hs' & Hd' & Hp').
    destruct (IH (step st1 c) (loop e st2) Hs' Hd' Hp') as (w & Hw1 & Hw2).
    exists (e ++ w). cbn [loop]. split.
    + now rewrite Hw1, He1, append_assoc.
    + now rewrite loop_app, Hw2, He2, append_assoc.
Qed.

(** X3: rewriting a statement that has been rewritten changes nothing. *)
Theorem fixup_idempotent (sql : string) :
  pgsql_fixup_parameters (pgsql_fixup_parameters sql) = pgsql_fixup_parameters sql.
Proof.
  unfold pgsql_fixup_parameters.
  destruct (second_pass sql init init eq_refl eq_refl eq_refl) as (w & Hw1 & Hw2).
  change (out_sql (loop sql init) = w) in Hw1.
  change (out_sql (loop w init) = w) in Hw2.
  now rewrite Hw1, Hw2.
Qed.

End FixupLaws.

(** ** DbInterfacePGSQL: the connection, statements and cursors *)

Module DriverLaws.

Import PQ PGSQL PGSQLFacts.
Local Open Scope pgsql_scope.

Section Laws.

Context {E : DbErr} {U : Utils} {L : Libpq} {EC : DbErrCursor} {SU : StrUtils}.

(** *** vector_join *)

Lemma vector_join_from_acc (v : list string) (sep : ascii) (s : string) :
  vector_join_from v sep s = s ++ vector_join v sep.
Proof.
  unfold vector_join. revert s.
  induction v as [|p rest IH]; intros s; cbn [vector_join_from].
  - now rewrite FixupFacts.append_nil_r.
  - rewrite IH. rewrite (IH (match rest with [] => _ | _ :: _ => _ end)).
    destruct rest; change (EmptyString ++ p) with p;
      now rewrite ?FixupFacts.append_assoc.
Qed.

Lemma vector_join_cons (p q : string) (rest : list string) (sep : ascii) :
  vector_join (p :: q :: rest) sep = p ++ String sep (vector_join (q :: rest) sep).
Proof.
  unfold vector_join at 1.
  change (vector_join_from (p :: q :: rest) sep EmptyString)
    with (vector_join_from (q :: rest) sep (p ++ String sep EmptyString)).
  rewrite vector_join_from_acc. now rewrite FixupFacts.append_assoc.
Qed.

(** X4: joining two non-empty lists one after the other: the two joined texts
    with one separator between them; so the separator stands between
    neighbours only, never first or last. *)
Theorem vector_join_app (x y : string) (u v : list string) (sep : ascii) :
  vector_join ((x :: u) ++ y :: v) sep
  = vector_join (x :: u) sep ++ String sep (vector_join (y :: v) sep).
Proof.
  revert x. induction u as [|x' u IH]; intros x.
  - change ([x] ++ y :: v)%list with (x :: y :: v). now rewrite vector_join_cons.
  - change ((x :: x' :: u) ++ y :: v)%list with (x :: x' :: (u ++ y :: v))%list.
    rewrite !vector_join_cons.
    change (x' :: (u ++ y :: v))%list with ((x' :: u) ++ y :: v)%list.
    rewrite IH. now rewrite !FixupFacts.append_assoc.
Qed.

(** *** reset, terminate_connection *)

Lemma terminate_connection_frame (s : DbInterfacePGSQL) :
  exists s',
    terminate_connection s = Some (DBERR_NO_ERROR, s')
    /\ connaddr s' = None
    /\ current_resultset_data s' = None
    /\ _prepared_stmts s' = _prepared_stmts s
    /\ connection_opts s' = connection_opts s.
Proof.
  unfold terminate_connection. run.
  destruct (connaddr s) eqn:Hc; run; eexists; repeat apply conj; try reflexivity.
  cbn. exact Hc.
Qed.

Lemma reset_frame (s : DbInterfacePGSQL) :
  exists s',
    reset s = Some (DBERR_NO_ERROR, s')
    /\ connaddr s' = None
    /\ current_resultset_data s' = None
    /\ _prepared_stmts s' = _prepared_stmts s
    /\ connection_opts s' = connection_opts s.
Proof.
  unfold reset. run.
  destruct (terminate_connection_frame s) as (s' & -> & H).
  cbn. exists s'. split; [reflexivity | exact H].
Qed.

(** [reset] and [terminate_connection] return [DBERR_NO_ERROR] from every
    state, never [DBERR_CONN_RESET_FAILED]; the connection and the current
    result set are gone, the prepared-statement table and the options stay. *)
Theorem reset_always_succeeds (s : DbInterfacePGSQL) :
  exists s',
    reset s = Some (DBERR_NO_ERROR, s')
    /\ terminate_connection s = Some (DBERR_NO_ERROR, s')
    /\ connaddr s' = None
    /\ current_resultset_data s' = None
    /\ _prepared_stmts s' = _prepared_stmts s
    /\ connection_opts s' = connection_opts s.
Proof.
  destruct (terminate_connection_frame s) as (s' & Ht & H).
  exists s'. split; [|split; [exact Ht | exact H]].
  unfold reset. run. now rewrite Ht.
Qed.

(** *** connect *)

Lemma connect_options_post (conn : PGconn) (info : IDataSourceInfo)
    (o : IConnectionOptions) (s : DbInterfacePGSQL) :
  exists s',
    connect_options conn info o s = Some (DBERR_NO_ERROR, s')
    /\ connaddr s' = Some conn
    /\ connection_opts s' = Some o
    /\ data_source_info s' = Some info
    /\ _prepared_stmts s' = _prepared_stmts s
    /\ current_resultset_data s' = current_resultset_data s.
Proof.
  unfold connect_options. run.
  destruct (getOptions info !! "decode_binary") as [v|];
    [destruct (is_on_word v), (is_off_word v)|];
    (destruct (getOptions info !! "native_cursors") as [w|];
       [destruct (is_on_word w), (is_off_word w)|]);
    eexists; repeat apply conj; reflexivity.
Qed.

Lemma connect_options_ends (conn : PGconn) (info : IDataSourceInfo)
    (o : IConnectionOptions) (s : DbInterfacePGSQL) :
  connect_post info o s (connect_options conn info o s).
Proof.
  destruct (connect_options_post conn info o s) as (s' & -> & Hc & Ho & Hi & Ht & Hr).
  exists DBERR_NO_ERROR, s'. repeat split; try assumption.
  left. repeat split; try assumption. now exists conn.
Qed.

Lemma connect_statement_failed_ends (r : option PGresult) (info : IDataSourceInfo)
    (o : IConnectionOptions) (s : DbInterfacePGSQL) :
  connect_post info o s (connect_statement_failed r s).
Proof.
  unfold connect_statement_failed. run.
  eexists; eexists; split; [reflexivity|]. repeat split. right. repeat split.
Qed.

Lemma connect_autocommit_ends (conn : PGconn) (info : IDataSourceInfo)
    (o : IConnectionOptions) (s : DbInterfacePGSQL) :
  connect_post info o s (connect_autocommit conn info o s).
Proof.
  unfold connect_autocommit, PQtalk.
  destruct (is_Off (autocommit o)); [|apply connect_options_ends].
  destruct (negb _); [apply connect_statement_failed_ends | apply connect_options_ends].
Qed.

Lemma connect_default_schema_ends (conn : PGconn) (info : IDataSourceInfo)
    (o : IConnectionOptions) (s : DbInterfacePGSQL) :
  connect_post info o s (connect_default_schema conn info o s).
Proof.
  unfold connect_default_schema, PQtalk.
  destruct (getOptions info !! "default_schema") as [schema|];
    [|apply connect_autocommit_ends].
  destruct (negb (String.eqb schema EmptyString)); [|apply connect_autocommit_ends].
  destruct (negb _); [apply connect_statement_failed_ends | apply connect_autocommit_ends].
Qed.

Lemma connect_client_encoding_ends (conn : PGconn) (info : IDataSourceInfo)
    (o : IConnectionOptions) (s : DbInterfacePGSQL) :
  connect_post info o s (connect_client_encoding conn info o s).
Proof.
  unfold connect_client_encoding, PQsetClientEncoding, PQtalk.
  destruct (negb (String.eqb (client_encoding o) EmptyString));
    [|apply connect_default_schema_ends].
  destruct (negb (_ =? 0)%Z); [|apply connect_default_schema_ends].
  run. eexists; eexists; split; [reflexivity|]. repeat split. right. repeat split.
Qed.

Lemma connect_frame (info : IDataSourceInfo) (o : IConnectionOptions)
    (s : DbInterfacePGSQL) :
  exists rc s',
    connect info o s = Some (rc, s')
    /\ _prepared_stmts s' = _prepared_stmts s
    /\ current_resultset_data s' = None
    /\ ((rc = DBERR_NO_ERROR
         /\ (exists c, connaddr s' = Some c)
         /\ connection_opts s' = Some o
         /\ data_source_info s' = Some info)
        \/ (rc = DBERR_CONNECTION_FAILED
            /\ connaddr s' = None
            /\ connection_opts s' = connection_opts s)).
Proof.
  unfold connect. run.
  set (s0 := set_last_state _ _).
  assert (Hs0 : _prepared_stmts s0 = _prepared_stmts s
                /\ current_resultset_data s0 = None
                /\ connaddr s0 = None
                /\ connection_opts s0 = connection_opts s) by (repeat split).
  destruct Hs0 as (Ht0 & Hr0 & Hc0 & Ho0).
  destruct (PQconnectdbParams (connection_params info)) as [st|].
  - cbn [conn_status].
    destruct (negb (st =? CONNECTION_OK)%Z).
    + eexists; eexists; split; [reflexivity|]. repeat split. right. repeat split.
    + destruct (connect_client_encoding_ends {| conn_status := st; conn_log := [] |} info o s0)
        as (rc & s' & -> & Ht & Hr & Hend).
      exists rc, s'. split; [reflexivity|].
      split; [now rewrite Ht|]. split; [now rewrite Hr|].
      destruct Hend as [Hok|(Hrc & Hc & Ho)]; [now left | right].
      split; [exact Hrc|]. split; [now rewrite Hc | now rewrite Ho].
  - eexists; eexists; split; [reflexivity|]. repeat split. right. repeat split.
Qed.

(** X5: [connect] always returns, with [DBERR_NO_ERROR] and a connection, the
    options and the data source recorded, or with [DBERR_CONNECTION_FAILED]
    and no connection (the options are then the ones of before); the current
    result set is dropped either way and the prepared-statement table is
    never touched. *)
Theorem connect_outcome (info : IDataSourceInfo) (o : IConnectionOptions)
    (s : DbInterfacePGSQL) :
  exists rc s',
    connect info o s = Some (rc, s')
    /\ _prepared_stmts s' = _prepared_stmts s
    /\ current_resultset_data s' = None
    /\ ((rc = DBERR_NO_ERROR
         /\ (exists c, connaddr s' = Some c)
         /\ connection_opts s' = Some o
         /\ data_source_info s' = Some info)
        \/ (rc = DBERR_CONNECTION_FAILED
            /\ connaddr s' = None
            /\ connection_opts s' = connection_opts s)).
Proof. apply connect_frame. Qed.

(** X6: a name prepared on one connection is still in the table after [reset]
    and a new [connect]: preparing it again is refused with
    [DBERR_PREPARE_FAILED], and nothing is sent to the new session. *)
Theorem prepared_names_outlive_the_connection (name sql : string)
    (info : IDataSourceInfo) (o : IConnectionOptions)
    (s s1 s2 : DbInterfacePGSQL) (rc1 rc2 : Z) :
  is_prepared s (to_lower name) = true ->
  reset s = Some (rc1, s1) ->
  connect info o s1 = Some (rc2, s2) ->
  prepare name sql s2 = Some (DBERR_PREPARE_FAILED, s2).
Proof.
  intros Hp Hreset Hconn.
  destruct (reset_frame s) as (s1' & Hr & _ & _ & Ht1 & _).
  rewrite Hreset in Hr. injection Hr as _ <-.
  destruct (connect_frame info o s1) as (rc & s2' & Hc & Ht2 & _).
  rewrite Hconn in Hc. injection Hc as _ <-.
  apply prepare_duplicate. unfold is_prepared in *. now rewrite Ht2, Ht1.
Qed.

(** *** exec *)

Lemma reset_current (s : DbInterfacePGSQL) :
  exists s1,
    reset_if_current (current_resultset_data s) s = Some (tt, s1)
    /\ s1 = set_current_resultset_data None s.
Proof.
  unfold reset_if_current. run.
  destruct (current_resultset_data s) as [rs|] eqn:Hr; cbn [same_object].
  - rewrite Nat.eqb_refl. eexists. split; reflexivity.
  - exists s. split; [reflexivity|]. destruct s. cbn in Hr. now subst.
Qed.

(** [exec] up to the trap. *)
Lemma exec_reaches_trap (query : string) (s : DbInterfacePGSQL) :
  let r := match connaddr s with
           | Some c => PQanswer c (exec_request query)
           | None => None
           end in
  exists wk_rs s2,
    _pgsql_exec None query s = trap_tx_termination None query wk_rs (get_num_rows r) s2
    /\ connaddr s2 = match connaddr s with
                     | Some c => Some (exchanged c (exec_request query) r)
                     | None => None
                     end
    /\ connection_opts s2 = connection_opts s
    /\ _prepared_stmts s2 = _prepared_stmts s
    /\ current_resultset_data s2 = None
    /\ last_rc s2 = PQresultStatus r
    /\ last_state s2 = pg_get_sqlstate r
    /\ last_error s2 = PQresultErrorMessage r
    /\ resultset wk_rs = r
    /\ current_row_index wk_rs = (-1)%Z
    /\ decode_binary s2 = decode_binary s.
Proof.
  intros r. unfold _pgsql_exec. run. cbn [initial_wk_rs].
  destruct (reset_current s) as (s1 & -> & ->).
  unfold PQsend. cbn [connaddr set_next_addr set_current_resultset_data].
  subst r. destruct (connaddr s) as [c|] eqn:Hc; cbn beta iota;
    eexists; eexists; (split; [reflexivity|]); repeat apply conj;
    cbn; rewrite ?Hc; reflexivity.
Qed.

Lemma after_exec_failure (crsr : option ICursor) (query : string)
    (wk_rs : PGResultSetData) (nrows : Z) (s : DbInterfacePGSQL) :
  last_rc s <> PGRES_COMMAND_OK ->
  last_rc s <> PGRES_TUPLES_OK ->
  after_exec crsr query wk_rs nrows s
  = Some ((DBERR_SQL_ERROR, crsr), set_last_rc (- (10000 + last_rc s))%Z s).
Proof.
  intros H1 H2. apply Z.eqb_neq in H1, H2.
  unfold after_exec, keep_or_fail. run. rewrite H1. cbn beta iota. rewrite H1, H2.
  reflexivity.
Qed.

(** The trap and what follows, for a status that is neither
    [PGRES_COMMAND_OK] nor [PGRES_TUPLES_OK]. *)
Lemma trap_failure (crsr : option ICursor) (query : string) (wk_rs : PGResultSetData)
    (nrows : Z) (s : DbInterfacePGSQL) (o : IConnectionOptions) :
  connection_opts s = Some o ->
  last_rc s <> PGRES_COMMAND_OK ->
  last_rc s <> PGRES_TUPLES_OK ->
  exists s',
    trap_tx_termination crsr query wk_rs nrows s = Some ((DBERR_SQL_ERROR, crsr), s')
    /\ last_rc s' = (- (10000 + last_rc s))%Z
    /\ last_state s' = last_state s
    /\ last_error s' = last_error s
    /\ connaddr s' = connaddr s
    /\ connection_opts s' = Some o
    /\ _prepared_stmts s' = _prepared_stmts s
    /\ (current_resultset_data s = None -> current_resultset_data s' = None).
Proof.
  intros Ho H1 H2.
  unfold trap_tx_termination. run. rewrite Ho.
  destruct (is_Off (autocommit o) && is_tx_termination_statement query).
  - change (last_rc (set_current_resultset_data None s)) with (last_rc s).
    destruct (last_rc s =? PGRES_COMMAND_OK)%Z eqn:H1'; [apply Z.eqb_eq in H1'; congruence|].
    rewrite after_exec_failure by assumption.
    eexists. split; [reflexivity|]. repeat apply conj; try reflexivity; try exact Ho.
  - rewrite after_exec_failure by assumption.
    eexists. split; [reflexivity|]. repeat apply conj; try reflexivity; try exact Ho.
    intros Hn; exact Hn.
Qed.

(** X7: a statement the backend refuses: [exec] has sent it and nothing else,
    returns [DBERR_SQL_ERROR], leaves [-(10000 + status)] as error code and
    the result's SQLSTATE as state, and no current result set, whatever was
    there before; [get_error_message] then reports the connection's
    message. *)
Theorem exec_failure (query : string) (s : DbInterfacePGSQL)
    (o : IConnectionOptions) (c : PGconn) :
  connection_opts s = Some o ->
  connaddr s = Some c ->
  let r := PQanswer c (exec_request query) in
  PQresultStatus r <> PGRES_COMMAND_OK ->
  PQresultStatus r <> PGRES_TUPLES_OK ->
  exists s',
    exec query s = Some (DBERR_SQL_ERROR, s')
    /\ connaddr s' = Some (exchanged c (exec_request query) r)
    /\ get_error_code s' = (- (10000 + PQresultStatus r))%Z
    /\ get_state s' = pg_get_sqlstate r
    /\ current_resultset_data s' = None
    /\ get_error_message s'
       = Some (PQerrorMessage (exchanged c (exec_request query) r)).
Proof.
  intros Ho Hc r H1 H2. unfold exec. run.
  destruct (exec_reaches_trap query s)
    as (wk & s2 & -> & Hc2 & Ho2 & _ & Hr2 & Hrc2 & Hst2 & _).
  rewrite Hc in Hc2, Hrc2, Hst2 |- *. fold r in Hc2, Hrc2, Hst2 |- *.
  rewrite Ho in Ho2. rewrite <- Hrc2 in H1, H2.
  destruct (trap_failure None query wk (get_num_rows r) s2 o Ho2 H1 H2)
    as (s' & -> & Hrc' & Hst' & _ & Hc' & _ & _ & Hr').
  exists s'. split; [reflexivity|].
  specialize (Hr' Hr2).
  repeat apply conj.
  - now rewrite Hc'.
  - unfold get_error_code. now rewrite Hrc', Hrc2.
  - unfold get_state. now rewrite Hst'.
  - exact Hr'.
  - unfold get_error_message. now rewrite Hr', Hc', Hc2.
Qed.

(** X8: on an object whose connection has been terminated every statement
    fails in the same way: nothing is sent, the code is
    [DBERR_SQL_ERROR], the error code [-10007] and the state [00000]. *)
Theorem exec_without_connection (query : string) (s : DbInterfacePGSQL)
    (o : IConnectionOptions) :
  connection_opts s = Some o ->
  connaddr s = None ->
  exists s',
    exec query s = Some (DBERR_SQL_ERROR, s')
    /\ connaddr s' = None
    /\ get_error_code s' = (-10007)%Z
    /\ get_state s' = "00000"
    /\ current_resultset_data s' = None.
Proof.
  intros Ho Hc. unfold exec. run.
  destruct (exec_reaches_trap query s)
    as (wk & s2 & -> & Hc2 & Ho2 & _ & Hr2 & Hrc2 & Hst2 & _).
  rewrite Hc in Hc2, Hrc2, Hst2 |- *. rewrite Ho in Ho2.
  assert (H1 : last_rc s2 <> PGRES_COMMAND_OK) by (rewrite Hrc2; discriminate).
  assert (H2 : last_rc s2 <> PGRES_TUPLES_OK) by (rewrite Hrc2; discriminate).
  destruct (trap_failure None query wk (get_num_rows None) s2 o Ho2 H1 H2)
    as (s' & -> & Hrc' & Hst' & _ & Hc' & _ & _ & Hr').
  exists s'. split; [reflexivity|].
  repeat apply conj.
  - now rewrite Hc'.
  - unfold get_error_code. now rewrite Hrc', Hrc2.
  - unfold get_state. now rewrite Hst', Hst2.
  - now apply Hr'.
Qed.

Lemma start_new_transaction_code (s s' : DbInterfacePGSQL) (rc : Z) :
  DBERR_SQL_ERROR <> DBERR_NO_ERROR ->
  start_new_transaction s = Some (rc, s') ->
  rc = DBERR_NO_ERROR -> last_rc s' = PGRES_COMMAND_OK.
Proof.
  intros Hne. unfold start_new_transaction. run.
  destruct (PQsend (Exec "START TRANSACTION") s) as [[r s1]|]; [|discriminate].
  cbn [last_rc set_last_state set_last_error set_last_rc].
  destruct (PQresultStatus r =? PGRES_COMMAND_OK)%Z eqn:Hst; cbn [negb].
  - intros [= _ <-] _. cbn. now apply Z.eqb_eq.
  - intros [= <- _] Hrc. congruence.
Qed.

Lemma keep_or_fail_code (crsr cr : option ICursor) (wk_rs : PGResultSetData)
    (s s' : DbInterfacePGSQL) (rc : Z) :
  DBERR_SQL_ERROR <> DBERR_NO_ERROR ->
  keep_or_fail crsr wk_rs s = Some ((rc, cr), s') ->
  rc = DBERR_NO_ERROR ->
  last_rc s' = last_rc s
  /\ (last_rc s = PGRES_COMMAND_OK \/ last_rc s = PGRES_TUPLES_OK).
Proof.
  intros Hne. unfold keep_or_fail. run.
  destruct (last_rc s =? PGRES_COMMAND_OK)%Z eqn:H1;
    [|destruct (last_rc s =? PGRES_TUPLES_OK)%Z eqn:H2]; cbn [orb].
  - apply Z.eqb_eq in H1. destruct crsr; intros [= _ _ <-] _; (split; [reflexivity | now left]).
  - apply Z.eqb_eq in H2. destruct crsr; intros [= _ _ <-] _; (split; [reflexivity | now right]).
  - intros [= <- _ _] Hrc. congruence.
Qed.

Lemma after_exec_code (crsr cr : option ICursor) (query : string) (wk_rs : PGResultSetData)
    (nrows : Z) (s s' : DbInterfacePGSQL) (rc : Z) :
  DBERR_SQL_ERROR <> DBERR_NO_ERROR ->
  after_exec crsr query wk_rs nrows s = Some ((rc, cr), s') ->
  rc = DBERR_NO_ERROR ->
  last_rc s' = last_rc s
  /\ (last_rc s = PGRES_COMMAND_OK \/ last_rc s = PGRES_TUPLES_OK).
Proof.
  intros Hne. unfold after_exec. run.
  destruct (last_rc s =? PGRES_COMMAND_OK)%Z;
    [destruct (is_update_or_delete_statement query);
       [destruct (nrows <=? 0)%Z|]|];
    try (apply keep_or_fail_code; exact Hne).
  intros [= <- _ _] Hrc. congruence.
Qed.

Lemma trap_code (crsr cr : option ICursor) (query : string) (wk_rs : PGResultSetData)
    (nrows : Z) (s s' : DbInterfacePGSQL) (rc : Z) :
  DBERR_SQL_ERROR <> DBERR_NO_ERROR ->
  trap_tx_termination crsr query wk_rs nrows s = Some ((rc, cr), s') ->
  rc = DBERR_NO_ERROR ->
  last_rc s' = PGRES_COMMAND_OK \/ last_rc s' = PGRES_TUPLES_OK.
Proof.
  intros Hne. unfold trap_tx_termination. run.
  destruct (connection_opts s) as [o|]; [|discriminate].
  destruct (is_Off (autocommit o) && is_tx_termination_statement query).
  - change (last_rc (set_current_resultset_data None s)) with (last_rc s).
    destruct (last_rc s =? PGRES_COMMAND_OK)%Z.
    + destruct (start_new_transaction _) as [[rc1 s1]|] eqn:Hs; [|discriminate].
      intros [= <- _ <-] Hrc. left.
      now apply (start_new_transaction_code _ _ _ Hne Hs).
    + intros Hrun Hrc.
      destruct (after_exec_code _ _ _ _ _ _ _ _ Hne Hrun Hrc) as [-> H]. exact H.
  - intros Hrun Hrc.
    destruct (after_exec_code _ _ _ _ _ _ _ _ Hne Hrun Hrc) as [-> H]. exact H.
Qed.

(** X9: whenever [exec] returns [DBERR_NO_ERROR], the error code it leaves is
    libpq's status of the last command, [PGRES_COMMAND_OK] (1) or
    [PGRES_TUPLES_OK] (2): never 0. *)
Theorem exec_success_leaves_status (query : string) (s s' : DbInterfacePGSQL) :
  DBERR_SQL_ERROR <> DBERR_NO_ERROR ->
  exec query s = Some (DBERR_NO_ERROR, s') ->
  get_error_code s' = 1%Z \/ get_error_code s' = 2%Z.
Proof.
  intros Hne. unfold exec. run.
  destruct (exec_reaches_trap query s) as (wk & s2 & -> & _).
  destruct (trap_tx_termination _ _ _ _ _) as [[[rc cr] s1]|] eqn:Ht; [|discriminate].
  intros [= -> <-].
  exact (trap_code _ _ _ _ _ _ _ _ Hne Ht eq_refl).
Qed.

Lemma after_exec_tuples_ok (query : string) (wk_rs : PGResultSetData)
    (nrows : Z) (s : DbInterfacePGSQL) :
  last_rc s = PGRES_TUPLES_OK ->
  after_exec None query wk_rs nrows s
  = Some ((DBERR_NO_ERROR, None), set_current_resultset_data (Some wk_rs) s).
Proof.
  intros Hrc. unfold after_exec, keep_or_fail. run. rewrite Hrc.
  change (PGRES_TUPLES_OK =? PGRES_COMMAND_OK)%Z with false.
  cbn beta iota. rewrite Hrc.
  change (PGRES_TUPLES_OK =? PGRES_COMMAND_OK)%Z with false.
  change (PGRES_TUPLES_OK =? PGRES_TUPLES_OK)%Z with true.
  reflexivity.
Qed.

Lemma trap_tuples_ok (query : string) (wk_rs : PGResultSetData)
    (nrows : Z) (s : DbInterfacePGSQL) (o : IConnectionOptions) :
  connection_opts s = Some o ->
  last_rc s = PGRES_TUPLES_OK ->
  trap_tx_termination None query wk_rs nrows s
  = Some ((DBERR_NO_ERROR, None), set_current_resultset_data (Some wk_rs) s).
Proof.
  intros Ho Hrc.
  unfold trap_tx_termination. run. rewrite Ho.
  destruct (is_Off (autocommit o) && is_tx_termination_statement query).
  - change (last_rc (set_current_resultset_data None s)) with (last_rc s).
    rewrite Hrc. change (PGRES_TUPLES_OK =? PGRES_COMMAND_OK)%Z with false.
    cbn beta iota. now rewrite after_exec_tuples_ok.
  - now apply after_exec_tuples_ok.
Qed.

Lemma value_len_small (k : nat) :
  (Z.of_nat k < 2147483648)%Z -> value_len_of k = Z.of_nat k.
Proof.
  intros Hk. unfold value_len_of, CLib.to_uint64, CLib.to_int.
  rewrite (Z.mod_small (Z.of_nat k + 2147483648)) by lia.
  rewrite Z.mod_small by lia. lia.
Qed.

(** X10: round trip of a text value: after an [exec] that the backend answers
    with rows, [get_resultset_value] on the current result set copies the
    value at the given row and column, NUL-terminated, to the start of the
    buffer and reports its length, provided the value is shorter than the
    buffer. *)
Theorem exec_then_get_resultset_value (query : string) (s : DbInterfacePGSQL)
    (o : IConnectionOptions) (c : PGconn) (r : PGresult)
    (i j : nat) (t : list (option string)) (v : string)
    (ctx : IResultSetContextData) (bfr : CLib.memory) (bfrlen : nat) (nul : bool) :
  connection_opts s = Some o ->
  connaddr s = Some c ->
  PQanswer c (exec_request query) = Some r ->
  status r = PGRES_TUPLES_OK ->
  nth_error (tuples r) i = Some t ->
  nth_error t j = Some (Some v) ->
  PQftype (Some r) (Z.of_nat j) <> OID_BYTEA ->
  (CLib.strlen v < bfrlen)%nat ->
  (Z.of_nat bfrlen < 2147483648)%Z ->
  exists s',
    exec query s = Some (DBERR_NO_ERROR, s')
    /\ get_resultset_value s' CurrentResultSet ctx (Z.of_nat i) (Z.of_nat j)
         bfr bfrlen nul
       = Some {| rv_return := true;
                 rv_bfr := (list_ascii_of_string (CLib.c_str v) ++ [zero]
                            ++ skipn (S (CLib.strlen v)) bfr)%list;
                 rv_value_len := Z.of_nat (CLib.strlen v);
                 rv_is_db_null := nul |}.
Proof.
  intros Ho Hc Hr Hst Hrow Hcol Hty Hlen Hsmall. unfold exec. run.
  destruct (exec_reaches_trap query s)
    as (wk & s2 & -> & _ & Ho2 & _ & _ & Hrc2 & _ & _ & Hrs & _ & Hdb).
  rewrite Hc, Hr in Hrc2, Hrs. cbn [PQresultStatus] in Hrc2. rewrite Hst in Hrc2.
  rewrite Ho in Ho2.
  rewrite (trap_tuples_ok query wk _ s2 o Ho2 Hrc2).
  eexists. split; [reflexivity|].
  unfold get_resultset_value.
  cbn [select_resultset current_resultset_data set_current_resultset_data].
  rewrite Hrs.
  assert (Hval : PQgetvalue (Some r) (Z.of_nat i) (Z.of_nat j) = Some v).
  { unfold PQgetvalue.
    destruct (Z.of_nat i <? 0)%Z eqn:Hi; [apply Z.ltb_lt in Hi; lia|].
    destruct (Z.of_nat j <? 0)%Z eqn:Hj; [apply Z.ltb_lt in Hj; lia|].
    cbn [orb]. now rewrite !Nat2Z.id, Hrow, Hcol. }
  assert (Hnn : PQgetisnull (Some r) (Z.of_nat i) (Z.of_nat j) = false).
  { unfold PQgetisnull.
    destruct (Z.of_nat i <? 0)%Z eqn:Hi; [apply Z.ltb_lt in Hi; lia|].
    destruct (Z.of_nat j <? 0)%Z eqn:Hj; [apply Z.ltb_lt in Hj; lia|].
    cbn [orb]. now rewrite !Nat2Z.id, Hrow, Hcol. }
  rewrite Hval, Hnn, andb_false_r.
  apply Z.eqb_neq in Hty. rewrite Hty. cbn [negb orb].
  assert (Hfit : (bfrlen <? CLib.strlen v)%nat = false) by (apply Nat.ltb_ge; lia).
  rewrite Hfit. rewrite value_len_small by lia.
  do 2 f_equal. unfold CLib.memcpy.
  rewrite List.length_app, c_str_length. cbn [List.length].
  rewrite Nat.add_1_r. now rewrite <- List.app_assoc.
Qed.

(** X11: [exec] is [exec_params] without parameters, whatever the lengths array
    holds: the same request, the same return code, the same state, except
    that the result set [exec] stores has no [num_rows]. *)
Theorem exec_is_exec_params_without_parameters (query : string)
    (paramLengths : list Z) (s : DbInterfacePGSQL) :
  exec query s
  = (fun res => (fst res, without_num_rows (snd res)))
      <$> exec_params query [] [] paramLengths [] s.
Proof.
  destruct s as [ca dsi co cur lrc lerr lst tab db nat na].
  unfold exec, exec_params, _pgsql_exec, _pgsql_exec_params, reset_if_current,
    trap_tx_termination, after_exec, keep_or_fail, start_new_transaction, PQsend,
    exec_params_request, exec_request, without_num_rows.
  run. cbn.
  assert (Hsame : same_object cur cur = match cur with Some _ => true | None => false end).
  { destruct cur; cbn; [apply Nat.eqb_refl | reflexivity]. }
  rewrite Hsame.
  destruct cur as [rs|], ca as [c|], co as [o|]; cbn; try reflexivity;
    repeat match goal with
           | |- context [if ?b then _ else _] => destruct b; cbn
           end; reflexivity.
Qed.

(** *** exec_prepared *)

(** X12: [exec_prepared] on a known name with well-formed arrays sends one
    EXECUTE and nothing else; it succeeds exactly when the backend answers
    [PGRES_COMMAND_OK] or [PGRES_TUPLES_OK], whatever the number of rows
    touched, and then holds the result under the lower-cased name; when the
    backend refuses, the table keeps what it held and the error code is
    [-(10000 + status)].  The current result set is not involved. *)
Theorem exec_prepared_outcome (name : string) (paramTypes : list CobolVarType)
    (paramValues : list string) (paramLengths paramFlags : list Z)
    (ps : list bound_param) (s : DbInterfacePGSQL) (c : PGconn) :
  connaddr s = Some c ->
  is_prepared s (to_lower name) = true ->
  List.length paramTypes = List.length paramValues ->
  List.length paramTypes = List.length paramFlags ->
  bind_params 0 paramValues paramTypes paramLengths paramFlags = Some ps ->
  let rq := ExecPrepared (to_lower name) (List.length paramValues)
              (map bp_val ps) (map bp_length ps) (map bp_format ps) in
  let r := PQanswer c rq in
  exists rc s',
    exec_prepared name paramTypes paramValues paramLengths paramFlags s = Some (rc, s')
    /\ connaddr s' = Some (exchanged c rq r)
    /\ current_resultset_data s' = current_resultset_data s
    /\ get_state s' = pg_get_sqlstate r
    /\ if (PQresultStatus r =? PGRES_COMMAND_OK)%Z || (PQresultStatus r =? PGRES_TUPLES_OK)%Z
       then rc = DBERR_NO_ERROR
            /\ get_error_code s' = PQresultStatus r
            /\ exists rs, _prepared_stmts s' = <[to_lower name := Some rs]> (_prepared_stmts s)
                          /\ resultset rs = r /\ current_row_index rs = (-1)%Z
       else rc = DBERR_SQL_ERROR
            /\ get_error_code s' = (- (10000 + PQresultStatus r))%Z
            /\ _prepared_stmts s' = _prepared_stmts s.
Proof. apply exec_prepared_frame. Qed.

(** X13: after an [exec_prepared] that succeeds, [move_to_first_record] on the
    statement, in any spelling with the same lower-cased form, returns true
    exactly when the row count of the command is positive. *)
Theorem exec_prepared_then_move_to_first_record (name name' : string)
    (paramTypes : list CobolVarType) (paramValues : list string)
    (paramLengths paramFlags : list Z) (ps : list bound_param)
    (s : DbInterfacePGSQL) (c : PGconn) (r : PGresult) :
  connaddr s = Some c ->
  is_prepared s (to_lower name) = true ->
  List.length paramTypes = List.length paramValues ->
  List.length paramTypes = List.length paramFlags ->
  bind_params 0 paramValues paramTypes paramLengths paramFlags = Some ps ->
  PQanswer c (ExecPrepared (to_lower name) (List.length paramValues)
                (map bp_val ps) (map bp_length ps) (map bp_format ps)) = Some r ->
  status r = PGRES_COMMAND_OK \/ status r = PGRES_TUPLES_OK ->
  to_lower name' = to_lower name ->
  to_lower name <> EmptyString ->
  exists s1 s2,
    exec_prepared name paramTypes paramValues paramLengths paramFlags s
    = Some (DBERR_NO_ERROR, s1)
    /\ move_to_first_record name' s1 = Some ((0 <? get_num_rows (Some r))%Z, s2).
Proof.
  intros Hc Hp Hv Hf Hb Hr Hst Hl Hne.
  destruct (exec_prepared_frame name paramTypes paramValues paramLengths paramFlags ps s c
              Hc Hp Hv Hf Hb) as (rc & s1 & Hrun & _ & _ & _ & Hcase).
  rewrite Hr in Hcase. cbn [PQresultStatus] in Hcase.
  assert (Hok : (status r =? PGRES_COMMAND_OK)%Z || (status r =? PGRES_TUPLES_OK)%Z = true).
  { destruct Hst as [-> | ->]; reflexivity. }
  rewrite Hok in Hcase. destruct Hcase as (-> & _ & rs & Htab & Hrs & _).
  assert (Hnamed : named_resultset s1 name' = Some rs).
  { unfold named_resultset. rewrite Hl.
    apply String.eqb_neq in Hne. rewrite Hne, Htab. now rewrite lookup_insert_eq. }
  pose proof (move_to_first_record_resolved name' s1 rs r Hnamed Hrs) as Hmove.
  exists s1. destruct (get_num_rows (Some r) <=? 0)%Z eqn:Hle.
  - eexists. split; [exact Hrun|]. apply Z.leb_le in Hle.
    replace (0 <? get_num_rows (Some r))%Z with false by (symmetry; apply Z.ltb_ge; lia).
    exact Hmove.
  - exists s1. split; [exact Hrun|]. apply Z.leb_gt in Hle.
    replace (0 <? get_num_rows (Some r))%Z with true by (symmetry; apply Z.ltb_lt; lia).
    exact Hmove.
Qed.

(** X14: a statement that has been prepared and not executed has no result:
    [move_to_first_record] fails with state HY000 and
    [get_resultset_value] returns false, the buffer untouched. *)
Theorem prepared_and_not_executed (name sql : string) (s s1 : DbInterfacePGSQL)
    (row col : Z) (bfr : CLib.memory) (bfrlen : nat) (nul : bool) :
  DBERR_PREPARE_FAILED <> DBERR_NO_ERROR ->
  to_lower name <> EmptyString ->
  prepare name sql s = Some (DBERR_NO_ERROR, s1) ->
  (exists s2, move_to_first_record name s1 = Some (false, s2)
              /\ get_state s2 = "HY000"
              /\ get_error_code s2 = DBERR_MOVE_TO_FIRST_FAILED)
  /\ get_resultset_value s1 PreparedStatement (PreparedStatementContextData name)
       row col bfr bfrlen nul
     = Some {| rv_return := false; rv_bfr := bfr; rv_value_len := 0;
               rv_is_db_null := nul |}.
Proof.
  intros Hne Hnm Hrun.
  destruct (prepare_table name sql s s1 _ Hrun) as [[Hrc _]|(_ & _ & Htab)];
    [exfalso; apply Hne; now symmetry|].
  split.
  - rewrite move_to_first_record_unresolved.
    + eexists. split; [reflexivity|]. split; reflexivity.
    + intros rs r. unfold named_resultset.
      apply String.eqb_neq in Hnm. rewrite Hnm, Htab, lookup_insert_eq. discriminate.
  - unfold get_resultset_value. cbn [select_resultset].
    now rewrite Htab, lookup_insert_eq.
Qed.

(** *** get_resultset_value *)

(** X15: a call that returns false has changed nothing: the buffer and the null
    flag are as the caller left them, the length is 0.  And no call sets the
    null flag to false: a flag that is true on entry is true on exit, also
    for a value that is not null. *)
Theorem get_resultset_value_outputs (this : DbInterfacePGSQL)
    (ty : ResultSetContextType) (ctx : IResultSetContextData) (row col : Z)
    (bfr : CLib.memory) (bfrlen : nat) (is_db_null : bool) (rv : resultset_value) :
  get_resultset_value this ty ctx row col bfr bfrlen is_db_null = Some rv ->
  (rv_return rv = false ->
   rv_bfr rv = bfr /\ rv_value_len rv = 0%Z /\ rv_is_db_null rv = is_db_null)
  /\ (is_db_null = true -> rv_is_db_null rv = true).
Proof.
  unfold get_resultset_value.
  destruct (select_resultset this ty ctx row) as [| |[wk_rs|] row']; try discriminate;
    try (intros [= <-]; split; [intros _; repeat split | intros ->; reflexivity]).
  destruct (PQgetvalue (resultset wk_rs) row' col) as [res|];
    [|intros [= <-]; split; [intros _; repeat split | intros ->; reflexivity]].
  destruct ((CLib.strlen res =? 0)%nat && PQgetisnull (resultset wk_rs) row' col).
  { intros [= <-]. split; [discriminate | reflexivity]. }
  destruct (negb (PQftype (resultset wk_rs) col =? OID_BYTEA)%Z
            || (decode_binary this =? 0)%Z).
  - destruct (bfrlen <? CLib.strlen res)%nat; intros [= <-];
      (split; [first [discriminate | intros _; repeat split] | intros ->; reflexivity]).
  - destruct (PQunescapeBytea res) as [bytes|];
      [|intros [= <-]; split; [intros _; repeat split | intros ->; reflexivity]].
    destruct (bfrlen <? List.length bytes)%nat; intros [= <-];
      (split; [first [discriminate | intros _; repeat split] | intros ->; reflexivity]).
Qed.

(** *** Cursors *)

Lemma store_object_native (d : PGResultSetData) (s : DbInterfacePGSQL) :
  use_native_cursors (store_object d s) = use_native_cursors s.
Proof. reflexivity. Qed.

(** One fetch on an emulated cursor. *)
Lemma cursor_fetch_one_emulated (c : ICursor) (rs : PGResultSetData) (fetchmode : Z)
    (s : DbInterfacePGSQL) :
  use_native_cursors s = false ->
  getPrivateData c = Some rs ->
  let rs' := set_current_row_index (current_row_index rs + 1) rs in
  cursor_fetch_one (Some c) fetchmode s
  = Some ((if (num_rows rs <=? current_row_index rs + 1)%Z
           then DBERR_NO_DATA else DBERR_NO_ERROR,
           Some (setPrivateData (Some rs') c)),
          store_object rs' s).
Proof.
  intros Hn Hd rs'. unfold cursor_fetch_one. run. rewrite Hn, Hd.
  cbn [num_rows current_row_index set_current_row_index].
  now destruct (num_rows rs <=? current_row_index rs + 1)%Z.
Qed.

(** X17: an emulated cursor hands out each row once and in order: of [k] fetches
    on a cursor with [m] rows after the current one, the first [min k m]
    return [DBERR_NO_ERROR] and the others [DBERR_NO_DATA], whatever the
    fetch mode; every fetch moves the row index forward by one. *)
Theorem emulated_fetch_counts (k : nat) (fetchmode : Z) :
  forall (c : ICursor) (rs : PGResultSetData) (s : DbInterfacePGSQL),
    use_native_cursors s = false ->
    getPrivateData c = Some rs ->
    let m := Z.to_nat (num_rows rs - current_row_index rs - 1) in
    exists c' rs' s',
      fetch_times k c fetchmode s
      = Some ((repeat DBERR_NO_ERROR (Nat.min k m) ++ repeat DBERR_NO_DATA (k - m), c')%list, s')
      /\ getPrivateData c' = Some rs'
      /\ current_row_index rs' = (current_row_index rs + Z.of_nat k)%Z
      /\ num_rows rs' = num_rows rs
      /\ resultset rs' = resultset rs.
Proof.
  induction k as [|k IH]; intros c rs s Hn Hd m.
  - exists c, rs, s. cbn [fetch_times]. run. cbn [Nat.min repeat Nat.sub app].
    repeat split; [exact Hd | lia].
  - cbn [fetch_times]. run.
    rewrite (cursor_fetch_one_emulated c rs fetchmode s Hn Hd). cbn [fst snd].
    set (rs1 := set_current_row_index (current_row_index rs + 1) rs).
    destruct (IH (setPrivateData (Some rs1) c) rs1 (store_object rs1 s)
                (eq_trans (store_object_native rs1 s) Hn) eq_refl)
      as (c' & rs' & s' & -> & Hd' & Hi' & Hn' & Hr').
    cbn [fst snd]. exists c', rs', s'.
    cbn [current_row_index num_rows resultset rs1 set_current_row_index] in *.
    split; [|repeat split; [exact Hd' | lia | exact Hn' | exact Hr']].
    do 3 f_equal.
    destruct (num_rows rs <=? current_row_index rs + 1)%Z eqn:Hle.
    + apply Z.leb_le in Hle.
      replace m with 0%nat by (subst m; lia).
      replace (Z.to_nat (num_rows rs - (current_row_index rs + 1) - 1)) with 0%nat by lia.
      rewrite !Nat.min_0_r, !Nat.sub_0_r. reflexivity.
    + apply Z.leb_gt in Hle.
      replace (Z.to_nat (num_rows rs - (current_row_index rs + 1) - 1))
        with (m - 1)%nat by (subst m; lia).
      assert (Hm : (1 <= m)%nat) by (subst m; lia).
      replace (Nat.min (S k) m) with (S (Nat.min k (m - 1))) by lia.
      replace (S k - m)%nat with (k - (m - 1))%nat by lia.
      reflexivity.
Qed.

(** X18: after a fetch on an emulated cursor, [get_resultset_value] with the
    cursor as context reads the row the fetch moved to, and not the row it
    is asked for. *)
Theorem emulated_fetch_then_get_resultset_value (c c' : ICursor) (rs : PGResultSetData)
    (fetchmode rc row col : Z) (s s' this : DbInterfacePGSQL)
    (bfr : CLib.memory) (bfrlen : nat) (nul : bool) :
  use_native_cursors s = false ->
  getPrivateData c = Some rs ->
  (-1 <= current_row_index rs)%Z ->
  cursor_fetch_one (Some c) fetchmode s = Some ((rc, Some c'), s') ->
  get_resultset_value this Cursor (CursorContextData (Some c')) row col bfr bfrlen nul
  = get_resultset_value this Cursor (CursorContextData (Some c'))
      (current_row_index rs + 1) col bfr bfrlen nul.
Proof.
  intros Hn Hd Hidx. rewrite (cursor_fetch_one_emulated c rs fetchmode s Hn Hd).
  intros [= _ <- _]. unfold get_resultset_value.
  cbn [select_resultset getPrivateData setPrivateData current_row_index
       set_current_row_index].
  destruct (current_row_index rs + 1 =? -1)%Z eqn:Hm; [apply Z.eqb_eq in Hm; lia|].
  reflexivity.
Qed.

(** [_pgsql_exec_params] on a cursor, up to the trap. *)
Lemma cursor_exec_params_reaches_trap (c0 : ICursor) (query : string)
    (paramTypes : list CobolVarType) (paramValues : list string)
    (paramLengths paramFlags : list Z) (ps : list bound_param)
    (s : DbInterfacePGSQL) (c : PGconn) :
  connaddr s = Some c ->
  List.length paramTypes = List.length paramValues ->
  List.length paramTypes = List.length paramFlags ->
  bind_params 0 paramValues paramTypes paramLengths paramFlags = Some ps ->
  let rq := exec_params_request query paramValues ps in
  let r := PQanswer c rq in
  exists wk_rs s2,
    _pgsql_exec_params (Some c0) query paramTypes paramValues paramLengths paramFlags s
    = trap_tx_termination (Some c0) query wk_rs (get_num_rows r) s2
    /\ connaddr s2 = Some (exchanged c rq r)
    /\ connection_opts s2 = connection_opts s
    /\ use_native_cursors s2 = use_native_cursors s
    /\ last_rc s2 = PQresultStatus r
    /\ resultset wk_rs = r
    /\ current_row_index wk_rs = (-1)%Z
    /\ num_rows wk_rs = get_num_rows r.
Proof.
  intros Hc Hv Hf Hb rq r. unfold _pgsql_exec_params. run.
  rewrite Hv, <- Hf, Hv, Nat.eqb_refl. cbn [negb orb]. rewrite Hb.
  destruct (reset_if_current_frame (initial_wk_rs (Some c0) s) s)
    as (s1 & -> & Hc1 & Ho1 & Hn1 & _).
  rewrite Hc in Hc1.
  rewrite (PQsend_connected _ (set_next_addr (S (next_addr s1)) s1) c Hc1).
  fold rq. fold r.
  eexists; eexists; split; [reflexivity|].
  repeat apply conj; try reflexivity; assumption.
Qed.

Lemma after_exec_cursor_tuples_ok (c0 : ICursor) (query : string) (wk_rs : PGResultSetData)
    (nrows : Z) (s : DbInterfacePGSQL) :
  last_rc s = PGRES_TUPLES_OK ->
  after_exec (Some c0) query wk_rs nrows s
  = Some ((DBERR_NO_ERROR, Some (setPrivateData (Some wk_rs) c0)), s).
Proof.
  intros Hrc. unfold after_exec, keep_or_fail. run. rewrite Hrc.
  change (PGRES_TUPLES_OK =? PGRES_COMMAND_OK)%Z with false.
  cbn beta iota. rewrite Hrc.
  change (PGRES_TUPLES_OK =? PGRES_COMMAND_OK)%Z with false.
  change (PGRES_TUPLES_OK =? PGRES_TUPLES_OK)%Z with true.
  reflexivity.
Qed.

Lemma trap_cursor_tuples_ok (c0 : ICursor) (query : string) (wk_rs : PGResultSetData)
    (nrows : Z) (s : DbInterfacePGSQL) (o : IConnectionOptions) :
  connection_opts s = Some o ->
  last_rc s = PGRES_TUPLES_OK ->
  exists s',
    trap_tx_termination (Some c0) query wk_rs nrows s
    = Some ((DBERR_NO_ERROR, Some (setPrivateData (Some wk_rs) c0)), s')
    /\ connaddr s' = connaddr s
    /\ use_native_cursors s' = use_native_cursors s
    /\ last_rc s' = last_rc s.
Proof.
  intros Ho Hrc.
  unfold trap_tx_termination. run. rewrite Ho.
  destruct (is_Off (autocommit o) && is_tx_termination_statement query).
  - change (last_rc (set_current_resultset_data None s)) with (last_rc s).
    rewrite Hrc. change (PGRES_TUPLES_OK =? PGRES_COMMAND_OK)%Z with false.
    cbn beta iota. rewrite after_exec_cursor_tuples_ok by exact Hrc.
    eexists. split; [reflexivity|]. repeat apply conj; try reflexivity. exact Hrc.
  - rewrite after_exec_cursor_tuples_ok by exact Hrc.
    eexists. split; [reflexivity|]. repeat apply conj; reflexivity.
Qed.

(** X19: opening an emulated cursor: the query goes out as it is, and when the
    backend answers with rows the cursor holds the result, placed before its
    first row, with the row count of the command as its number of rows. *)
Theorem cursor_open_emulated (c0 : ICursor) (src : CursorSource) (ps : list bound_param)
    (s : DbInterfacePGSQL) (o : IConnectionOptions) (c : PGconn) :
  use_native_cursors s = false ->
  connection_opts s = Some o ->
  connaddr s = Some c ->
  getQuery src <> EmptyString ->
  starts_with (getQuery src) "@" = false ->
  List.length (getParameterTypes src) = List.length (getParameterValues src) ->
  List.length (getParameterTypes src) = List.length (getParameterFlags src) ->
  bind_params 0 (getParameterValues src) (getParameterTypes src)
    (getParameterLengths src) (getParameterFlags src) = Some ps ->
  let rq := exec_params_request (getQuery src) (getParameterValues src) ps in
  let r := PQanswer c rq in
  PQresultStatus r = PGRES_TUPLES_OK ->
  exists rs s',
    cursor_open (Some (c0, src)) s
    = Some ((DBERR_NO_ERROR, Some (setPrivateData (Some rs) c0)), s')
    /\ connaddr s' = Some (exchanged c rq r)
    /\ resultset rs = r
    /\ current_row_index rs = (-1)%Z
    /\ num_rows rs = get_num_rows r
    /\ use_native_cursors s' = false.
Proof.
  intros Hn Ho Hc Hq Hat Hv Hf Hb rq r Hst. unfold cursor_open. run.
  assert (Hlen : (String.length (getQuery src) =? 0)%nat = false).
  { apply Nat.eqb_neq. destruct (getQuery src); [congruence | discriminate]. }
  rewrite Hlen. run. rewrite Hat. run. cbn [negb].
  apply String.eqb_neq in Hq. rewrite Hq, Hn.
  destruct (cursor_exec_params_reaches_trap c0 (getQuery src) _ _ _ _ ps s c Hc Hv Hf Hb)
    as (wk & s2 & -> & Hc2 & Ho2 & Hn2 & Hrc2 & Hrs & Hidx & Hrows).
  fold rq in Hc2, Hrc2, Hrs, Hrows |- *. fold r in Hc2, Hrc2, Hrs, Hrows |- *.
  rewrite Ho in Ho2. rewrite Hst in Hrc2.
  destruct (trap_cursor_tuples_ok c0 (getQuery src) wk (get_num_rows r) s2 o Ho2 Hrc2)
    as (s' & -> & Hc' & Hn' & _).
  cbn [fst snd]. rewrite Z.eqb_refl.
  exists wk, s'. split; [reflexivity|].
  repeat apply conj; try assumption; congruence.
Qed.

(** [_pgsql_exec] on a cursor, up to the trap. *)
Lemma cursor_exec_reaches_trap (c0 : ICursor) (query : string)
    (s : DbInterfacePGSQL) (c : PGconn) :
  connaddr s = Some c ->
  let r := PQanswer c (exec_request query) in
  exists wk_rs s2,
    _pgsql_exec (Some c0) query s
    = trap_tx_termination (Some c0) query wk_rs (get_num_rows r) s2
    /\ connaddr s2 = Some (exchanged c (exec_request query) r)
    /\ connection_opts s2 = connection_opts s
    /\ last_rc s2 = PQresultStatus r
    /\ resultset wk_rs = r.
Proof.
  intros Hc r. unfold _pgsql_exec. run.
  destruct (reset_if_current_frame (initial_wk_rs (Some c0) s) s)
    as (s1 & -> & Hc1 & Ho1 & _).
  rewrite Hc in Hc1.
  rewrite (PQsend_connected _ (set_next_addr (S (next_addr s1)) s1) c Hc1). fold r.
  eexists; eexists; split; [reflexivity|].
  repeat apply conj; try reflexivity; assumption.
Qed.

(** X20: with native cursors a fetch sends FETCH RELATIVE 0, -1 or 1 according to
    the mode; when the backend answers with rows the cursor holds the new
    result, the code is [DBERR_NO_DATA] for a row count below 1,
    [DBERR_TOO_MUCH_DATA] above 1 and [DBERR_NO_ERROR] for exactly 1, and the
    error code left behind is [DBERR_NO_ERROR] in all three cases. *)
Theorem cursor_fetch_one_native (c0 : ICursor) (fetchmode : Z)
    (s : DbInterfacePGSQL) (o : IConnectionOptions) (c : PGconn) :
  use_native_cursors s = true ->
  connection_opts s = Some o ->
  connaddr s = Some c ->
  let rq := exec_request (fetch_statement fetchmode (getName c0)) in
  let r := PQanswer c rq in
  PQresultStatus r = PGRES_TUPLES_OK ->
  exists rs s',
    cursor_fetch_one (Some c0) fetchmode s
    = Some ((if (get_num_rows r <? 1)%Z then DBERR_NO_DATA
             else if (1 <? get_num_rows r)%Z then DBERR_TOO_MUCH_DATA
             else DBERR_NO_ERROR,
             Some (setPrivateData (Some rs) c0)), s')
    /\ resultset rs = r
    /\ connaddr s' = Some (exchanged c rq r)
    /\ get_error_code s' = DBERR_NO_ERROR.
Proof.
  intros Hn Ho Hc rq r Hst. unfold cursor_fetch_one. run. rewrite Hn.
  assert (Hq : (if (fetchmode =? FETCH_CUR_ROW)%Z
                then "FETCH RELATIVE 0 FROM " ++ getName c0
                else if (fetchmode =? FETCH_PREV_ROW)%Z
                     then "FETCH RELATIVE -1 FROM " ++ getName c0
                     else "FETCH RELATIVE 1 FROM " ++ getName c0)
               = fetch_statement fetchmode (getName c0)).
  { unfold fetch_statement.
    destruct (fetchmode =? FETCH_CUR_ROW)%Z; [reflexivity|].
    destruct (fetchmode =? FETCH_PREV_ROW)%Z; reflexivity. }
  rewrite Hq.
  destruct (cursor_exec_reaches_trap c0 (fetch_statement fetchmode (getName c0)) s c Hc)
    as (wk & s2 & -> & Hc2 & Ho2 & Hrc2 & Hrs).
  fold rq in Hc2, Hrc2, Hrs |- *. fold r in Hc2, Hrc2, Hrs |- *.
  rewrite Ho in Ho2. rewrite Hst in Hrc2.
  destruct (trap_cursor_tuples_ok c0 (fetch_statement fetchmode (getName c0)) wk
              (get_num_rows r) s2 o Ho2 Hrc2)
    as (s' & -> & Hc' & _ & _).
  cbn [fst snd]. rewrite Z.eqb_refl. cbn [negb].
  assert (Hrows : get_num_rows_cursor (Some (setPrivateData (Some wk) c0))
                    (set_last_rc DBERR_NO_ERROR s') = get_num_rows r).
  { unfold get_num_rows_cursor, get_num_rows. cbn [getPrivateData setPrivateData].
    rewrite Hrs. destruct r as [r'|]; [reflexivity | discriminate]. }
  rewrite Hrows.
  exists wk, (set_last_rc DBERR_NO_ERROR s'). split.
  - destruct (get_num_rows r <? 1)%Z; [reflexivity|].
    destruct (1 <? get_num_rows r)%Z; reflexivity.
  - repeat apply conj; [exact Hrs | | reflexivity].
    cbn [connaddr set_last_rc]. now rewrite Hc'.
Qed.

(** X21: what [cursor_open] refuses before anything is sent: a null cursor; a
    cursor without query text, which leaves error code -1 and the message
    [Empty query]; and parameter arrays of different sizes, whose
    [DBERR_INTERNAL_ERR] is left as error code while the code returned is
    [DBERR_OPEN_CURSOR_FAILED] as for the other two. *)
Theorem cursor_open_refusals (c0 : ICursor) (src : CursorSource) (s : DbInterfacePGSQL) :
  starts_with (getQuery src) "@" = false ->
  DBERR_INTERNAL_ERR <> DBERR_NO_ERROR ->
  cursor_open None s = Some ((DBERR_OPEN_CURSOR_FAILED, None), s)
  /\ (getQuery src = EmptyString ->
      fst (getQuerySource src) = None ->
      cursor_open (Some (c0, src)) s
      = Some ((DBERR_OPEN_CURSOR_FAILED, Some c0),
              set_last_error "Empty query" (set_last_rc (-1) s)))
  /\ (getQuery src <> EmptyString ->
      List.length (getParameterTypes src) <> List.length (getParameterValues src)
      \/ List.length (getParameterTypes src) <> List.length (getParameterFlags src) ->
      cursor_open (Some (c0, src)) s
      = Some ((DBERR_OPEN_CURSOR_FAILED, Some c0),
              set_last_rc DBERR_INTERNAL_ERR
                (set_last_error "Internal error: parameter count mismatch" s))).
Proof.
  intros Hat Hne. split; [reflexivity|]. split.
  - intros Hq Hsrc. unfold cursor_open. run. rewrite Hq in Hat |- *.
    cbn [String.length Nat.eqb]. unfold __get_trimmed_hostref_or_literal.
    rewrite Hsrc. run. rewrite Hat. run. reflexivity.
  - intros Hq Hmis. apply mismatch_test in Hmis. unfold cursor_open. run.
    assert (Hlen : (String.length (getQuery src) =? 0)%nat = false).
    { apply Nat.eqb_neq. destruct (getQuery src); [congruence | discriminate]. }
    rewrite Hlen. run. rewrite Hat. run. cbn [negb].
    apply String.eqb_neq in Hq. rewrite Hq.
    unfold _pgsql_exec_params. run. rewrite Hmis. run.
    apply Z.eqb_neq in Hne. now rewrite Hne.
Qed.

(** *** The parameters [connect] hands to libpq *)

Lemma fold_options_lookup (opts : gmap string string) (l : list string)
    (base : gmap string string) (k : string) :
  fold_left (fun m opt => match opts !! opt with
                          | Some v => <[opt := v]> m
                          | None => m
                          end) l base !! k
  = if decide (k ∈ l)
    then match opts !! k with
         | Some v => Some v
         | None => base !! k
         end
    else base !! k.
Proof.
  revert base. induction l as [|a l IH]; intros base; cbn [fold_left].
  - now rewrite decide_False by apply not_elem_of_nil.
  - rewrite IH. destruct (decide (k ∈ l)) as [Hin|Hnin].
    + rewrite decide_True by now apply elem_of_cons; right.
      destruct (opts !! k) as [v|] eqn:Hk; [reflexivity|].
      destruct (opts !! a) as [va|] eqn:Ha; [|reflexivity].
      rewrite lookup_insert_ne; [reflexivity | congruence].
    + destruct (decide (k = a)) as [->|Hne].
      * rewrite decide_True by apply list_elem_of_here.
        destruct (opts !! a) as [va|]; [now rewrite lookup_insert_eq | reflexivity].
      * rewrite decide_False by (rewrite elem_of_cons; tauto).
        destruct (opts !! a) as [va|]; [|reflexivity].
        now rewrite lookup_insert_ne by congruence.
Qed.

(** X22: what [connect] passes to libpq: the five parameters of the data source,
    always, an empty text standing for port 0; each of the sixteen supported
    options that the data source carries, with its value; and nothing else,
    whatever other options the data source carries. *)
Theorem connection_params_passed (info : IDataSourceInfo) :
  connection_params info !! "dbname" = Some (getDbName info)
  /\ connection_params info !! "host" = Some (getHost info)
  /\ connection_params info !! "port"
     = Some (if (getPort info =? 0)%Z then EmptyString
             else CLib.to_string_int (getPort info))
  /\ connection_params info !! "user" = Some (getUsername info)
  /\ connection_params info !! "password" = Some (getPassword info)
  /\ (forall k, k ∈ supported_libpq_opts ->
                connection_params info !! k = getOptions info !! k)
  /\ (forall k, k ∉ base_params -> k ∉ supported_libpq_opts ->
                connection_params info !! k = None).
Proof.
  unfold connection_params.
  repeat apply conj;
    try (rewrite fold_options_lookup;
         rewrite decide_False
           by (unfold supported_libpq_opts; rewrite !not_elem_of_cons;
               repeat split; try discriminate; apply not_elem_of_nil);
         repeat (rewrite lookup_insert_ne by discriminate);
         now rewrite lookup_insert_eq).
  - intros k Hk. rewrite fold_options_lookup, decide_True by exact Hk.
    destruct (getOptions info !! k) as [v|]; [reflexivity|].
    assert (Hnb : k ∉ base_params).
    { intros Hb. revert Hk. unfold base_params, supported_libpq_opts in *.
      rewrite !elem_of_cons, elem_of_nil in Hb.
      destruct Hb as [->|[->|[->|[->|[->|[]]]]]]; rewrite !elem_of_cons, elem_of_nil;
        intros H; repeat (destruct H as [H|H]; [discriminate|]); exact H. }
    unfold base_params in Hnb. rewrite !elem_of_cons, elem_of_nil in Hnb.
    repeat (rewrite lookup_insert_ne by (intros <-; tauto)).
    apply lookup_empty.
  - intros k Hnb Hns. rewrite fold_options_lookup, decide_False by exact Hns.
    unfold base_params in Hnb. rewrite !elem_of_cons, elem_of_nil in Hnb.
    repeat (rewrite lookup_insert_ne by (intros <-; tauto)).
    apply lookup_empty.
Qed.

End Laws.

(** *** On the bench *)

(** A name prepared before a reset is refused after the reconnection. *)
Lemma prepared_names_on_the_bench :
  let s := Bench.after (prepare (E := Bench.codes) (L := Bench.backend) "Q1" "SELECT 1")
             (Bench.connected On) in
  let s1 := Bench.after (reset (EC := Bench.cursor_codes)) s in
  let s2 := Bench.after (connect (E := Bench.codes) (L := Bench.backend) Bench.info
                           (Bench.options On)) s1 in
  prepare (E := Bench.codes) (L := Bench.backend) "q1" "SELECT 2" s2
  = Some (DBERR_PREPARE_FAILED (DbErr := Bench.codes), s2).
Proof.
  cbv zeta.
  eapply (prepared_names_outlive_the_connection (E := Bench.codes) (L := Bench.backend)
           (EC := Bench.cursor_codes) "q1" "SELECT 2" Bench.info (Bench.options On)
           (Bench.after (prepare (E := Bench.codes) (L := Bench.backend) "Q1" "SELECT 1")
              (Bench.connected On))
           _ _ 0%Z 0%Z).
  - vm_compute. reflexivity.
  - vm_compute. reflexivity.
  - vm_compute. reflexivity.
Defined.

(** A statement refused on the bench. *)
Lemma exec_failure_on_the_bench :
  exists s',
    exec (E := Bench.codes) (U := Bench.utils) (L := Bench.failing_backend)
      "SELEC 1" (Bench.attached On true)
    = Some (DBERR_SQL_ERROR (DbErr := Bench.codes), s')
    /\ get_error_code s' = (-10007)%Z
    /\ get_state s' = "42601"
    /\ current_resultset_data s' = None
    /\ get_error_message (L := Bench.failing_backend) s'
       = Some "server closed the connection unexpectedly".
Proof.
  destruct (exec_failure (E := Bench.codes) (U := Bench.utils) (L := Bench.failing_backend)
              "SELEC 1" (Bench.attached On true) (Bench.options On)
              {| conn_status := CONNECTION_OK; conn_log := [] |})
    as (s' & Hrun & _ & Hrc & Hst & Hcur & Hmsg);
    [reflexivity | reflexivity | discriminate | discriminate |].
  exists s'. repeat apply conj; assumption.
Defined.


(** After [terminate_connection], on the bench. *)
Lemma exec_without_connection_on_the_bench :
  let s := Bench.after terminate_connection
             (Bench.connected On) in
  exists s',
    exec (E := Bench.codes) (U := Bench.utils) (L := Bench.backend) "SELECT a FROM t" s
    = Some (DBERR_SQL_ERROR (DbErr := Bench.codes), s')
    /\ connaddr s' = None
    /\ get_error_code s' = (-10007)%Z
    /\ get_state s' = "00000"
    /\ current_resultset_data s' = None.
Proof.
  cbv zeta.
  apply (exec_without_connection (E := Bench.codes) (U := Bench.utils) (L := Bench.backend)
           "SELECT a FROM t" _ (Bench.options On)).
  - vm_compute. reflexivity.
  - vm_compute. reflexivity.
Defined.

(** After the SELECT of the bench the error code is 2. *)
Lemma exec_success_on_the_bench :
  get_error_code Bench.after_select = 1%Z \/ get_error_code Bench.after_select = 2%Z.
Proof.
  apply (exec_success_leaves_status (E := Bench.codes) (U := Bench.utils)
           (L := Bench.backend) "SELECT a FROM t" (Bench.connected On) Bench.after_select).
  - vm_compute. discriminate.
  - vm_compute. reflexivity.
Defined.

(** The value [abc] of the bench's table, read into a buffer of eight
    bytes. *)
Lemma exec_then_value_on_the_bench :
  let bfr := repeat "x"%char 8 in
  exists s',
    exec (E := Bench.codes) (U := Bench.utils) (L := Bench.backend)
      "SELECT a FROM t" (Bench.connected On)
    = Some (DBERR_NO_ERROR, s')
    /\ get_resultset_value (L := Bench.backend) s' CurrentResultSet
         CurrentResultSetContextData 0 0 bfr 8 false
       = Some {| rv_return := true;
                 rv_bfr := ["a"; "b"; "c"; zero; "x"; "x"; "x"; "x"]%char;
                 rv_value_len := 3;
                 rv_is_db_null := false |}.
Proof.
  cbv zeta.
  apply (exec_then_get_resultset_value (E := Bench.codes) (U := Bench.utils)
           (L := Bench.backend) "SELECT a FROM t" (Bench.connected On) (Bench.options On)
           {| conn_status := CONNECTION_OK; conn_log := [] |} Bench.one_row
           0%nat 0%nat [Some "abc"] "abc" CurrentResultSetContextData
           (repeat "x"%char 8) 8 false).
  - vm_compute. reflexivity.
  - vm_compute. reflexivity.
  - vm_compute. reflexivity.
  - reflexivity.
  - reflexivity.
  - reflexivity.
  - vm_compute. discriminate.
  - vm_compute. lia.
  - vm_compute. reflexivity.
Defined.


(** What the parameter loop hands to libpq: the first [l] bytes of a value,
    NULL for an empty value and for the length [DB_NULL]; a length beyond the
    value is a read past the end of the vector. *)
Example bind_params_on_the_bench :
  bind_params (U := Bench.utils) 0 ["abc"; ""; "xy"]
    [COBOL_TYPE_ALPHANUMERIC; COBOL_TYPE_ALPHANUMERIC; COBOL_TYPE_ALPHANUMERIC]
    [2; 0; 4294967295]%Z [0; 0; 0]%Z
  = Some [ {| bp_type := OID_VARCHAR; bp_val := Some "ab"; bp_length := 2; bp_format := 0 |};
           {| bp_type := OID_VARCHAR; bp_val := None; bp_length := 0; bp_format := 0 |};
           {| bp_type := OID_VARCHAR; bp_val := None; bp_length := 0; bp_format := 0 |} ]
  /\ bind_params (U := Bench.utils) 0 ["ab"] [COBOL_TYPE_ALPHANUMERIC] [5]%Z [0]%Z = None.
Proof. split; reflexivity. Qed.

(** The row count is an [int]: a count in the command tag that does not fit
    wraps. *)
Example get_num_rows_wraps :
  get_num_rows (Some (Bench.command_ok "4294967297")) = 1%Z
  /\ get_num_rows (Some (Bench.command_ok "2147483648")) = (-2147483648)%Z
  /\ get_num_rows (Some (Bench.command_ok EmptyString)) = 0%Z.
Proof. repeat split. Qed.

(** The statement [Q1], prepared and executed on the bench with two
    parameters, the second one an empty value. *)
Lemma exec_prepared_on_the_bench :
  let s := Bench.after (prepare (E := Bench.codes) (L := Bench.backend) "Q1"
                          "SELECT a FROM t WHERE k = ? AND j = ?")
             (Bench.connected On) in
  exists c s',
    connaddr s = Some c
    /\ Bench.bench_exec_prepared "Q1" [COBOL_TYPE_ALPHANUMERIC; COBOL_TYPE_ALPHANUMERIC]
         ["abc"; ""] [2; 0]%Z [0; 0]%Z s = Some (DBERR_NO_ERROR, s')
    /\ connaddr s'
       = Some (exchanged c (ExecPrepared "q1" 2 [Some "ab"; None] [2; 0]%Z [0; 0]%Z)
                 (Some Bench.one_row))
    /\ current_resultset_data s' = current_resultset_data s
    /\ get_error_code s' = 2%Z.
Proof.
  cbv zeta. eexists.
  edestruct (exec_prepared_outcome (E := Bench.codes) (U := Bench.utils)
               (L := Bench.backend) "Q1"
               [COBOL_TYPE_ALPHANUMERIC; COBOL_TYPE_ALPHANUMERIC]
               ["abc"; ""] [2; 0]%Z [0; 0]%Z
               [ {| bp_type := OID_VARCHAR; bp_val := Some "ab"; bp_length := 2;
                    bp_format := 0 |};
                 {| bp_type := OID_VARCHAR; bp_val := None; bp_length := 0;
                    bp_format := 0 |} ]
               (Bench.after (prepare (E := Bench.codes) (L := Bench.backend)
                               "Q1" "SELECT a FROM t WHERE k = ? AND j = ?")
                  (Bench.connected On)))
    as (rc & s' & Hrun & Hconn & Hcur & _ & Hcase).
  - vm_compute. reflexivity.
  - vm_compute. reflexivity.
  - reflexivity.
  - reflexivity.
  - vm_compute. reflexivity.
  - cbn in Hcase. destruct Hcase as (-> & Hrc & _).
    exists s'. split; [reflexivity|]. split; [exact Hrun|].
    split; [exact Hconn|]. split; [exact Hcur | exact Hrc].
Defined.

Lemma exec_prepared_rows_on_the_bench :
  let s := Bench.after (prepare (E := Bench.codes) (L := Bench.backend) "Q1" "SELECT a FROM t")
             (Bench.connected On) in
  exists s1 s2,
    Bench.bench_exec_prepared "Q1" [] [] [] [] s = Some (DBERR_NO_ERROR, s1)
    /\ move_to_first_record (E := Bench.codes) "q1" s1 = Some (true, s2).
Proof.
  cbv zeta.
  eapply (exec_prepared_then_move_to_first_record (E := Bench.codes) (U := Bench.utils)
            (L := Bench.backend) "Q1" "q1" [] [] [] [] [] _ _ Bench.one_row).
  - vm_compute. reflexivity.
  - vm_compute. reflexivity.
  - reflexivity.
  - reflexivity.
  - reflexivity.
  - reflexivity.
  - now right.
  - reflexivity.
  - discriminate.
Defined.

Lemma prepared_and_not_executed_on_the_bench :
  let s1 := Bench.after (prepare (E := Bench.codes) (L := Bench.backend) "Q1" "SELECT a FROM t")
              (Bench.connected On) in
  (exists s2, move_to_first_record (E := Bench.codes) "Q1" s1 = Some (false, s2)
              /\ get_state s2 = "HY000"
              /\ get_error_code s2 = DBERR_MOVE_TO_FIRST_FAILED (DbErr := Bench.codes))
  /\ get_resultset_value (L := Bench.backend) s1 PreparedStatement
       (PreparedStatementContextData "Q1") 0 0 (repeat "x"%char 8) 8 false
     = Some {| rv_return := false; rv_bfr := repeat "x"%char 8; rv_value_len := 0;
               rv_is_db_null := false |}.
Proof.
  cbv zeta.
  apply (prepared_and_not_executed (E := Bench.codes) (L := Bench.backend)
           "Q1" "SELECT a FROM t" (Bench.connected On)).
  - vm_compute. discriminate.
  - discriminate.
  - vm_compute. reflexivity.
Defined.

(** A buffer of two bytes is too short for [abc]: nothing is changed. *)
Lemma get_resultset_value_outputs_on_the_bench :
  let rv := {| rv_return := false; rv_bfr := repeat "x"%char 8; rv_value_len := 0;
               rv_is_db_null := true |} in
  (rv_return rv = false ->
   rv_bfr rv = repeat "x"%char 8 /\ rv_value_len rv = 0%Z /\ rv_is_db_null rv = true)
  /\ (true = true -> rv_is_db_null rv = true).
Proof.
  cbv zeta.
  apply (get_resultset_value_outputs (L := Bench.backend) Bench.after_select
           CurrentResultSet CurrentResultSetContextData 0 0 (repeat "x"%char 8) 2 true).
  vm_compute. reflexivity.
Defined.

(** [abc] read with [bfrlen = 3] into eight bytes: the bytes from offset 4
    on are as before. *)
Lemma get_resultset_value_footprint_on_the_bench :
  let bfr := repeat "x"%char 8 in
  exists rv,
    get_resultset_value (L := Bench.backend) Bench.after_select CurrentResultSet
      CurrentResultSetContextData 0 0 bfr 3 false = Some rv
    /\ skipn 4 (rv_bfr rv) = skipn 4 bfr.
Proof.
  cbv zeta. eexists. split; [vm_compute; reflexivity|].
  eapply (get_resultset_value_footprint (L := Bench.backend) Bench.after_select
            CurrentResultSet CurrentResultSetContextData 0 0 (repeat "x"%char 8) 3 false).
  - cbn. lia.
  - vm_compute. reflexivity.
Defined.


(** Three fetches on an emulated cursor over two rows. *)
Lemma emulated_fetch_on_the_bench :
  let rs := {| rs_addr := 7; resultset := Some Bench.two_rows;
               current_row_index := -1; num_rows := 2 |} in
  let c := {| getName := "CRSR01"; getPrivateData := Some rs |} in
  exists c' rs' s',
    fetch_times (EC := Bench.cursor_codes) (E := Bench.codes) (U := Bench.utils)
      (L := Bench.table_backend) 3 c 1 (Bench.attached On false)
    = Some (([DBERR_NO_ERROR; DBERR_NO_ERROR; DBERR_NO_DATA], c'), s')
    /\ getPrivateData c' = Some rs'
    /\ current_row_index rs' = 2%Z
    /\ num_rows rs' = 2%Z
    /\ resultset rs' = Some Bench.two_rows.
Proof.
  cbv zeta.
  apply (emulated_fetch_counts (EC := Bench.cursor_codes) (E := Bench.codes)
           (U := Bench.utils) (L := Bench.table_backend) 3 1
           {| getName := "CRSR01";
              getPrivateData := Some {| rs_addr := 7; resultset := Some Bench.two_rows;
                                        current_row_index := -1; num_rows := 2 |} |}
           {| rs_addr := 7; resultset := Some Bench.two_rows;
              current_row_index := -1; num_rows := 2 |}
           (Bench.attached On false)).
  - reflexivity.
  - reflexivity.
Defined.

(** After the first fetch the second column argument reads row 0 whatever
    row is asked for. *)
Lemma emulated_fetch_then_value_on_the_bench :
  let rs := {| rs_addr := 7; resultset := Some Bench.two_rows;
               current_row_index := -1; num_rows := 2 |} in
  let c := {| getName := "CRSR01"; getPrivateData := Some rs |} in
  let c' := setPrivateData (Some (set_current_row_index 0 rs)) c in
  get_resultset_value (L := Bench.table_backend) (Bench.attached On false) Cursor
    (CursorContextData (Some c')) 1 0 (repeat "x"%char 8) 8 false
  = get_resultset_value (L := Bench.table_backend) (Bench.attached On false) Cursor
      (CursorContextData (Some c')) (-1 + 1) 0 (repeat "x"%char 8) 8 false.
Proof.
  cbv zeta.
  eapply (emulated_fetch_then_get_resultset_value (EC := Bench.cursor_codes)
            (E := Bench.codes) (U := Bench.utils) (L := Bench.table_backend)
            {| getName := "CRSR01";
               getPrivateData := Some {| rs_addr := 7; resultset := Some Bench.two_rows;
                                         current_row_index := -1; num_rows := 2 |} |}
            _ {| rs_addr := 7; resultset := Some Bench.two_rows;
                 current_row_index := -1; num_rows := 2 |}
            1 _ 1 0 (Bench.attached On false) _ (Bench.attached On false)).
  - reflexivity.
  - reflexivity.
  - cbn. lia.
  - vm_compute. reflexivity.
Defined.

(** Opening the bench's cursor, with a parameter, without native cursors. *)
Lemma cursor_open_on_the_bench :
  exists rs s',
    cursor_open (E := Bench.codes) (U := Bench.utils) (L := Bench.table_backend)
      (EC := Bench.cursor_codes) (SU := Bench.str_utils)
      (Some (Bench.crsr, Bench.crsr_source_k)) (Bench.attached On false)
    = Some ((DBERR_NO_ERROR, Some (setPrivateData (Some rs) Bench.crsr)), s')
    /\ connaddr s'
       = Some {| conn_status := CONNECTION_OK;
                 conn_log := [(ExecParams "SELECT a FROM t WHERE k = $1" 1 [OID_VARCHAR]
                                 [Some "42"] [2%Z] [0%Z], Some Bench.two_rows)] |}
    /\ resultset rs = Some Bench.two_rows
    /\ current_row_index rs = (-1)%Z
    /\ num_rows rs = 2%Z.
Proof.
  destruct (cursor_open_emulated (E := Bench.codes) (U := Bench.utils)
              (L := Bench.table_backend) (EC := Bench.cursor_codes) (SU := Bench.str_utils)
              Bench.crsr Bench.crsr_source_k
              [ {| bp_type := OID_VARCHAR; bp_val := Some "42"; bp_length := 2;
                   bp_format := 0 |} ]
              (Bench.attached On false) (Bench.options On)
              {| conn_status := CONNECTION_OK; conn_log := [] |})
    as (rs & s' & Hrun & Hconn & Hrs & Hidx & Hrows & _);
    try reflexivity; try discriminate.
  exists rs, s'. repeat apply conj; assumption.
Defined.

(** A FETCH that the bench answers with two rows. *)
Lemma cursor_fetch_native_on_the_bench :
  exists rs s',
    cursor_fetch_one (E := Bench.codes) (U := Bench.utils) (L := Bench.table_backend)
      (EC := Bench.cursor_codes) (Some Bench.crsr) 1 (Bench.attached On true)
    = Some ((DBERR_TOO_MUCH_DATA (DbErrCursor := Bench.cursor_codes),
             Some (setPrivateData (Some rs) Bench.crsr)), s')
    /\ resultset rs = Some Bench.two_rows
    /\ get_error_code s' = 0%Z.
Proof.
  destruct (cursor_fetch_one_native (E := Bench.codes) (U := Bench.utils)
              (L := Bench.table_backend) (EC := Bench.cursor_codes)
              Bench.crsr 1 (Bench.attached On true) (Bench.options On)
              {| conn_status := CONNECTION_OK; conn_log := [] |})
    as (rs & s' & Hrun & Hrs & _ & Hrc); try reflexivity.
  exists rs, s'. repeat apply conj; assumption.
Defined.

Lemma cursor_open_refusals_on_the_bench :
  let s := Bench.attached On false in
  let open := cursor_open (E := Bench.codes) (U := Bench.utils) (L := Bench.table_backend)
                (EC := Bench.cursor_codes) (SU := Bench.str_utils) in
  let src := Bench.crsr_source in
  open None s = Some ((DBERR_OPEN_CURSOR_FAILED (DbErrCursor := Bench.cursor_codes), None), s)
  /\ (getQuery src = EmptyString ->
      fst (getQuerySource src) = None ->
      open (Some (Bench.crsr, src)) s
      = Some ((DBERR_OPEN_CURSOR_FAILED (DbErrCursor := Bench.cursor_codes), Some Bench.crsr),
              set_last_error "Empty query" (set_last_rc (-1) s)))
  /\ (getQuery src <> EmptyString ->
      List.length (getParameterTypes src) <> List.length (getParameterValues src)
      \/ List.length (getParameterTypes src) <> List.length (getParameterFlags src) ->
      open (Some (Bench.crsr, src)) s
      = Some ((DBERR_OPEN_CURSOR_FAILED (DbErrCursor := Bench.cursor_codes), Some Bench.crsr),
              set_last_rc (DBERR_INTERNAL_ERR (DbErr := Bench.codes))
                (set_last_error "Internal error: parameter count mismatch" s))).
Proof.
  cbv zeta.
  apply (cursor_open_refusals (E := Bench.codes) (U := Bench.utils) (L := Bench.table_backend)
           (EC := Bench.cursor_codes) (SU := Bench.str_utils)).
  - reflexivity.
  - vm_compute. discriminate.
Defined.

End DriverLaws.

(** ** GixPreProcessor: process *)

Module PreProcessorLaws.

Import PreProcessor PreProcessorFacts.

Section Laws.

Context {P : Steps}.

(** The steps [transform] runs are the first steps of the list, in order;
    all of them when it returns true, at least one when it returns false. *)
Lemma transform_from_order (first : step_ptr) (todo : list step_ptr) :
  forall (idx : nat) (prev_step : option step_ptr) (w w' : world) (b : bool)
         (evs : list run_event),
    transform_from first idx todo prev_step w = Some (b, w', evs) ->
    exists rest, todo = (map ev_step evs ++ rest)%list
                 /\ (b = true -> rest = [])
                 /\ (b = false -> evs <> []).
Proof.
  induction todo as [|step todo IH]; intros idx prev_step w w' b evs;
    cbn [transform_from].
  - intros [= <- <- <-]. exists []. repeat split; congruence.
  - destruct (if negb (step =? first)%nat then _ else _) as [o|]; [|discriminate].
    destruct (run step prev_step _) as [ok w1].
    destruct ok; cbn [negb].
    + destruct (transform_from first (S idx) todo (Some step) w1)
        as [[[b1 w2] evs1]|] eqn:Hrest; [|discriminate].
      intros [= <- <- <-].
      destruct (IH _ _ _ _ _ _ Hrest) as (rest & -> & Ht & Hf).
      exists rest. cbn. repeat split; [exact Ht | discriminate].
    + intros [= <- <- <-]. exists todo. cbn. repeat split; discriminate.
Qed.

Lemma transform_frame (gp gp' : GixPreProcessor) (b : bool) (evs : list run_event) :
  transform gp = Some (b, gp', evs) ->
  input gp' = input gp /\ output gp' = output gp /\ steps gp' = steps gp
  /\ opts gp' = opts gp /\ _infile gp' = _infile gp /\ _outfile gp' = _outfile gp.
Proof.
  unfold transform. destruct (steps gp) as [|first rest] eqn:Hs.
  - intros [= <- <- <-]. repeat split. exact Hs.
  - destruct (transform_from _ _ _ _ _) as [[[b1 w] evs1]|]; [|discriminate].
    intros [= <- <- <-]. repeat split. exact Hs.
Qed.

Lemma transform_order (gp gp' : GixPreProcessor) (b : bool) (evs : list run_event) :
  transform gp = Some (b, gp', evs) ->
  exists rest, steps gp = (map ev_step evs ++ rest)%list
               /\ (b = true -> rest = [])
               /\ (steps gp <> [] -> evs <> []).
Proof.
  unfold transform. destruct (steps gp) as [|first rest] eqn:Hs.
  - intros [= <- <- <-]. exists []. repeat split; congruence.
  - destruct (transform_from _ _ _ _ _) as [[[b1 w] evs1]|] eqn:Ht; [|discriminate].
    intros [= <- <- <-].
    destruct (transform_from_order _ _ _ _ _ _ _ _ Ht) as (rest' & Hr & Htrue & Hfalse).
    exists rest'. split; [exact Hr|]. split; [exact Htrue|].
    intros _. destruct b1; [|now apply Hfalse].
    rewrite (Htrue eq_refl), List.app_nil_r in Hr.
    intros ->. discriminate.
Qed.

(** The first event of [transform]: the objects and records it is entered
    with. *)
Lemma transform_first_event (gp gp' : GixPreProcessor) (b : bool)
    (ev : run_event) (evs : list run_event) :
  transform gp = Some (b, gp', ev :: evs) ->
  ev_objects ev = objects gp /\ ev_data ev = data_objects gp.
Proof.
  unfold transform. destruct (steps gp) as [|first rest] eqn:Hs; [discriminate|].
  cbn [transform_from]. rewrite Nat.eqb_refl. cbn [negb].
  destruct (run first None _) as [ok w1].
  destruct ok; cbn [negb].
  - destruct (transform_from first 1 rest (Some first) w1) as [[[b1 w2] evs1]|];
      [|discriminate].
    intros [= _ _ <- _]. now split.
  - intros [= _ _ <- _]. now split.
Qed.

(** X23: [process] runs the steps of the pipeline in their order, from the first
    one on and without leaving one out; when it returns true it has run
    them all, and there was at least one. *)
Theorem process_runs_the_steps_in_order (gp gp' : GixPreProcessor) (b : bool)
    (evs : list run_event) :
  process gp = Some (b, gp', evs) ->
  exists rest,
    steps gp = (map ev_step evs ++ rest)%list
    /\ (b = true -> rest = [] /\ evs <> []).
Proof.
  intros Hrun.
  destruct (process_cases gp) as [Hn|[[Hs He]|(first & lst & gp2 & Hf & _ & Hset & Hc)]].
  - congruence.
  - rewrite He in Hrun. injection Hrun as <- <- <-.
    exists (steps gp). split; [reflexivity | discriminate].
  - destruct Hc as [[_ He]|(_ & no & _ & [(_ & _ & He)|(_ & [[_ He]|[_ He]])])];
      rewrite He in Hrun;
      try (injection Hrun as <- <- <-; exists (steps gp);
           split; [reflexivity | discriminate]).
    destruct (transform_order _ _ _ _ Hrun) as (rest & Hr & Htrue & Hne).
    destruct (set_files_spec _ _ _ _ Hset)
      as (_ & _ & _ & _ & _ & _ & _ & _ & _ & _ & Hsteps & _).
    rewrite Hsteps in Hr, Hne.
    exists rest. split; [exact Hr|]. intros Hb. split; [now apply Htrue|].
    apply Hne. unfold firstStep in Hf. destruct (steps gp); discriminate.
Qed.

(** X24: [process] does not copy the file records, it shares them.  On a
    pipeline that is not empty, [input] and the input of the first step
    point to one new record, [output] and the output of the last step to
    another.  When no step has run (a check has failed), [getInputFile] and
    [getOutputFile] return the names given to [setInputFile] and
    [setOutputFile], the first and the last step keep the new records, and
    the step list and the options are as before; when a step has run, these
    are the records the first step is run on, holding the two names at that
    moment. *)
Theorem process_records_the_files (gp gp' : GixPreProcessor) (b : bool)
    (evs : list run_event) :
  steps gp <> [] ->
  process gp = Some (b, gp', evs) ->
  exists first lst infile outfile,
    firstStep gp = Some first /\ lastStep gp = Some lst
    /\ input gp' = Some infile /\ output gp' = Some outfile
    /\ infile <> outfile
    /\ match evs with
       | [] =>
           getInputFile gp' = Some (_infile gp)
           /\ getOutputFile gp' = Some (_outfile gp)
           /\ (getInput <$> objects gp' !! first) = Some (Some infile)
           /\ (getOutput <$> objects gp' !! lst) = Some (Some outfile)
           /\ steps gp' = steps gp /\ opts gp' = opts gp
       | ev :: _ =>
           ev_step ev = first
           /\ input_at ev = Some (Some infile)
           /\ output_at ev lst = Some (Some outfile)
           /\ ev_data ev !! infile = Some (file_data (_infile gp))
           /\ ev_data ev !! outfile = Some (file_data (_outfile gp))
       end.
Proof.
  intros Hne Hrun.
  destruct (process_cases gp) as [Hn|[[Hs He]|(first & lst & gp2 & Hf & Hl & Hset & Hc)]];
    [congruence | congruence |].
  destruct (set_files_spec _ _ _ _ Hset)
    as (infile & outfile & Hio & _ & _ & Hi & Ho & Hd & Hfi & Hlo & Hsteps & Hopts & _).
  destruct (set_files_data _ _ _ _ Hset) as (Hdi & Hdo & _).
  exists first, lst, infile, outfile.
  assert (Hstop : forall i m,
             process gp = Some (false, SET_PP_ERR i m gp2, []) ->
             firstStep gp = Some first /\ lastStep gp = Some lst
             /\ input gp' = Some infile /\ output gp' = Some outfile
             /\ infile <> outfile
             /\ match evs with
                | [] =>
                    getInputFile gp' = Some (_infile gp)
                    /\ getOutputFile gp' = Some (_outfile gp)
                    /\ (getInput <$> objects gp' !! first) = Some (Some infile)
                    /\ (getOutput <$> objects gp' !! lst) = Some (Some outfile)
                    /\ steps gp' = steps gp /\ opts gp' = opts gp
                | ev :: _ =>
                    ev_step ev = first
                    /\ input_at ev = Some (Some infile)
                    /\ output_at ev lst = Some (Some outfile)
                    /\ ev_data ev !! infile = Some (file_data (_infile gp))
                    /\ ev_data ev !! outfile = Some (file_data (_outfile gp))
                end).
  { intros i m He. rewrite He in Hrun. injection Hrun as <- <- <-.
    unfold getInputFile, getOutputFile.
    cbn [SET_PP_ERR set_err_data input output data_objects objects steps opts].
    rewrite Hdi, Hdo. repeat split; assumption. }
  destruct Hc as [[_ He]|(_ & no & _ & [(_ & _ & He)|(_ & [[_ He]|[_ He]])])];
    try (now apply (Hstop _ _ He)).
  rewrite He in Hrun.
  destruct (transform_frame _ _ _ _ Hrun) as (Hi' & Ho' & _).
  destruct (transform_order _ _ _ _ Hrun) as (rest & Hr & _ & Hnil).
  rewrite Hsteps in Hr, Hnil.
  do 2 (split; [assumption|]).
  split; [now rewrite Hi'|]. split; [now rewrite Ho'|]. split; [exact Hio|].
  destruct evs as [|ev evs']; [now destruct (Hnil Hne)|].
  destruct (transform_first_event _ _ _ _ _ Hrun) as [Hobj Hdata].
  assert (Hst : ev_step ev = first).
  { unfold firstStep in Hf. rewrite Hr in Hf. cbn in Hf. congruence. }
  unfold input_at, output_at. rewrite Hst, Hobj, Hdata, Hd.
  repeat split; try assumption.
  - rewrite lookup_insert_ne by congruence. apply lookup_insert_eq.
  - apply lookup_insert_eq.
Qed.

(** X25: no step runs before the checks have passed: if [process] has run a
    step, the input name is valid, the input file exists, and the output
    name is valid unless the option [no_output] is true.  If it has run no
    step it returns false, and either the pipeline is empty and nothing has
    changed, or the error code is 1, 2 or 4 for the check that failed. *)
Theorem process_checks_before_it_runs (gp gp' : GixPreProcessor) (b : bool)
    (evs : list run_event) :
  process gp = Some (b, gp', evs) ->
  (evs <> [] ->
   isValid (file_data (_infile gp)) = true
   /\ file_exists (_infile gp) = true
   /\ (getOpt gp "no_output" false = VBool true
       \/ isValid (file_data (_outfile gp)) = true))
  /\ (evs = [] ->
      b = false
      /\ ((steps gp = [] /\ gp' = gp)
          \/ (isValid (file_data (_infile gp)) = false
              /\ err_code (err_data gp') = 1%Z)
          \/ (isValid (file_data (_outfile gp)) = false
              /\ err_code (err_data gp') = 2%Z)
          \/ (file_exists (_infile gp) = false
              /\ err_code (err_data gp') = 4%Z))).
Proof.
  intros Hrun.
  destruct (process_cases gp) as [Hn|[[Hs He]|(first & lst & gp2 & Hf & _ & Hset & Hc)]].
  - congruence.
  - rewrite He in Hrun. injection Hrun as <- <- <-.
    split; [congruence|]. intros _. split; [reflexivity|]. now left.
  - destruct Hc as [[Hvi He]|(Hvi & no & Hno & [(_ & Hvo & He)|(Hout & [[Hfe He]|[Hfe He]])])];
      rewrite He in Hrun.
    + injection Hrun as <- <- <-. split; [congruence|]. intros _.
      split; [reflexivity|]. right. left. now split.
    + injection Hrun as <- <- <-. split; [congruence|]. intros _.
      split; [reflexivity|]. right. right. left. now split.
    + injection Hrun as <- <- <-. split; [congruence|]. intros _.
      split; [reflexivity|]. right. right. right. now split.
    + destruct (transform_order _ _ _ _ Hrun) as (rest & Hr & _ & Hne).
      destruct (set_files_spec _ _ _ _ Hset)
        as (_ & _ & _ & _ & _ & _ & _ & _ & _ & _ & Hsteps & _).
      rewrite Hsteps in Hr, Hne.
      assert (Hnil : steps gp <> []).
      { unfold firstStep in Hf. destruct (steps gp); discriminate. }
      split; [|intros He'; now destruct (Hne Hnil)].
      intros _. repeat split; try assumption.
      destruct Hout as [->|Hvo]; [left | now right].
      destruct (getOpt gp "no_output" false); try discriminate.
      cbn in Hno. congruence.
Qed.

(** X26: with the option [no_output] set to a value that is not a bool,
    [process] throws as soon as the input name has passed its check: it
    returns only for an empty pipeline or an invalid input name. *)
Theorem process_with_ill_typed_no_output (gp : GixPreProcessor) (v : variant) :
  opts gp !! "no_output" = Some v ->
  get_bool v = None ->
  process gp = None
  \/ exists gp', process gp = Some (false, gp', [])
                 /\ (steps gp = [] \/ isValid (file_data (_infile gp)) = false).
Proof.
  intros Hv Hb.
  destruct (process_cases gp) as [Hn|[[Hs He]|(first & lst & gp2 & _ & _ & _ & Hc)]].
  - now left.
  - right. exists gp. split; [exact He | now left].
  - destruct Hc as [[Hvi He]|(_ & no & Hno & _)].
    + right. eexists. split; [exact He | now right].
    + unfold getOpt in Hno. rewrite Hv in Hno. congruence.
Qed.

End Laws.

(** *** On the bench *)

Lemma process_order_on_the_bench :
  exists gp' evs rest,
    process (P := PipelineBench.steps_impl) (PipelineBench.gixpp [0; 1; 2]%nat)
    = Some (true, gp', evs)
    /\ [0; 1; 2]%nat = (map ev_step evs ++ rest)%list
    /\ rest = [] /\ evs <> [].
Proof.
  destruct (process (P := PipelineBench.steps_impl) (PipelineBench.gixpp [0; 1; 2]%nat))
    as [[[b gp'] evs]|] eqn:Hrun; [|vm_compute in Hrun; discriminate].
  assert (Hb : b = true) by (vm_compute in Hrun; congruence).
  subst b.
  destruct (process_runs_the_steps_in_order (P := PipelineBench.steps_impl)
              _ _ _ _ Hrun) as (rest & Hr & Ht).
  exists gp', evs, rest. split; [reflexivity|]. split; [exact Hr|]. exact (Ht eq_refl).
Defined.

(** A last step that renames its output: [getOutputFile] follows, and the
    name given to [setOutputFile] is gone. *)
Lemma process_files_on_the_bench :
  let gp := PipelineBench.gixpp [0; 1; 2]%nat in
  exists b gp' ev evs infile outfile,
    process (P := PipelineBench.renaming_steps) gp = Some (b, gp', ev :: evs)
    /\ input gp' = Some infile /\ output gp' = Some outfile
    /\ input_at ev = Some (Some infile)
    /\ output_at ev 2%nat = Some (Some outfile)
    /\ ev_data ev !! outfile = Some (file_data "foo.cob")
    /\ getInputFile gp' = Some "foo.cbl"
    /\ getOutputFile gp' = Some "foo.out".
Proof.
  cbv zeta.
  destruct (process (P := PipelineBench.renaming_steps) (PipelineBench.gixpp [0; 1; 2]%nat))
    as [[[b gp'] evs]|] eqn:Hrun; [|vm_compute in Hrun; discriminate].
  destruct (process_records_the_files (P := PipelineBench.renaming_steps)
              (PipelineBench.gixpp [0; 1; 2]%nat) gp' b evs)
    as (first & lst & infile & outfile & Hf & Hl & Hi & Ho & _ & Hev);
    [discriminate | exact Hrun |].
  injection Hl as <-.
  destruct evs as [|ev evs]; [vm_compute in Hrun; discriminate|].
  destruct Hev as (_ & Hin & Hout & _ & Hdo).
  exists b, gp', ev, evs, infile, outfile.
  split; [reflexivity|]. do 5 (split; [assumption|]).
  vm_compute in Hrun. injection Hrun as _ <- _ _. split; reflexivity.
Defined.

Lemma process_checks_on_the_bench :
  exists b gp' evs,
    process (P := PipelineBench.empty_disk) (PipelineBench.gixpp [0; 1; 2]%nat)
    = Some (b, gp', evs)
    /\ evs = [] /\ b = false /\ err_code (err_data gp') = 4%Z.
Proof.
  destruct (process (P := PipelineBench.empty_disk) (PipelineBench.gixpp [0; 1; 2]%nat))
    as [[[b gp'] evs]|] eqn:Hrun; [|vm_compute in Hrun; discriminate].
  assert (He : evs = []) by (vm_compute in Hrun; congruence).
  destruct (process_checks_before_it_runs (P := PipelineBench.empty_disk)
              _ _ _ _ Hrun) as [_ Hnone].
  destruct (Hnone He) as [Hb [[Hs _]|[[Hv _]|[[Hv _]|[_ Hc]]]]];
    [discriminate Hs | discriminate Hv | discriminate Hv |].
  exists b, gp', evs. repeat split; assumption.
Defined.

Lemma process_ill_typed_on_the_bench :
  let gp := setOpt "no_output" (VString "yes") (PipelineBench.gixpp [0; 1; 2]%nat) in
  process (P := PipelineBench.steps_impl) gp = None
  \/ exists gp', process (P := PipelineBench.steps_impl) gp = Some (false, gp', [])
                 /\ (steps gp = [] \/ isValid (Steps := PipelineBench.steps_impl)
                                        (file_data (_infile gp)) = false).
Proof.
  cbv zeta.
  apply (process_with_ill_typed_no_output (P := PipelineBench.steps_impl)
           (setOpt "no_output" (VString "yes") (PipelineBench.gixpp [0; 1; 2]%nat))
           (VString "yes")).
  - vm_compute. reflexivity.
  - reflexivity.
Defined.

End PreProcessorLaws.

(** ** gixpp: main *)

Module MainFacts.

Import Gixpp PreProcessor GixppMain.

(** *** The value of --varying *)

Lemma find_some (c : ascii) (s : string) (i : nat) :
  find c s = Some i ->
  exists a b, s = a ++ String c b /\ String.length a = i /\ find c a = None.
Proof.
  revert i. induction s as [|x s IH]; intros i; cbn [find]; [discriminate|].
  destruct (Ascii.eqb x c) eqn:Hx.
  - apply Ascii.eqb_eq in Hx. subst x. intros [= <-].
    exists EmptyString, s. repeat split.
  - destruct (find c s) as [k|] eqn:Hf; [|discriminate].
    cbn. intros [= <-].
    destruct (IH k eq_refl) as (a & b & -> & Hlen & Hna).
    exists (String x a), b. repeat split.
    + cbn. now rewrite Hlen.
    + cbn [find]. now rewrite Hx, Hna.
Qed.

Lemma find_app_none (c : ascii) (a b : string) :
  find c a = None -> find c (a ++ String c b) = Some (String.length a).
Proof.
  induction a as [|x a IH]; cbn [find].
  - intros _. change (find c (String c b) = Some 0%nat). cbn [find].
    now rewrite Ascii.eqb_refl.
  - destruct (Ascii.eqb x c) eqn:Hx; [discriminate|].
    destruct (find c a) eqn:Hf; [discriminate|]. intros _.
    change (find c (String x (a ++ String c b)) = Some (S (String.length a))).
    cbn [find]. now rewrite Hx, IH.
Qed.

Lemma length_append (a b : string) :
  String.length (a ++ b) = (String.length a + String.length b)%nat.
Proof.
  induction a as [|x a IH]; [reflexivity|].
  change (S (String.length (a ++ b)) = S (String.length a + String.length b)).
  now rewrite IH.
Qed.

(** X27: [main] lets a value of [--varying] pass exactly when there is text
    before its first comma and text after it. *)
Theorem varying_ids_accepted (v : string) :
  (Z.of_nat (String.length v) < 2147483648)%Z ->
  bad_varying_ids v = false
  <-> exists a b, v = a ++ String "," b /\ a <> EmptyString /\ b <> EmptyString
                  /\ find "," a = None.
Proof.
  intros Hsmall. unfold bad_varying_ids. split.
  - intros Hbad.
    destruct (find "," v) as [i|] eqn:Hf; [|discriminate].
    destruct (find_some _ _ _ Hf) as (a & b & -> & Hlen & Hna).
    rewrite length_append in Hbad, Hsmall. cbn [String.length] in Hbad, Hsmall.
    assert (Hi : CLib.to_int (Z.of_nat i) = Z.of_nat i).
    { unfold CLib.to_int. rewrite Z.mod_small by lia. lia. }
    rewrite Hi in Hbad.
    apply orb_false_iff in Hbad as [Hbad Hlast].
    apply orb_false_iff in Hbad as [Hbad Hzero].
    apply orb_false_iff in Hbad as [_ Hthree].
    apply Z.eqb_neq in Hzero, Hlast.
    unfold CLib.to_uint64 in Hlast. rewrite !Z.mod_small in Hlast by lia.
    exists a, b. repeat split; [| |exact Hna].
    + intros ->. cbn in Hlen. lia.
    + intros ->. cbn in Hlast. lia.
  - intros (a & b & -> & Ha & Hb & Hna).
    rewrite (find_app_none _ _ _ Hna).
    rewrite length_append in Hsmall |- *. cbn [String.length] in Hsmall |- *.
    assert (Hla : (1 <= String.length a)%nat) by (destruct a; [congruence | cbn; lia]).
    assert (Hlb : (1 <= String.length b)%nat) by (destruct b; [congruence | cbn; lia]).
    assert (Hi : CLib.to_int (Z.of_nat (String.length a)) = Z.of_nat (String.length a)).
    { unfold CLib.to_int. rewrite Z.mod_small by lia. lia. }
    rewrite Hi. unfold CLib.to_uint64, npos. rewrite !Z.mod_small by lia.
    repeat (apply orb_false_iff; split);
      first [apply Z.eqb_neq; lia | apply Z.ltb_ge; lia].
Qed.

Lemma varying_ids_accepted_witness :
  (Z.of_nat (String.length "LEN,ARR") < 2147483648)%Z
  /\ bad_varying_ids "LEN,ARR" = false.
Proof.
  split; [vm_compute; reflexivity|].
  apply (varying_ids_accepted "LEN,ARR"); [vm_compute; reflexivity|].
  exists "LEN", "ARR". repeat split; discriminate.
Defined.


(** [--no-rec-code] is read with [atoi] into an [int]: 4294967297 sets the
    option to 1, and 0 or a value beyond nine digits leaves it unset. *)
Example no_rec_code_values :
  opts (set_no_rec_code "4294967297" new_GixPreProcessor) !! "no_rec_code" = Some (VInt 1)
  /\ opts (set_no_rec_code "-100" new_GixPreProcessor) !! "no_rec_code" = Some (VInt (-100))
  /\ opts (set_no_rec_code "0" new_GixPreProcessor) !! "no_rec_code" = None
  /\ opts (set_no_rec_code "1000000000" new_GixPreProcessor) !! "no_rec_code" = None.
Proof. repeat split. Qed.

Section Main.

Context {P : Steps} {K : StepClasses}.

(** *** The pipeline [main] builds *)

Lemma setOpt_steps (id : string) (v : variant) (gp : GixPreProcessor) :
  steps (setOpt id v gp) = steps gp /\ objects (setOpt id v gp) = objects gp
  /\ err_data (setOpt id v gp) = err_data gp.
Proof. repeat split. Qed.

Lemma set_no_rec_code_steps (c : string) (gp : GixPreProcessor) :
  steps (set_no_rec_code c gp) = steps gp
  /\ objects (set_no_rec_code c gp) = objects gp
  /\ err_data (set_no_rec_code c gp) = err_data gp.
Proof. unfold set_no_rec_code. destruct (_ && _); repeat split. Qed.

Lemma set_no_rec_code_opts (c id : string) (gp : GixPreProcessor) :
  id <> "no_rec_code" ->
  opts (set_no_rec_code c gp) !! id = opts gp !! id.
Proof.
  intros Hne. unfold set_no_rec_code. destruct (_ && _); [|reflexivity].
  cbn. now rewrite lookup_insert_ne by congruence.
Qed.

Lemma esql_options_frame (args : cmdline) (gp : GixPreProcessor) :
  steps (esql_options args gp) = steps gp
  /\ objects (esql_options args gp) = objects gp
  /\ err_data (esql_options args gp) = err_data gp
  /\ (opts gp !! "no_output" = None -> opts (esql_options args gp) !! "no_output" = None).
Proof.
  unfold esql_options.
  match goal with
  | |- context [setOpt "debug_parser_scanner" ?v ?g] =>
      set (g9 := setOpt "debug_parser_scanner" v g)
  end.
  assert (H9 : steps g9 = steps gp /\ objects g9 = objects gp /\ err_data g9 = err_data gp
               /\ (opts gp !! "no_output" = None -> opts g9 !! "no_output" = None)).
  { subst g9. destruct (opt_varying_ids args); repeat split; intros Hn; cbn;
      repeat (rewrite lookup_insert_ne by discriminate); exact Hn. }
  clearbody g9. destruct H9 as (Hs & Ho & He & Hn).
  destruct (opt_no_rec_code args) as [c|]; [|repeat split; assumption].
  destruct (set_no_rec_code_steps c g9) as (-> & -> & ->).
  rewrite set_no_rec_code_opts by discriminate. repeat split; assumption.
Qed.

Lemma add_new_step_shape (st : ITransformationStep) (gp : GixPreProcessor) :
  let p := fresh (dom (objects gp)) in
  steps (add_new_step st gp) = (steps gp ++ [p])%list
  /\ objects (add_new_step st gp) = <[p := st]> (objects gp)
  /\ err_data (add_new_step st gp) = err_data gp
  /\ opts (add_new_step st gp) = opts gp
  /\ p ∉ dom (objects gp).
Proof. intros p. repeat split. apply is_fresh. Qed.

Lemma add_new_step_well_formed (st : ITransformationStep) (gp : GixPreProcessor) :
  well_formed gp ->
  well_formed (add_new_step st gp)
  /\ step_objects (add_new_step st gp) = (step_objects gp ++ [Some st])%list.
Proof.
  intros [Hnd Hobj].
  destruct (add_new_step_shape st gp) as (Hs & Ho & _ & _ & Hfresh). cbv zeta in *.
  set (p := fresh (dom (objects gp))) in *.
  assert (Hnew : p ∉ steps gp).
  { intros Hin. apply Hfresh. apply elem_of_dom. now apply Hobj. }
  split; [split|].
  - rewrite Hs. apply NoDup_app. split; [exact Hnd|]. split.
    + intros x Hx Hx'. apply list_elem_of_singleton in Hx'. now subst x.
    + apply NoDup_singleton.
  - intros q. rewrite Hs, Ho, elem_of_app, list_elem_of_singleton.
    intros [Hq| ->]; [|now rewrite lookup_insert_eq].
    rewrite lookup_insert_ne by (intros <-; contradiction). now apply Hobj.
  - unfold step_objects. rewrite Hs, Ho, map_app. cbn [map].
    rewrite lookup_insert_eq. f_equal.
    apply map_ext_in. intros q Hq. apply list_elem_of_In in Hq.
    rewrite lookup_insert_ne by (intros <-; contradiction). reflexivity.
Qed.

Lemma well_formed_frame (g g' : GixPreProcessor) :
  steps g' = steps g -> objects g' = objects g ->
  well_formed g -> well_formed g' /\ step_objects g' = step_objects g.
Proof.
  intros Hs Ho Hw. unfold well_formed, step_objects. rewrite Hs, Ho. now split.
Qed.

Lemma well_formed_new : well_formed new_GixPreProcessor.
Proof. split; [constructor | intros p Hp; now apply elem_of_nil in Hp]. Qed.

(** What [configure] makes of the new preprocessor. *)
Lemma configure_frame (args : cmdline) :
  let gp := configure args new_GixPreProcessor in
  well_formed gp
  /\ step_objects gp
     = map Some ((if opt_consolidate args then [TPSourceConsolidation] else [])
                 ++ (if opt_esql args then [TPESQLParser; TPESQLProcessor] else []))%list
  /\ opts gp !! "no_output" = None
  /\ err_data gp = err_data new_GixPreProcessor.
Proof.
  intros gp. subst gp. unfold configure.
  set (g0 := if opt_consolidate args then _ else _).
  assert (H0 : well_formed g0
               /\ step_objects g0
                  = map Some (if opt_consolidate args then [TPSourceConsolidation] else [])
               /\ opts g0 !! "no_output" = None
               /\ err_data g0 = err_data new_GixPreProcessor).
  { subst g0. destruct (opt_consolidate args).
    - destruct (add_new_step_well_formed TPSourceConsolidation _ well_formed_new) as [Hw Hso].
      split; [exact Hw|]. split; [exact Hso|]. split; [apply lookup_empty | reflexivity].
    - split; [exact well_formed_new|]. split; [reflexivity|].
      split; [apply lookup_empty | reflexivity]. }
  clearbody g0. destruct H0 as (Hw0 & Hso0 & Hno0 & He0).
  set (g1 := if opt_esql args then _ else _).
  assert (H1 : well_formed g1
               /\ step_objects g1
                  = (step_objects g0
                     ++ map Some (if opt_esql args then [TPESQLParser; TPESQLProcessor] else []))%list
               /\ opts g1 !! "no_output" = None
               /\ err_data g1 = err_data new_GixPreProcessor).
  { subst g1. destruct (opt_esql args).
    - destruct (esql_options_frame args g0) as (Hs & Ho & He & Hn).
      destruct (well_formed_frame g0 (esql_options args g0) Hs Ho Hw0) as [Hw1 Hso1].
      destruct (add_new_step_well_formed TPESQLParser _ Hw1) as [Hw2 Hso2].
      destruct (add_new_step_well_formed TPESQLProcessor _ Hw2) as [Hw3 Hso3].
      split; [exact Hw3|]. split; [|split].
      + rewrite Hso3, Hso2, Hso1, <- List.app_assoc. reflexivity.
      + cbn. now apply Hn.
      + change (err_data (esql_options args g0) = err_data new_GixPreProcessor).
        now rewrite He.
    - cbn [map]. rewrite List.app_nil_r.
      split; [exact Hw0|]. split; [reflexivity|]. split; assumption. }
  clearbody g1. destruct H1 as (Hw1 & Hso1 & Hno1 & He1).
  destruct (well_formed_frame g1 (setOpt "emit_debug_info" (VBool (opt_debug_info args)) g1)
              eq_refl eq_refl Hw1) as [Hw Hso].
  split; [exact Hw|]. split; [|split].
  - rewrite Hso, Hso1, Hso0, map_app. reflexivity.
  - cbn. now rewrite lookup_insert_ne by discriminate.
  - exact He1.
Qed.

(** X28: the pipeline [main] hands to [process]: the consolidation step if [-c]
    is given, then the ESQL parser and the ESQL processor if [-e] is given,
    each a new object of its own; so with [-c] or [-e] the pipeline is never
    empty and no step object is in it twice. *)
Theorem main_builds_the_pipeline (args : cmdline) :
  let gp := configure args new_GixPreProcessor in
  step_objects gp
  = map Some ((if opt_consolidate args then [TPSourceConsolidation] else [])
              ++ (if opt_esql args then [TPESQLParser; TPESQLProcessor] else []))%list
  /\ NoDup (steps gp).
Proof.
  intros gp. destruct (configure_frame args) as ([Hnd _] & Hso & _).
  split; [exact Hso | exact Hnd].
Qed.

(** [process] on a well-formed pipeline whose input file is not there. *)
Lemma process_missing_input (gp : GixPreProcessor) :
  steps gp <> [] ->
  (forall p, p ∈ steps gp -> is_Some (objects gp !! p)) ->
  opts gp !! "no_output" = None ->
  isValid {| type := Filename; filename := _infile gp |} = true ->
  isValid {| type := Filename; filename := _outfile gp |} = true ->
  file_exists (_infile gp) = false ->
  exists gp',
    process gp = Some (false, gp', [])
    /\ err_data gp' = {| err_code := 4;
                         err_messages := (err_messages (err_data gp)
                                          ++ ["Input file does not exist"])%list;
                         warnings := warnings (err_data gp) |}.
Proof.
  intros Hne Hobj Hno Hvi Hvo Hfe. unfold process, firstStep, lastStep.
  destruct (steps gp) as [|first rest] eqn:Hs; [congruence|]. cbn [head].
  destruct (List.exists_last (l := first :: rest)) as (l' & lst & Hl); [discriminate|].
  rewrite Hl, last_snoc.
  assert (Hf : is_Some (objects gp !! first)) by (apply Hobj, list_elem_of_here).
  assert (Hlst : is_Some (objects gp !! lst)).
  { apply Hobj. rewrite Hl. apply elem_of_app. right. apply list_elem_of_here. }
  destruct (PreProcessorFacts.set_files_some first lst gp Hf Hlst) as [gp2 Hset].
  rewrite Hset.
  destruct (PreProcessorFacts.set_files_data _ _ _ _ Hset) as (Hin & _ & Hbad).
  destruct (PreProcessorFacts.set_files_spec _ _ _ _ Hset)
    as (_ & _ & _ & _ & _ & _ & _ & _ & _ & _ & _ & Hopts & Herr & _).
  rewrite Hin, Hbad. change (file_data (_infile gp))
    with {| type := Filename; filename := _infile gp |}.
  change (file_data (_outfile gp)) with {| type := Filename; filename := _outfile gp |}.
  rewrite Hvi, Hvo. cbn [negb filename].
  unfold getOpt. rewrite Hopts, Hno. cbn [get_bool negb]. rewrite Hfe. cbn [negb].
  eexists. split; [reflexivity|].
  cbn [SET_PP_ERR set_err_data err_data]. now rewrite Herr.
Qed.

(** X29: [gixpp] on an input file that does not exist: with [-e] or [-c], both
    file names given, distinct and valid, and nothing wrong in the other
    options, [main] exits with code 4 and the one message
    [Input file does not exist]. *)
Theorem main_on_a_missing_input_file (args : cmdline) (infile outfile outfile' : string) :
  unknown_options args = [] ->
  opt_help args = false ->
  opt_version args = false ->
  opt_consolidate args || opt_esql args = true ->
  opt_infile args = Some infile ->
  opt_outfile args = Some outfile ->
  match opt_picx_as_varchar args with
  | Some p => p = "char" \/ p = "charf" \/ p = "varchar"
  | None => True
  end ->
  match opt_varying_ids args with
  | Some v => bad_varying_ids v = false
  | None => True
  end ->
  main_files infile outfile = Process infile outfile' ->
  isValid {| type := Filename; filename := infile |} = true ->
  isValid {| type := Filename; filename := outfile' |} = true ->
  file_exists infile = false ->
  main args = Some (4%Z, line "Input file does not exist").
Proof.
  intros Hu Hh Hv Hce Hi Ho Hp Hy Hfiles Hvi Hvo Hfe. unfold main.
  rewrite Hu, Hh, Hv, Hi, Ho. cbn [List.length Nat.eqb negb].
  assert (Hce' : negb (opt_consolidate args) && negb (opt_esql args) = false).
  { destruct (opt_consolidate args), (opt_esql args); try reflexivity; discriminate. }
  rewrite Hce'.
  assert (Hp' : (match opt_picx_as_varchar args with Some _ => true | None => false end)
                && negb (String.eqb (value_or "char" (opt_picx_as_varchar args)) "char")
                && negb (String.eqb (value_or "char" (opt_picx_as_varchar args)) "charf")
                && negb (String.eqb (value_or "char" (opt_picx_as_varchar args)) "varchar")
                = false).
  { destruct (opt_picx_as_varchar args) as [p|]; [|reflexivity].
    destruct Hp as [-> | [-> | ->]]; reflexivity. }
  rewrite Hp'.
  assert (Hy' : match opt_varying_ids args with
                | Some v => bad_varying_ids v
                | None => false
                end = false).
  { destruct (opt_varying_ids args); [exact Hy | reflexivity]. }
  rewrite Hy', Hfiles.
  destruct (configure_frame args) as ([_ Hobj] & Hso & Hno & He). cbv zeta in *.
  set (gp := configure args new_GixPreProcessor) in *.
  destruct (process_missing_input (setOutputFile outfile' (setInputFile infile gp)))
    as (gp' & -> & Herr); try assumption.
  - cbn [steps setOutputFile setInputFile]. intros Hnil.
    unfold step_objects in Hso. rewrite Hnil in Hso.
    destruct (opt_consolidate args), (opt_esql args); discriminate.
  - rewrite Herr. cbn [negb err_code err_messages warnings err_data setOutputFile setInputFile].
    rewrite He. reflexivity.
Qed.

End Main.

(** *** On the bench *)

Lemma main_missing_input_on_the_bench :
  main (P := PipelineBench.empty_disk) (K := PipelineBench.step_classes)
    PipelineBench.esql_run
  = Some (4%Z, line "Input file does not exist").
Proof.
  apply (main_on_a_missing_input_file (P := PipelineBench.empty_disk)
           (K := PipelineBench.step_classes) PipelineBench.esql_run
           "foo.cbl" "foo.cbsql" "foo.cbsql");
    try reflexivity; exact I.
Defined.

End MainFacts.

(** ** DbInterfaceFactory *)

Module FactoryFacts.

Import Factory.

Section Loader.

Context {D : Dl}.

Lemma load_dblib_never_null (lib_id : string) : load_dblib lib_id <> Some None.
Proof.
  unfold load_dblib. destruct (256 <=? _)%nat; [discriminate|].
  destruct (dlopen _) as [h|]; [|discriminate].
  destruct (dlsym h "get_dblib") as [[d|]|]; discriminate.
Qed.

Lemma load_dblib_some (lib_id : string) (i : IDbInterface) :
  load_dblib lib_id = Some (Some i) ->
  exists h d,
    dlopen ("libgixsql-" ++ lib_id ++ ".so") = Some h
    /\ dlsym h "get_dblib" = Some (Some d)
    /\ i = init (set_native_lib_ptr (Some h) d).
Proof.
  unfold load_dblib. destruct (256 <=? _)%nat; [discriminate|].
  rewrite FixupFacts.append_assoc.
  destruct (dlopen _) as [h|]; [|discriminate].
  destruct (dlsym h "get_dblib") as [[d|]|] eqn:Hd; try discriminate.
  intros [= <-]. now exists h, d.
Qed.

(** X30: [getInterface] returns a null interface for the names that
    [getAvailableDrivers] does not list, and for no other: for a listed name
    whose library cannot be loaded, or gives no interface, the behaviour is
    undefined.  The interface it returns comes from the library
    [libgixsql-<name>.so], initialised and with the library handle on
    record. *)
Theorem getInterface_null_for_unknown_names_only (t : string) :
  (getInterface t = Some None <-> t ∉ getAvailableDrivers)
  /\ (forall i, getInterface t = Some (Some i) ->
        exists h d,
          dlopen ("libgixsql-" ++ t ++ ".so") = Some h
          /\ dlsym h "get_dblib" = Some (Some d)
          /\ i = init (set_native_lib_ptr (Some h) d)).
Proof.
  unfold getInterface, getAvailableDrivers.
  rewrite !not_elem_of_cons.
  destruct (String.eqb t "pgsql") eqn:H1;
    [apply String.eqb_eq in H1; subst t|apply String.eqb_neq in H1].
  { split; [|apply load_dblib_some].
    split; [intros H; now apply load_dblib_never_null in H | tauto]. }
  destruct (String.eqb t "odbc") eqn:H2;
    [apply String.eqb_eq in H2; subst t|apply String.eqb_neq in H2].
  { split; [|apply load_dblib_some].
    split; [intros H; now apply load_dblib_never_null in H | tauto]. }
  destruct (String.eqb t "mysql") eqn:H3;
    [apply String.eqb_eq in H3; subst t|apply String.eqb_neq in H3].
  { split; [|apply load_dblib_some].
    split; [intros H; now apply load_dblib_never_null in H | tauto]. }
  destruct (String.eqb t "oracle") eqn:H4;
    [apply String.eqb_eq in H4; subst t|apply String.eqb_neq in H4].
  { split; [|apply load_dblib_some].
    split; [intros H; now apply load_dblib_never_null in H | tauto]. }
  destruct (String.eqb t "sqlite") eqn:H5;
    [apply String.eqb_eq in H5; subst t|apply String.eqb_neq in H5].
  { split; [|apply load_dblib_some].
    split; [intros H; now apply load_dblib_never_null in H | tauto]. }
  split; [|discriminate].
  split; [intros _ | reflexivity].
  repeat split; try assumption. apply not_elem_of_nil.
Qed.

End Loader.

Example pgsql_driver_is_loaded :
  getInterface (D := Bench.loader) "pgsql" = Some (Some "pgsql driver")
  /\ getInterface (D := Bench.loader) "db2" = Some None
  /\ getInterface (D := Bench.loader) "mysql" = None.
Proof. repeat split. Qed.

End FactoryFacts.
